(** * Air-traffic-control simulator: kinematics, separation, resolution, safety

    A shallow embedding of the [atc_simulator] package
    ([aircraft.py], [airspace.py], [atc_system.py], [safety_evaluator.py],
    [simulator.py]) together with the properties of its specification.

    Numbers.  The program computes on Python floats.  They are idealised
    here as real numbers ([R]): comparisons, clamps, [abs], [%], [sqrt],
    [sin], [cos] and [atan2] are the real ones, and [float('inf')] is the
    extra point of [efloat].  Rounding, NaN and signed zeros are outside
    the model.  Python [int]s produced by [range] are [nat].

    Two statements would not survive rounding and are made without
    relying on exact arithmetic.  The remainder [x % 360] is in
    [0, 360) on the reals, but the machine rounds it to 360.0 for a tiny
    negative [x]: the flight envelope is stated with the heading in
    [0, 360] and proved for every remainder operator with results in
    that interval.  The sample the conflict detector keeps is the first
    of minimal separation on the reals, but rounded separations can
    make it another one where the minimum is attained several times:
    the detector is specified up to the choice of a minimal sample. *)

From Stdlib Require Import Reals Lra Lia ZArith.
From stdpp Require Import gmap strings list.

Open Scope R_scope.

(** ** Python arithmetic on floats *)

Definition Rltb (a b : R) : bool := if Rlt_dec a b then true else false.
Definition Rleb (a b : R) : bool := if Rle_dec a b then true else false.
(** [a > b] and [a >= b] as Python evaluates them. *)
Definition Rgtb (a b : R) : bool := Rltb b a.
Definition Rgeb (a b : R) : bool := Rleb b a.

(** [max(a, b)] and [min(a, b)]: the first argument wins a tie. *)
Definition py_max (a b : R) : R := if Rltb a b then b else a.
Definition py_min (a b : R) : R := if Rltb b a then b else a.

(** [x % m] on floats: the result takes the sign of the divisor;
    [Int_part] is the floor.  This is the exact remainder, in [0, m)
    for a positive [m]; the machine's result equals it when [x] is not
    negative and may be rounded, as far as [m] itself, when it is. *)
Definition py_mod (x m : R) : R := x - m * IZR (Int_part (x / m)).

(** [int(x)]: truncation toward zero. *)
Definition py_int (x : R) : Z :=
  if Rle_dec 0 x then Int_part x else (- Int_part (- x))%Z.

(** [math.radians], [math.degrees]. *)
Definition radians (d : R) : R := d * (PI / 180).
Definition degrees (r : R) : R := r * (180 / PI).

(** [math.atan2(y, x)] on reals. *)
Definition atan2 (y x : R) : R :=
  if Rltb 0 x then atan (y / x)
  else if Rltb x 0 then
    if Rleb 0 y then atan (y / x) + PI else atan (y / x) - PI
  else if Rltb 0 y then PI / 2
  else if Rltb y 0 then - (PI / 2)
  else 0.

(** Floats extended with [float('inf')]. *)
Inductive efloat : Type :=
| Fin (r : R)
| Inf.

(** [a < b] where [a] may be infinite and [b] is finite. *)
Definition ef_ltb_r (a : efloat) (b : R) : bool :=
  match a with Fin r => Rltb r b | Inf => false end.

(** [a < b] where [a] is finite and [b] may be infinite. *)
Definition r_ltb_ef (a : R) (b : efloat) : bool :=
  match b with Fin r => Rltb a r | Inf => true end.

(** ** aircraft.py *)

Inductive AircraftStatus : Type :=
| TAXIING | DEPARTING | ENROUTE | ARRIVING | LANDED.

Module Position.
Record t : Type := mk { x : R; y : R; altitude : R }.

Definition distance_to (self other : t) : R :=
  sqrt ((x self - x other) ^ 2 + (y self - y other) ^ 2).

Definition vertical_separation (self other : t) : R :=
  Rabs (altitude self - altitude other).
End Position.

Module Velocity.
Record t : Type := mk { speed : R; heading : R }.

Definition normalize_heading (self : t) : t :=
  mk (speed self) (py_mod (heading self) 360).
End Velocity.

Module Waypoint.
Record t : Type := mk { name : string; x : R; y : R; altitude : option R }.
End Waypoint.

Module Aircraft.
Definition MAX_CLIMB_RATE : R := 2000.
Definition MAX_DESCENT_RATE : R := 2000.
Definition MAX_TURN_RATE : R := 3.
Definition MAX_SPEED_CHANGE : R := 10.
Definition MIN_ALTITUDE : R := 1000.
Definition MAX_ALTITUDE : R := 45000.
Definition MIN_SPEED : R := 120.
Definition MAX_SPEED : R := 550.

Record t : Type := mk {
  callsign : string;
  position : Position.t;
  velocity : Velocity.t;
  flight_plan : list Waypoint.t;
  aircraft_type : string;
  status : AircraftStatus;
  target_altitude : option R;
  target_heading : option R;
  target_speed : option R;
  current_waypoint_index : nat;
  time_in_simulation : R
}.

(** [Aircraft.__init__] *)
Definition init (cs : string) (p : Position.t) (v : Velocity.t)
    (fp : list Waypoint.t) (ty : string) (st : AircraftStatus) : t :=
  mk cs p v fp ty st None None None 0%nat 0.

(** Field assignments [self.f = v]. *)
Definition with_position (p : Position.t) (a : t) : t :=
  mk (callsign a) p (velocity a) (flight_plan a) (aircraft_type a) (status a)
     (target_altitude a) (target_heading a) (target_speed a)
     (current_waypoint_index a) (time_in_simulation a).
Definition with_velocity (v : Velocity.t) (a : t) : t :=
  mk (callsign a) (position a) v (flight_plan a) (aircraft_type a) (status a)
     (target_altitude a) (target_heading a) (target_speed a)
     (current_waypoint_index a) (time_in_simulation a).
Definition with_target_altitude (o : option R) (a : t) : t :=
  mk (callsign a) (position a) (velocity a) (flight_plan a) (aircraft_type a)
     (status a) o (target_heading a) (target_speed a)
     (current_waypoint_index a) (time_in_simulation a).
Definition with_target_heading (o : option R) (a : t) : t :=
  mk (callsign a) (position a) (velocity a) (flight_plan a) (aircraft_type a)
     (status a) (target_altitude a) o (target_speed a)
     (current_waypoint_index a) (time_in_simulation a).
Definition with_target_speed (o : option R) (a : t) : t :=
  mk (callsign a) (position a) (velocity a) (flight_plan a) (aircraft_type a)
     (status a) (target_altitude a) (target_heading a) o
     (current_waypoint_index a) (time_in_simulation a).
Definition with_current_waypoint_index (i : nat) (a : t) : t :=
  mk (callsign a) (position a) (velocity a) (flight_plan a) (aircraft_type a)
     (status a) (target_altitude a) (target_heading a) (target_speed a)
     i (time_in_simulation a).
Definition with_time_in_simulation (s : R) (a : t) : t :=
  mk (callsign a) (position a) (velocity a) (flight_plan a) (aircraft_type a)
     (status a) (target_altitude a) (target_heading a) (target_speed a)
     (current_waypoint_index a) s.

(** [self.position.altitude = h], [self.velocity.heading = h],
    [self.velocity.speed = s]. *)
Definition with_altitude (h : R) (a : t) : t :=
  with_position
    (Position.mk (Position.x (position a)) (Position.y (position a)) h) a.
Definition with_heading (h : R) (a : t) : t :=
  with_velocity (Velocity.mk (Velocity.speed (velocity a)) h) a.
Definition with_speed (s : R) (a : t) : t :=
  with_velocity (Velocity.mk s (Velocity.heading (velocity a))) a.

(** The waypoint under the cursor: [Some] exactly when
    [current_waypoint_index < len(flight_plan)]. *)
Definition current_waypoint (self : t) : option Waypoint.t :=
  flight_plan self !! current_waypoint_index self.

Definition _update_altitude (time_delta : R) (self : t) : t :=
  match target_altitude self with
  | None =>
      match current_waypoint self with
      | Some wp =>
          match Waypoint.altitude wp with
          | Some h => with_target_altitude (Some h) self
          | None => self
          end
      | None => self
      end
  | Some target =>
      let altitude_diff := target - Position.altitude (position self) in
      if Rltb (Rabs altitude_diff) 10 then
        with_target_altitude None (with_altitude target self)
      else
        let max_change :=
          (if Rgtb altitude_diff 0 then MAX_CLIMB_RATE else MAX_DESCENT_RATE)
          * (time_delta / 60) in
        let self :=
          if Rleb (Rabs altitude_diff) max_change then
            with_target_altitude None (with_altitude target self)
          else
            with_altitude
              (Position.altitude (position self)
               + (if Rgtb altitude_diff 0 then max_change else - max_change))
              self in
        with_altitude
          (py_max MIN_ALTITUDE
             (py_min MAX_ALTITUDE (Position.altitude (position self))))
          self
  end.

(** The two [while] loops of [_shortest_heading_difference], each run
    for at most [fuel] iterations. *)
Fixpoint sub_while (fuel : nat) (diff : R) : R :=
  match fuel with
  | O => diff
  | S k => if Rgtb diff 180 then sub_while k (diff - 360) else diff
  end.

Fixpoint add_while (fuel : nat) (diff : R) : R :=
  match fuel with
  | O => diff
  | S k => if Rltb diff (-180) then add_while k (diff + 360) else diff
  end.

(** Enough iterations for either loop to reach its exit condition
    (see [sub_while_exit] and [add_while_exit]). *)
Definition loop_bound (diff : R) : nat := Z.to_nat (up (Rabs diff / 360)).

Definition _shortest_heading_difference (current target : R) : R :=
  let diff := target - current in
  let diff := sub_while (loop_bound diff) diff in
  add_while (loop_bound diff) diff.

Definition _calculate_heading_to_waypoint (self : t) (waypoint : Waypoint.t) : R :=
  let dx := Waypoint.x waypoint - Position.x (position self) in
  let dy := Waypoint.y waypoint - Position.y (position self) in
  let angle_rad := atan2 dx dy in
  let heading := degrees angle_rad in
  py_mod heading 360.

Definition _update_heading (time_delta : R) (self : t) : t :=
  match target_heading self with
  | None =>
      match current_waypoint self with
      | Some wp =>
          with_target_heading (Some (_calculate_heading_to_waypoint self wp)) self
      | None => self
      end
  | Some target =>
      let heading_diff :=
        _shortest_heading_difference (Velocity.heading (velocity self)) target in
      if Rltb (Rabs heading_diff) 0.5 then
        with_target_heading None (with_heading target self)
      else
        let max_turn := MAX_TURN_RATE * time_delta in
        let self :=
          if Rleb (Rabs heading_diff) max_turn then
            with_target_heading None (with_heading target self)
          else
            with_heading
              (Velocity.heading (velocity self)
               + (if Rgtb heading_diff 0 then max_turn else - max_turn))
              self in
        with_velocity (Velocity.normalize_heading (velocity self)) self
  end.

Definition _update_speed (time_delta : R) (self : t) : t :=
  match target_speed self with
  | None => self
  | Some target =>
      let speed_diff := target - Velocity.speed (velocity self) in
      if Rltb (Rabs speed_diff) 1 then
        with_target_speed None (with_speed target self)
      else
        let max_change := MAX_SPEED_CHANGE * time_delta in
        let self :=
          if Rleb (Rabs speed_diff) max_change then
            with_target_speed None (with_speed target self)
          else
            with_speed
              (Velocity.speed (velocity self)
               + (if Rgtb speed_diff 0 then max_change else - max_change))
              self in
        with_speed
          (py_max MIN_SPEED (py_min MAX_SPEED (Velocity.speed (velocity self))))
          self
  end.

Definition _update_position (time_delta : R) (self : t) : t :=
  let distance := Velocity.speed (velocity self) * (time_delta / 3600) in
  let heading_rad := radians (Velocity.heading (velocity self)) in
  with_position
    (Position.mk
       (Position.x (position self) + distance * sin heading_rad)
       (Position.y (position self) + distance * cos heading_rad)
       (Position.altitude (position self)))
    self.

Definition _check_waypoint_progress (self : t) : t :=
  match current_waypoint self with
  | None => self
  | Some wp =>
      let distance :=
        sqrt ((Position.x (position self) - Waypoint.x wp) ^ 2
              + (Position.y (position self) - Waypoint.y wp) ^ 2) in
      if Rltb distance 1 then
        with_current_waypoint_index (S (current_waypoint_index self)) self
      else self
  end.

Definition update (time_delta : R) (self : t) : t :=
  let self := with_time_in_simulation (time_in_simulation self + time_delta) self in
  let self := _update_altitude time_delta self in
  let self := _update_heading time_delta self in
  let self := _update_speed time_delta self in
  let self := _update_position time_delta self in
  _check_waypoint_progress self.

Definition set_altitude (altitude : R) (self : t) : t :=
  with_target_altitude
    (Some (py_max MIN_ALTITUDE (py_min MAX_ALTITUDE altitude))) self.

Definition set_heading (heading : R) (self : t) : t :=
  with_target_heading (Some (py_mod heading 360)) self.

Definition set_speed (speed : R) (self : t) : t :=
  with_target_speed (Some (py_max MIN_SPEED (py_min MAX_SPEED speed))) self.

Definition predict_position (self : t) (time_ahead : R) : Position.t :=
  let distance := Velocity.speed (velocity self) * (time_ahead / 3600) in
  let heading_rad := radians (Velocity.heading (velocity self)) in
  Position.mk
    (Position.x (position self) + distance * sin heading_rad)
    (Position.y (position self) + distance * cos heading_rad)
    (Position.altitude (position self)).
End Aircraft.

(** ** airspace.py *)

Module SeparationRequirements.
Record t : Type := mk { horizontal_nm : R; vertical_ft : R }.

Definition standard (altitude : R) : t :=
  if Rltb altitude 29000 then mk 5.0 1000.0 else mk 5.0 2000.0.

Definition terminal : t := mk 3.0 1000.0.
End SeparationRequirements.

Module Conflict.
Record t : Type := mk {
  aircraft1 : string;
  aircraft2 : string;
  time_to_cpa : nat;
  horizontal_separation_at_cpa : efloat;
  vertical_separation_at_cpa : efloat;
  severity : string
}.

Definition is_violation (self : t) (sep_requirements : SeparationRequirements.t)
    : bool :=
  ef_ltb_r (horizontal_separation_at_cpa self)
    (SeparationRequirements.horizontal_nm sep_requirements)
  && ef_ltb_r (vertical_separation_at_cpa self)
       (SeparationRequirements.vertical_ft sep_requirements).
End Conflict.

Module Sector.
Record t : Type := mk {
  name : string;
  x_min : R;
  x_max : R;
  y_min : R;
  y_max : R;
  altitude_min : R;
  altitude_max : R;
  max_aircraft : Z
}.

Definition contains (self : t) (position : Position.t) : bool :=
  (Rleb (x_min self) (Position.x position)
   && Rleb (Position.x position) (x_max self))
  && (Rleb (y_min self) (Position.y position)
      && Rleb (Position.y position) (y_max self))
  && (Rleb (altitude_min self) (Position.altitude position)
      && Rleb (Position.altitude position) (altitude_max self)).
End Sector.

(** The pairs [(l[i], l[j])], [i < j], in the order of the nested loops
    [for i in range(len(l)): for j in range(i + 1, len(l))]
    (see [all_pairs_by_index]). *)
Fixpoint all_pairs {A : Type} (l : list A) : list (A * A) :=
  match l with
  | [] => []
  | a :: rest => (pair a <$> rest) ++ all_pairs rest
  end.

Module Airspace.
(** Of the object's state only [conflicts] is modelled; the sector
    list is not used by the operations below. *)
Record t : Type := mk { conflicts : list Conflict.t }.

Definition init : t := mk [].

Definition check_separation (aircraft1 aircraft2 : Aircraft.t) : R * R :=
  let horizontal :=
    Position.distance_to (Aircraft.position aircraft1) (Aircraft.position aircraft2) in
  let vertical :=
    Position.vertical_separation (Aircraft.position aircraft1)
      (Aircraft.position aircraft2) in
  (horizontal, vertical).

Definition is_separated (aircraft1 aircraft2 : Aircraft.t) : bool :=
  let '(horizontal, vertical) := check_separation aircraft1 aircraft2 in
  let avg_altitude :=
    (Position.altitude (Aircraft.position aircraft1)
     + Position.altitude (Aircraft.position aircraft2)) / 2 in
  let sep_req := SeparationRequirements.standard avg_altitude in
  Rgeb horizontal (SeparationRequirements.horizontal_nm sep_req)
  || Rgeb vertical (SeparationRequirements.vertical_ft sep_req).

Definition _calculate_severity (h_sep v_sep : efloat) (time_to_cpa : nat)
    (sep_req : SeparationRequirements.t) : string :=
  if (time_to_cpa <? 60)%nat
     || ef_ltb_r h_sep (SeparationRequirements.horizontal_nm sep_req * 0.5)
  then "high"
  else if (time_to_cpa <? 180)%nat
          || ef_ltb_r h_sep (SeparationRequirements.horizontal_nm sep_req * 0.75)
  then "medium"
  else "low".

(** The separation of the two predicted positions at offset [t]. *)
Definition h_sep_at (aircraft1 aircraft2 : Aircraft.t) (t : nat) : R :=
  Position.distance_to (Aircraft.predict_position aircraft1 (INR t))
    (Aircraft.predict_position aircraft2 (INR t)).
Definition v_sep_at (aircraft1 aircraft2 : Aircraft.t) (t : nat) : R :=
  Rabs (Position.altitude (Aircraft.predict_position aircraft1 (INR t))
        - Position.altitude (Aircraft.predict_position aircraft2 (INR t))).

(** One iteration of the sampling loop on the variables
    [(min_horizontal, min_vertical, time_at_min)]. *)
Definition sample_step (aircraft1 aircraft2 : Aircraft.t)
    (st : efloat * efloat * nat) (t : nat) : efloat * efloat * nat :=
  let '(min_horizontal, min_vertical, time_at_min) := st in
  let h_sep := h_sep_at aircraft1 aircraft2 t in
  let v_sep := v_sep_at aircraft1 aircraft2 t in
  if r_ltb_ef h_sep min_horizontal then (Fin h_sep, Fin v_sep, t) else st.

Definition sample_loop (aircraft1 aircraft2 : Aircraft.t) (time_steps : nat)
    : efloat * efloat * nat :=
  foldl (sample_step aircraft1 aircraft2) (Inf, Inf, 0%nat) (seq 0 time_steps).

Definition _check_pair_for_conflict (aircraft1 aircraft2 : Aircraft.t)
    (lookahead_time : R) : option Conflict.t :=
  let time_steps := py_int lookahead_time in
  let '(min_horizontal, min_vertical, time_at_min) :=
    sample_loop aircraft1 aircraft2 (Z.to_nat time_steps) in
  let avg_altitude :=
    (Position.altitude (Aircraft.position aircraft1)
     + Position.altitude (Aircraft.position aircraft2)) / 2 in
  let sep_req := SeparationRequirements.standard avg_altitude in
  if ef_ltb_r min_horizontal (SeparationRequirements.horizontal_nm sep_req)
     && ef_ltb_r min_vertical (SeparationRequirements.vertical_ft sep_req)
  then
    let severity :=
      _calculate_severity min_horizontal min_vertical time_at_min sep_req in
    Some (Conflict.mk (Aircraft.callsign aircraft1) (Aircraft.callsign aircraft2)
            time_at_min min_horizontal min_vertical severity)
  else None.

(** Returns the list and the object with [self.conflicts] replaced. *)
Definition detect_conflicts (self : t) (aircraft_list : list Aircraft.t)
    (lookahead_time : R) : list Conflict.t * t :=
  let conflicts :=
    omap (fun p => _check_pair_for_conflict (fst p) (snd p) lookahead_time)
      (all_pairs aircraft_list) in
  (conflicts, mk conflicts).

Definition get_conflicts_for_aircraft (self : t) (callsign : string)
    : list Conflict.t :=
  List.filter
    (fun c => bool_decide (Conflict.aircraft1 c = callsign)
              || bool_decide (Conflict.aircraft2 c = callsign))
    (conflicts self).

(** The sector operations act on the [sectors] attribute alone; it is
    passed and returned as a list. *)
Definition add_sector (sectors : list Sector.t) (sector : Sector.t) : list Sector.t :=
  sectors ++ [sector].

Definition get_sector (sectors : list Sector.t) (position : Position.t)
    : option Sector.t :=
  List.find (fun sector => Sector.contains sector position) sectors.

Definition get_aircraft_in_sector (sector : Sector.t)
    (aircraft_list : list Aircraft.t) : list Aircraft.t :=
  List.filter (fun ac => Sector.contains sector (Aircraft.position ac)) aircraft_list.

Definition is_sector_full (sector : Sector.t) (aircraft_list : list Aircraft.t) : bool :=
  let aircraft_in_sector := get_aircraft_in_sector sector aircraft_list in
  (Sector.max_aircraft sector <=? Z.of_nat (length aircraft_in_sector))%Z.

Definition create_default_sectors (sectors : list Sector.t)
    (x_range y_range : R * R) : list Sector.t :=
  let sectors :=
    add_sector sectors
      (Sector.mk "HIGH_WEST" (fst x_range) ((fst x_range + snd x_range) / 2)
         (fst y_range) (snd y_range) 18000 45000 20) in
  let sectors :=
    add_sector sectors
      (Sector.mk "HIGH_EAST" ((fst x_range + snd x_range) / 2) (snd x_range)
         (fst y_range) (snd y_range) 18000 45000 20) in
  let sectors :=
    add_sector sectors
      (Sector.mk "LOW_WEST" (fst x_range) ((fst x_range + snd x_range) / 2)
         (fst y_range) (snd y_range) 1000 18000 20) in
  add_sector sectors
    (Sector.mk "LOW_EAST" ((fst x_range + snd x_range) / 2) (snd x_range)
       (fst y_range) (snd y_range) 1000 18000 20).
End Airspace.

(** ** atc_system.py *)

Inductive InstructionType : Type :=
| ALTITUDE_CHANGE | HEADING_CHANGE | SPEED_CHANGE | HOLD | DIRECT_TO
| CLEARED_APPROACH.

Inductive Priority : Type :=
| LOW | MEDIUM | HIGH | CRITICAL.

(** Values stored in an instruction's [parameters] dict. *)
Inductive pyval : Type :=
| PFloat (r : R)
| PStr (s : string).

Module ATCInstruction.
Record t : Type := mk {
  callsign : string;
  timestamp : R;
  instruction_type : InstructionType;
  parameters : gmap string pyval;
  reason : string;
  priority : Priority
}.
End ATCInstruction.

#[global] Instance InstructionType_eq_dec : EqDecision InstructionType.
Proof. solve_decision. Defined.

Module ATCSystem.
Record t : Type := mk {
  airspace : Airspace.t;
  instructions : list ATCInstruction.t;
  instruction_count : nat
}.

Definition init (airspace : Airspace.t) : t := mk airspace [] 0%nat.

(** The aircraft objects are shared with the caller's list and are
    mutated in place, so the operations below transform the pair of
    the system object and the aircraft list; an aircraft object is
    named by its position in that list. *)
Definition state : Type := t * list Aircraft.t.

(** [parameters[key]] read as a float; [None] is the exception Python
    raises when the key is missing. *)
Definition float_param (key : string) (i : ATCInstruction.t) : option R :=
  match ATCInstruction.parameters i !! key with
  | Some (PFloat r) => Some r
  | _ => None
  end.

Definition _issue_instruction (instruction : ATCInstruction.t) (aircraft : nat)
    (st : state) : option state :=
  let '(self, aircraft_list) := st in
  let self :=
    mk (airspace self) (instructions self ++ [instruction])
       (S (instruction_count self)) in
  match ATCInstruction.instruction_type instruction with
  | ALTITUDE_CHANGE =>
      v ← float_param "new_altitude" instruction;
      Some (self, alter (Aircraft.set_altitude v) aircraft aircraft_list)
  | HEADING_CHANGE =>
      v ← float_param "new_heading" instruction;
      Some (self, alter (Aircraft.set_heading v) aircraft aircraft_list)
  | SPEED_CHANGE =>
      v ← float_param "new_speed" instruction;
      Some (self, alter (Aircraft.set_speed v) aircraft aircraft_list)
  | _ => Some (self, aircraft_list)
  end.

(** The scan of [_recently_instructed] over the instructions taken
    newest first. *)
Fixpoint recent_scan (callsign1 callsign2 : string) (current_time window : R)
    (newest_first : list ATCInstruction.t) : bool :=
  match newest_first with
  | [] => false
  | instruction :: older =>
      if Rgtb (current_time - ATCInstruction.timestamp instruction) window
      then false
      else if bool_decide
                (ATCInstruction.callsign instruction ∈ [callsign1; callsign2])
      then true
      else recent_scan callsign1 callsign2 current_time window older
  end.

(** [l[-n:]] *)
Definition last_n {A : Type} (n : nat) (l : list A) : list A :=
  drop (length l - n) l.

Definition _recently_instructed (self : t) (callsign1 callsign2 : string)
    (current_time window : R) : bool :=
  recent_scan callsign1 callsign2 current_time window
    (reverse (last_n 20 (instructions self))).

Definition severity_priority (conflict : Conflict.t) : Priority :=
  if bool_decide (Conflict.severity conflict = "high") then HIGH else MEDIUM.

(** [ac1] and [ac2] are given as (position in the list, object). *)
Definition _try_altitude_resolution (ac1 ac2 : nat * Aircraft.t)
    (conflict : Conflict.t) (current_time : R) (st : state)
    : option (bool * state) :=
  let avg_altitude :=
    (Position.altitude (Aircraft.position (snd ac1))
     + Position.altitude (Aircraft.position (snd ac2))) / 2 in
  let sep_req := SeparationRequirements.standard avg_altitude in
  let '(lower_ac, higher_ac) :=
    if Rltb (Position.altitude (Aircraft.position (snd ac1)))
            (Position.altitude (Aircraft.position (snd ac2)))
    then (ac1, ac2) else (ac2, ac1) in
  let new_altitude :=
    Position.altitude (Aircraft.position (snd lower_ac))
    - SeparationRequirements.vertical_ft sep_req - 1000 in
  if Rgeb new_altitude Aircraft.MIN_ALTITUDE then
    let instruction :=
      ATCInstruction.mk (Aircraft.callsign (snd lower_ac)) current_time
        ALTITUDE_CHANGE
        {[ "new_altitude" := PFloat new_altitude; "rate" := PStr "normal" ]}
        "traffic_conflict" (severity_priority conflict) in
    st ← _issue_instruction instruction (fst lower_ac) st;
    Some (true, st)
  else
    let new_altitude :=
      Position.altitude (Aircraft.position (snd higher_ac))
      + SeparationRequirements.vertical_ft sep_req + 1000 in
    if Rleb new_altitude Aircraft.MAX_ALTITUDE then
      let instruction :=
        ATCInstruction.mk (Aircraft.callsign (snd higher_ac)) current_time
          ALTITUDE_CHANGE
          {[ "new_altitude" := PFloat new_altitude; "rate" := PStr "normal" ]}
          "traffic_conflict" (severity_priority conflict) in
      st ← _issue_instruction instruction (fst higher_ac) st;
      Some (true, st)
    else Some (false, st).

Definition _try_heading_resolution (ac1 ac2 : nat * Aircraft.t)
    (conflict : Conflict.t) (current_time : R) (st : state)
    : option (bool * state) :=
  let new_heading :=
    py_mod (Velocity.heading (Aircraft.velocity (snd ac1)) + 30) 360 in
  let instruction :=
    ATCInstruction.mk (Aircraft.callsign (snd ac1)) current_time
      HEADING_CHANGE {[ "new_heading" := PFloat new_heading ]}
      "traffic_conflict" (severity_priority conflict) in
  st ← _issue_instruction instruction (fst ac1) st;
  Some (true, st).

Definition _try_speed_resolution (ac1 ac2 : nat * Aircraft.t)
    (conflict : Conflict.t) (current_time : R) (st : state)
    : option (bool * state) :=
  let '(new_speed, target_ac) :=
    if Rgtb (Velocity.speed (Aircraft.velocity (snd ac1)))
            (Velocity.speed (Aircraft.velocity (snd ac2)))
    then (py_max Aircraft.MIN_SPEED
            (Velocity.speed (Aircraft.velocity (snd ac1)) - 50), ac1)
    else (py_min Aircraft.MAX_SPEED
            (Velocity.speed (Aircraft.velocity (snd ac2)) + 50), ac2) in
  let instruction :=
    ATCInstruction.mk (Aircraft.callsign (snd target_ac)) current_time
      SPEED_CHANGE {[ "new_speed" := PFloat new_speed ]}
      "traffic_conflict" MEDIUM in
  st ← _issue_instruction instruction (fst target_ac) st;
  Some (true, st).

(** [next((ac for ac in aircraft_list if ac.callsign == cs), None)] *)
Definition find_aircraft (cs : string) (aircraft_list : list Aircraft.t)
    : option (nat * Aircraft.t) :=
  list_find (fun ac => Aircraft.callsign ac = cs) aircraft_list.

Definition _resolve_conflict (conflict : Conflict.t) (current_time : R)
    (st : state) : option state :=
  match find_aircraft (Conflict.aircraft1 conflict) (snd st),
        find_aircraft (Conflict.aircraft2 conflict) (snd st) with
  | Some ac1, Some ac2 =>
      if _recently_instructed (fst st) (Conflict.aircraft1 conflict)
           (Conflict.aircraft2 conflict) current_time 60.0
      then Some st
      else
        '(done_, st) ← _try_altitude_resolution ac1 ac2 conflict current_time st;
        if (done_ : bool) then Some st
        else
          '(done_, st) ← _try_heading_resolution ac1 ac2 conflict current_time st;
          if (done_ : bool) then Some st
          else
            '(_, st) ← _try_speed_resolution ac1 ac2 conflict current_time st;
            Some st
  | _, _ => Some st
  end.

(** The loop [for conflict in conflicts] of [update]. *)
Fixpoint resolve_all (conflicts : list Conflict.t) (current_time : R)
    (st : state) : option state :=
  match conflicts with
  | [] => Some st
  | conflict :: rest =>
      if bool_decide (Conflict.severity conflict ∈ ["high"; "medium"])
      then
        st ← _resolve_conflict conflict current_time st;
        resolve_all rest current_time st
      else resolve_all rest current_time st
  end.

Definition update (current_time : R) (st : state) : option state :=
  let '(self, aircraft_list) := st in
  let '(conflicts, airspace) :=
    Airspace.detect_conflicts (airspace self) aircraft_list 300.0 in
  let self := mk airspace (instructions self) (instruction_count self) in
  resolve_all conflicts current_time (self, aircraft_list).

Definition get_instructions_for_aircraft (self : t) (callsign : string)
    : list ATCInstruction.t :=
  List.filter (fun inst => bool_decide (ATCInstruction.callsign inst = callsign))
    (instructions self).

Definition get_recent_instructions (self : t) (time_window : R)
    : list ATCInstruction.t :=
  match last (instructions self) with
  | None => []
  | Some newest =>
      let current_time := ATCInstruction.timestamp newest in
      List.filter
        (fun inst => Rleb (current_time - ATCInstruction.timestamp inst) time_window)
        (instructions self)
  end.

(** [instruction_type.value] and [priority.value]. *)
Definition instruction_type_value (ty : InstructionType) : string :=
  match ty with
  | ALTITUDE_CHANGE => "altitude_change"
  | HEADING_CHANGE => "heading_change"
  | SPEED_CHANGE => "speed_change"
  | HOLD => "hold"
  | DIRECT_TO => "direct_to"
  | CLEARED_APPROACH => "cleared_approach"
  end.

Definition priority_value (p : Priority) : string :=
  match p with
  | LOW => "low"
  | MEDIUM => "medium"
  | HIGH => "high"
  | CRITICAL => "critical"
  end.

(** The dict returned by [get_statistics], one field per key. *)
Record statistics : Type := mk_statistics {
  total_instructions : nat;
  by_type : gmap string nat;
  by_priority : gmap string nat
}.

(** [d[k] = d.get(k, 0) + 1] *)
Definition count_up (k : string) (d : gmap string nat) : gmap string nat :=
  <[ k := (default 0 (d !! k) + 1)%nat ]> d.

Definition get_statistics (self : t) : statistics :=
  match instructions self with
  | [] => mk_statistics 0 ∅ ∅
  | _ =>
      let '(by_type, by_priority) :=
        foldl
          (fun '(by_type, by_priority) instruction =>
             let inst_type :=
               instruction_type_value (ATCInstruction.instruction_type instruction) in
             let priority := priority_value (ATCInstruction.priority instruction) in
             (count_up inst_type by_type, count_up priority by_priority))
          (∅, ∅) (instructions self) in
      mk_statistics (length (instructions self)) by_type by_priority
  end.

Definition clear_old_instructions (before_time : R) (self : t) : t :=
  mk (airspace self)
     (List.filter (fun inst => Rgeb (ATCInstruction.timestamp inst) before_time)
        (instructions self))
     (instruction_count self).
End ATCSystem.

(** ** safety_evaluator.py *)

Module SeparationViolation.
Record t : Type := mk {
  aircraft1 : string;
  aircraft2 : string;
  timestamp : R;
  horizontal_separation : R;
  vertical_separation : R;
  duration : R;
  severity : string
}.

(** [self.duration += d] *)
Definition add_duration (d : R) (v : t) : t :=
  mk (aircraft1 v) (aircraft2 v) (timestamp v) (horizontal_separation v)
     (vertical_separation v) (duration v + d) (severity v).
End SeparationViolation.

Module NearMiss.
Record t : Type := mk {
  aircraft1 : string;
  aircraft2 : string;
  timestamp : R;
  horizontal_separation : R;
  vertical_separation : R;
  min_separation_ratio : R
}.
End NearMiss.

(** [tuple(sorted([c1, c2]))]: the sort is stable, so the two are
    swapped exactly when [c2 < c1]. *)
Definition pair_key (c1 c2 : string) : string * string :=
  if String.ltb c2 c1 then (c2, c1) else (c1, c2).

Module SafetyMetrics.
Record t : Type := mk {
  simulation_duration : R;
  total_aircraft : nat;
  violation_count : nat;
  violation_duration_total : R;
  min_separation_achieved : efloat;
  near_miss_count : nat;
  near_miss_rate : R;
  conflicts_detected : nat;
  conflicts_resolved : Z;
  avg_resolution_time : R;
  total_instructions : nat;
  instructions_per_aircraft : R;
  avg_flight_efficiency : R
}.
End SafetyMetrics.

Module SafetyEvaluator.
Definition NEAR_MISS_THRESHOLD : R := 1.5.
Definition CRITICAL_VIOLATION_THRESHOLD : R := 0.5.

(** [violations] is the append-only history.  [active_violations]
    holds the very objects of the history: an entry is the position
    of its record in [violations], so that an update through the map
    is seen in the history, as it is for the shared Python object. *)
Record t : Type := mk {
  violations : list SeparationViolation.t;
  near_misses : list NearMiss.t;
  active_violations : gmap (string * string) nat;
  detected_conflicts : list Conflict.t;
  total_aircraft_seen : gset string;
  simulation_start_time : R;
  simulation_end_time : R
}.

Definition init : t := mk [] [] ∅ [] ∅ 0.0 0.0.

Definition with_violations (vs : list SeparationViolation.t) (s : t) : t :=
  mk vs (near_misses s) (active_violations s) (detected_conflicts s)
     (total_aircraft_seen s) (simulation_start_time s) (simulation_end_time s).
Definition with_near_misses (ns : list NearMiss.t) (s : t) : t :=
  mk (violations s) ns (active_violations s) (detected_conflicts s)
     (total_aircraft_seen s) (simulation_start_time s) (simulation_end_time s).
Definition with_active_violations (m : gmap (string * string) nat) (s : t) : t :=
  mk (violations s) (near_misses s) m (detected_conflicts s)
     (total_aircraft_seen s) (simulation_start_time s) (simulation_end_time s).

Definition _classify_violation_severity (h_sep v_sep : R)
    (ac1 ac2 : Aircraft.t) : string :=
  let avg_altitude :=
    (Position.altitude (Aircraft.position ac1)
     + Position.altitude (Aircraft.position ac2)) / 2 in
  let sep_req := SeparationRequirements.standard avg_altitude in
  let h_ratio := h_sep / SeparationRequirements.horizontal_nm sep_req in
  if Rltb h_ratio CRITICAL_VIOLATION_THRESHOLD then "critical"
  else if Rltb h_ratio 0.75 then "major"
  else "minor".

(** The body of the pair loop of [_check_violations], on the evaluator
    and the local set [current_violations].  The assignment to
    [min_separation_achieved] goes to a property setter whose body is
    [pass], and the getter it reads in the comparison has no effect:
    the statement changes nothing. *)
Definition violation_step (current_time : R)
    (acc : t * gset (string * string)) (p : Aircraft.t * Aircraft.t)
    : t * gset (string * string) :=
  let '(self, current_violations) := acc in
  let '(ac1, ac2) := p in
  if negb (Airspace.is_separated ac1 ac2) then
    let key := pair_key (Aircraft.callsign ac1) (Aircraft.callsign ac2) in
    let current_violations := {[ key ]} ∪ current_violations in
    let '(h_sep, v_sep) := Airspace.check_separation ac1 ac2 in
    match active_violations self !! key with
    | None =>
        let severity := _classify_violation_severity h_sep v_sep ac1 ac2 in
        let violation :=
          SeparationViolation.mk (Aircraft.callsign ac1) (Aircraft.callsign ac2)
            current_time h_sep v_sep 0.0 severity in
        let self :=
          with_active_violations
            (<[ key := length (violations self) ]> (active_violations self)) self in
        (with_violations (violations self ++ [violation]) self,
         current_violations)
    | Some i =>
        (with_violations
           (alter (SeparationViolation.add_duration 1.0) i (violations self)) self,
         current_violations)
    end
  else acc.

Definition _check_violations (aircraft_list : list Aircraft.t)
    (current_time : R) (self : t) : t :=
  let '(self, current_violations) :=
    foldl (violation_step current_time) (self, ∅) (all_pairs aircraft_list) in
  let resolved := dom (active_violations self) ∖ current_violations in
  with_active_violations
    (foldr delete (active_violations self) (elements resolved)) self.

(** [v_sep / vertical_ft if v_sep > 0 else float('inf')] and the
    [min] with it: [min(h_ratio, v_ratio)] is [v_ratio] exactly when
    [v_ratio < h_ratio]. *)
Definition v_ratio_of (v_sep : R) (sep_req : SeparationRequirements.t) : efloat :=
  if Rgtb v_sep 0 then Fin (v_sep / SeparationRequirements.vertical_ft sep_req)
  else Inf.

Definition min_ratio_of (h_ratio : R) (v_ratio : efloat) : R :=
  match v_ratio with
  | Fin v => py_min h_ratio v
  | Inf => h_ratio
  end.

(** The record the pair loop of [_check_near_misses] appends for a
    pair, if any. *)
Definition near_miss_of (current_time : R) (p : Aircraft.t * Aircraft.t)
    : option NearMiss.t :=
  let '(ac1, ac2) := p in
  let '(h_sep, v_sep) := Airspace.check_separation ac1 ac2 in
  let avg_altitude :=
    (Position.altitude (Aircraft.position ac1)
     + Position.altitude (Aircraft.position ac2)) / 2 in
  let sep_req := SeparationRequirements.standard avg_altitude in
  if Airspace.is_separated ac1 ac2 then
    let h_ratio := h_sep / SeparationRequirements.horizontal_nm sep_req in
    let v_ratio := v_ratio_of v_sep sep_req in
    let min_ratio := min_ratio_of h_ratio v_ratio in
    if Rltb min_ratio NEAR_MISS_THRESHOLD then
      Some (NearMiss.mk (Aircraft.callsign ac1) (Aircraft.callsign ac2)
              current_time h_sep v_sep min_ratio)
    else None
  else None.

Definition near_miss_step (current_time : R) (self : t)
    (p : Aircraft.t * Aircraft.t) : t :=
  match near_miss_of current_time p with
  | Some near_miss => with_near_misses (near_misses self ++ [near_miss]) self
  | None => self
  end.

Definition _check_near_misses (aircraft_list : list Aircraft.t)
    (current_time : R) (self : t) : t :=
  foldl (near_miss_step current_time) self (all_pairs aircraft_list).

(** [update]; [atc_system] is the optional argument. *)
Definition update (aircraft_list : list Aircraft.t) (current_time : R)
    (atc_system : option ATCSystem.t) (self : t) : t :=
  let self :=
    mk (violations self) (near_misses self) (active_violations self)
       (detected_conflicts self) (total_aircraft_seen self)
       (if Req_dec_T (simulation_start_time self) 0.0 then current_time
        else simulation_start_time self)
       current_time in
  let self :=
    mk (violations self) (near_misses self) (active_violations self)
       (detected_conflicts self)
       (foldl (fun seen ac => {[ Aircraft.callsign ac ]} ∪ seen)
          (total_aircraft_seen self) aircraft_list)
       (simulation_start_time self) (simulation_end_time self) in
  let self := _check_violations aircraft_list current_time self in
  let self := _check_near_misses aircraft_list current_time self in
  match atc_system with
  | Some atc =>
      mk (violations self) (near_misses self) (active_violations self)
         (detected_conflicts self ++ Airspace.conflicts (ATCSystem.airspace atc))
         (total_aircraft_seen self) (simulation_start_time self)
         (simulation_end_time self)
  | None => self
  end.

(** [min(v.horizontal_separation for v in violations)], and
    [float('inf')] when there is none: the getter of the
    [min_separation_achieved] property. *)
Definition min_separation_achieved (self : t) : efloat :=
  foldl
    (fun m v =>
       if r_ltb_ef (SeparationViolation.horizontal_separation v) m
       then Fin (SeparationViolation.horizontal_separation v) else m)
    Inf (violations self).

(** [sum(v.duration for v in violations)] *)
Definition duration_total (vs : list SeparationViolation.t) : R :=
  foldl (fun acc v => acc + SeparationViolation.duration v) 0 vs.

Definition calculate_metrics (atc_system : option ATCSystem.t) (self : t)
    : SafetyMetrics.t :=
  let duration := simulation_end_time self - simulation_start_time self in
  let total_aircraft := size (total_aircraft_seen self) in
  let violation_count := length (violations self) in
  let near_miss_count := length (near_misses self) in
  let near_miss_rate :=
    if (0 <? total_aircraft)%nat
    then INR near_miss_count / INR total_aircraft * 100
    else 0.0 in
  let conflicts_detected := length (detected_conflicts self) in
  let total_instructions :=
    match atc_system with
    | Some atc => ATCSystem.total_instructions (ATCSystem.get_statistics atc)
    | None => 0%nat
    end in
  SafetyMetrics.mk duration total_aircraft violation_count
    (duration_total (violations self)) (min_separation_achieved self)
    near_miss_count near_miss_rate conflicts_detected
    (Z.max 0 (Z.of_nat conflicts_detected - Z.of_nat violation_count))
    0.0 total_instructions
    (match atc_system with
     | Some _ =>
         if (0 <? total_aircraft)%nat
         then INR total_instructions / INR total_aircraft else 0.0
     | None => 0.0
     end)
    0.0.

Definition _calculate_safety_rating (metrics : SafetyMetrics.t) : string :=
  if (0 <? SafetyMetrics.violation_count metrics)%nat then "UNSAFE"
  else if Rgtb (SafetyMetrics.near_miss_rate metrics) 5.0 then "MARGINAL"
  else if Rgtb (SafetyMetrics.near_miss_rate metrics) 2.0 then "ACCEPTABLE"
  else "SAFE".
End SafetyEvaluator.

(** ** simulator.py *)

Module Simulator.
(** The simulator, the ATC system and the safety evaluator share one
    airspace object; it is kept in [atc_system], the only component
    that writes to it.  The aircraft of the list are distinct objects,
    named by their position in the list. *)
Record t : Type := mk {
  atc_system : ATCSystem.t;
  safety_evaluator : SafetyEvaluator.t;
  aircraft : list Aircraft.t;
  current_time : R;
  update_frequency : R;
  time_step : R
}.

(** [Simulator.__init__]; [airspace] is the optional argument, and
    [None] as a result is the ZeroDivisionError of
    [1.0 / update_frequency]. *)
Definition init (airspace : option Airspace.t) (update_frequency : R) : option t :=
  if Req_dec_T update_frequency 0 then None
  else
    Some (mk (ATCSystem.init (default Airspace.init airspace)) SafetyEvaluator.init
            [] 0.0 update_frequency (1.0 / update_frequency)).

Definition with_aircraft (l : list Aircraft.t) (self : t) : t :=
  mk (atc_system self) (safety_evaluator self) l (current_time self)
     (update_frequency self) (time_step self).

Definition add_aircraft (aircraft : Aircraft.t) (self : t) : t :=
  with_aircraft (Simulator.aircraft self ++ [aircraft]) self.

Definition remove_aircraft (callsign : string) (self : t) : t :=
  with_aircraft
    (List.filter (fun ac => negb (bool_decide (Aircraft.callsign ac = callsign)))
       (aircraft self))
    self.

Definition get_aircraft (callsign : string) (self : t) : option Aircraft.t :=
  List.find (fun ac => bool_decide (Aircraft.callsign ac = callsign)) (aircraft self).

(** [None] is an exception raised by the ATC update. *)
Definition step (self : t) : option t :=
  let aircraft := Aircraft.update (time_step self) <$> aircraft self in
  '(atc_system, aircraft) ←
    ATCSystem.update (current_time self) (atc_system self, aircraft);
  let safety_evaluator :=
    SafetyEvaluator.update aircraft (current_time self) (Some atc_system)
      (safety_evaluator self) in
  Some (mk atc_system safety_evaluator aircraft
          (current_time self + time_step self)
          (update_frequency self) (time_step self)).

(** The loop [for i in range(steps): self.step()]. *)
Fixpoint steps (n : nat) (self : t) : option t :=
  match n with
  | O => Some self
  | S k => self ← step self; steps k self
  end.

(** [run] without its printing; [None] is an exception, among them
    the ZeroDivisionError of [duration / self.time_step]. *)
Definition run (duration : R) (self : t) : option t :=
  if Req_dec_T (time_step self) 0 then None
  else steps (Z.to_nat (py_int (duration / time_step self))) self.

Definition get_metrics (self : t) : SafetyMetrics.t :=
  SafetyEvaluator.calculate_metrics (Some (atc_system self)) (safety_evaluator self).

(** The new ATC system is built on the same airspace object. *)
Definition reset (self : t) : t :=
  mk (ATCSystem.init (ATCSystem.airspace (atc_system self))) SafetyEvaluator.init
     [] 0.0 (update_frequency self) (time_step self).
End Simulator.

(** * Properties *)

(** ** Comparisons, clamps and the float modulo *)

Lemma Rltb_true (a b : R) : Rltb a b = true <-> a < b.
Proof. unfold Rltb. destruct (Rlt_dec a b); split; intros; (lra || congruence). Qed.

Lemma Rltb_false (a b : R) : Rltb a b = false <-> b <= a.
Proof. unfold Rltb. destruct (Rlt_dec a b); split; intros; (lra || congruence). Qed.

Lemma Rleb_true (a b : R) : Rleb a b = true <-> a <= b.
Proof. unfold Rleb. destruct (Rle_dec a b); split; intros; (lra || congruence). Qed.

Lemma Rleb_false (a b : R) : Rleb a b = false <-> b < a.
Proof. unfold Rleb. destruct (Rle_dec a b); split; intros; (lra || congruence). Qed.

(** Case analysis on one comparison of the goal, leaving the fact in
    the context. *)
Ltac case_Rltb a b :=
  let H := fresh "Hcmp" in
  destruct (Rltb a b) eqn:H;
  [apply Rltb_true in H | apply Rltb_false in H].
Ltac case_Rleb a b :=
  let H := fresh "Hcmp" in
  destruct (Rleb a b) eqn:H;
  [apply Rleb_true in H | apply Rleb_false in H].

(** Decide a comparison between closed (or [lra]-comparable) reals. *)
Ltac eval_Rcmp :=
  repeat match goal with
  | |- context [Rgtb ?a ?b] => unfold Rgtb
  | |- context [Rgeb ?a ?b] => unfold Rgeb
  | |- context [Rltb ?a ?b] =>
      first [ rewrite (proj2 (Rltb_true a b)) by lra
            | rewrite (proj2 (Rltb_false a b)) by lra ]
  | |- context [Rleb ?a ?b] =>
      first [ rewrite (proj2 (Rleb_true a b)) by lra
            | rewrite (proj2 (Rleb_false a b)) by lra ]
  end.

Lemma py_max_spec (a b : R) : py_max a b = Rmax a b.
Proof.
  unfold py_max, Rmax. case_Rltb a b; destruct (Rle_dec a b); lra.
Qed.

Lemma py_min_spec (a b : R) : py_min a b = Rmin a b.
Proof.
  unfold py_min, Rmin. case_Rltb b a; destruct (Rle_dec a b); lra.
Qed.

Lemma clamp_range (lo hi x : R) :
  lo <= hi -> lo <= py_max lo (py_min hi x) <= hi.
Proof.
  intros Hle. unfold py_max, py_min.
  case_Rltb x hi; [case_Rltb lo x | case_Rltb lo hi]; lra.
Qed.

Lemma clamp_id (lo hi x : R) :
  lo <= x <= hi -> py_max lo (py_min hi x) = x.
Proof.
  intros Hx. unfold py_max, py_min.
  case_Rltb x hi; [case_Rltb lo x | case_Rltb lo hi]; lra.
Qed.

Lemma py_mod_range (x m : R) : 0 < m -> 0 <= py_mod x m < m.
Proof.
  intros Hm. unfold py_mod.
  destruct (base_Int_part (x / m)) as [Hlo Hhi].
  assert (Hx : x = m * (x / m)) by (field; lra).
  set (q := IZR (Int_part (x / m))) in *.
  split.
  - assert (m * q <= m * (x / m)) by (apply Rmult_le_compat_l; lra). lra.
  - assert (m * (x / m) < m * (q + 1))
      by (apply Rmult_lt_compat_l; lra).
    lra.
Qed.

Lemma py_mod_id (x m : R) : 0 <= x < m -> py_mod x m = x.
Proof.
  intros [Hlo Hhi]. unfold py_mod.
  assert (Hm : 0 < m) by lra.
  assert (Hq : Int_part (x / m) = 0%Z).
  { destruct (base_Int_part (x / m)) as [H1 H2].
    assert (0 <= x / m) by (apply Rmult_le_pos; [lra | left; apply Rinv_0_lt_compat; lra]).
    assert (x / m < 1).
    { apply (Rmult_lt_reg_r m); [lra |]. unfold Rdiv.
      rewrite Rmult_assoc, Rinv_l by lra. lra. }
    assert (Hlt : (-1 < Int_part (x / m) < 1)%Z).
    { split; apply lt_IZR; lra. }
    lia. }
  rewrite Hq. lra.
Qed.

(** ** Separation (airspace.py) *)

Lemma standard_horizontal (altitude : R) :
  SeparationRequirements.horizontal_nm (SeparationRequirements.standard altitude) = 5.
Proof.
  unfold SeparationRequirements.standard.
  destruct (Rltb altitude 29000); simpl; lra.
Qed.

Lemma standard_vertical_low (altitude : R) :
  altitude < 29000 ->
  SeparationRequirements.vertical_ft (SeparationRequirements.standard altitude) = 1000.
Proof.
  intros H. unfold SeparationRequirements.standard.
  rewrite (proj2 (Rltb_true _ _)) by lra. simpl. lra.
Qed.

Lemma standard_vertical_high (altitude : R) :
  29000 <= altitude ->
  SeparationRequirements.vertical_ft (SeparationRequirements.standard altitude) = 2000.
Proof.
  intros H. unfold SeparationRequirements.standard.
  rewrite (proj2 (Rltb_false _ _)) by lra. simpl. lra.
Qed.

Lemma standard_vertical_bounds (altitude : R) :
  1000 <= SeparationRequirements.vertical_ft (SeparationRequirements.standard altitude)
  <= 2000.
Proof.
  destruct (Rlt_dec altitude 29000).
  - rewrite standard_vertical_low by lra. lra.
  - rewrite standard_vertical_high by lra. lra.
Qed.

(** The pair's average altitude, as every caller computes it. *)
Definition avg_altitude (a b : Aircraft.t) : R :=
  (Position.altitude (Aircraft.position a)
   + Position.altitude (Aircraft.position b)) / 2.

Definition pair_requirements (a b : Aircraft.t) : SeparationRequirements.t :=
  SeparationRequirements.standard (avg_altitude a b).

Definition horizontal_of (a b : Aircraft.t) : R :=
  Position.distance_to (Aircraft.position a) (Aircraft.position b).

Definition vertical_of (a b : Aircraft.t) : R :=
  Position.vertical_separation (Aircraft.position a) (Aircraft.position b).

Lemma is_separated_iff (a b : Aircraft.t) :
  Airspace.is_separated a b = true <->
  horizontal_of a b >= SeparationRequirements.horizontal_nm (pair_requirements a b)
  \/ vertical_of a b >= SeparationRequirements.vertical_ft (pair_requirements a b).
Proof.
  unfold Airspace.is_separated, Airspace.check_separation, Rgeb.
  fold (horizontal_of a b) (vertical_of a b) (avg_altitude a b).
  fold (pair_requirements a b).
  rewrite orb_true_iff, !Rleb_true. split; intros [H | H]; (left; lra) || (right; lra).
Qed.

(** C2.  [is_separated] holds exactly when the horizontal distance
    reaches the required horizontal minimum or the vertical separation
    reaches the required vertical minimum, the minima being those of
    [SeparationRequirements.standard] at the pair's average altitude:
    5 NM always, 1000 ft below 29000 ft and 2000 ft from there on.
    Both comparisons are inclusive: a pair at exactly 5 NM and 1000 ft
    below FL290 is separated, a pair at 4.99 NM and 999 ft is not. *)
Theorem C2_is_separated_either_axis (a b : Aircraft.t) :
  (Airspace.is_separated a b = true <->
     horizontal_of a b >= SeparationRequirements.horizontal_nm (pair_requirements a b)
     \/ vertical_of a b >= SeparationRequirements.vertical_ft (pair_requirements a b))
  /\ SeparationRequirements.horizontal_nm (pair_requirements a b) = 5
  /\ (avg_altitude a b < 29000 ->
      SeparationRequirements.vertical_ft (pair_requirements a b) = 1000)
  /\ (29000 <= avg_altitude a b ->
      SeparationRequirements.vertical_ft (pair_requirements a b) = 2000)
  /\ (horizontal_of a b = 5 -> vertical_of a b = 1000 -> avg_altitude a b < 29000 ->
      Airspace.is_separated a b = true)
  /\ (horizontal_of a b = 4.99 -> vertical_of a b = 999 ->
      Airspace.is_separated a b = false).
Proof.
  split; [apply is_separated_iff |].
  split; [apply standard_horizontal |].
  split; [apply standard_vertical_low |].
  split; [apply standard_vertical_high |].
  split.
  - intros Hh Hv Havg. apply is_separated_iff. left.
    unfold pair_requirements. rewrite standard_horizontal. lra.
  - intros Hh Hv. apply not_true_is_false. intros Hsep.
    apply is_separated_iff in Hsep. unfold pair_requirements in Hsep.
    rewrite standard_horizontal in Hsep.
    pose proof (standard_vertical_bounds (avg_altitude a b)) as Hb.
    destruct Hsep; lra.
Qed.

(** ** Kinematic update: what each stage leaves alone *)

Ltac unfold_with :=
  unfold Aircraft.with_altitude, Aircraft.with_heading, Aircraft.with_speed,
    Aircraft.with_position, Aircraft.with_velocity, Aircraft.with_target_altitude,
    Aircraft.with_target_heading, Aircraft.with_target_speed,
    Aircraft.with_current_waypoint_index, Aircraft.with_time_in_simulation,
    Velocity.normalize_heading.

(** Everything but the altitude and its pending target. *)
Definition same_but_altitude (a a' : Aircraft.t) : Prop :=
  Aircraft.callsign a' = Aircraft.callsign a
  /\ Position.x (Aircraft.position a') = Position.x (Aircraft.position a)
  /\ Position.y (Aircraft.position a') = Position.y (Aircraft.position a)
  /\ Aircraft.velocity a' = Aircraft.velocity a
  /\ Aircraft.flight_plan a' = Aircraft.flight_plan a
  /\ Aircraft.target_heading a' = Aircraft.target_heading a
  /\ Aircraft.target_speed a' = Aircraft.target_speed a
  /\ Aircraft.current_waypoint_index a' = Aircraft.current_waypoint_index a.

(** Everything but the heading and its pending target. *)
Definition same_but_heading (a a' : Aircraft.t) : Prop :=
  Aircraft.callsign a' = Aircraft.callsign a
  /\ Aircraft.position a' = Aircraft.position a
  /\ Velocity.speed (Aircraft.velocity a') = Velocity.speed (Aircraft.velocity a)
  /\ Aircraft.flight_plan a' = Aircraft.flight_plan a
  /\ Aircraft.target_altitude a' = Aircraft.target_altitude a
  /\ Aircraft.target_speed a' = Aircraft.target_speed a
  /\ Aircraft.current_waypoint_index a' = Aircraft.current_waypoint_index a.

(** Everything but the speed and its pending target. *)
Definition same_but_speed (a a' : Aircraft.t) : Prop :=
  Aircraft.callsign a' = Aircraft.callsign a
  /\ Aircraft.position a' = Aircraft.position a
  /\ Velocity.heading (Aircraft.velocity a') = Velocity.heading (Aircraft.velocity a)
  /\ Aircraft.flight_plan a' = Aircraft.flight_plan a
  /\ Aircraft.target_altitude a' = Aircraft.target_altitude a
  /\ Aircraft.target_heading a' = Aircraft.target_heading a
  /\ Aircraft.current_waypoint_index a' = Aircraft.current_waypoint_index a.

(** Everything but the planar position and the waypoint cursor. *)
Definition same_but_place (a a' : Aircraft.t) : Prop :=
  Aircraft.callsign a' = Aircraft.callsign a
  /\ Position.altitude (Aircraft.position a') = Position.altitude (Aircraft.position a)
  /\ Aircraft.velocity a' = Aircraft.velocity a
  /\ Aircraft.flight_plan a' = Aircraft.flight_plan a
  /\ Aircraft.target_altitude a' = Aircraft.target_altitude a
  /\ Aircraft.target_heading a' = Aircraft.target_heading a
  /\ Aircraft.target_speed a' = Aircraft.target_speed a.

Lemma update_altitude_frame (dt : R) (a : Aircraft.t) :
  same_but_altitude a (Aircraft._update_altitude dt a).
Proof.
  unfold same_but_altitude, Aircraft._update_altitude.
  destruct (Aircraft.target_altitude a) as [target |].
  - destruct (Rltb _ 10); [unfold_with; simpl; tauto |].
    destruct (Rleb _ _); unfold_with; simpl; tauto.
  - destruct (Aircraft.current_waypoint a) as [wp |]; [| tauto].
    destruct (Waypoint.altitude wp); unfold_with; simpl; tauto.
Qed.

Lemma update_heading_frame (dt : R) (a : Aircraft.t) :
  same_but_heading a (Aircraft._update_heading dt a).
Proof.
  unfold same_but_heading, Aircraft._update_heading.
  destruct (Aircraft.target_heading a) as [target |].
  - destruct (Rltb _ 0.5); [unfold_with; simpl; tauto |].
    destruct (Rleb _ _); unfold_with; simpl; tauto.
  - destruct (Aircraft.current_waypoint a) as [wp |]; unfold_with; simpl; tauto.
Qed.

Lemma update_speed_frame (dt : R) (a : Aircraft.t) :
  same_but_speed a (Aircraft._update_speed dt a).
Proof.
  unfold same_but_speed, Aircraft._update_speed.
  destruct (Aircraft.target_speed a) as [target |]; [| tauto].
  destruct (Rltb _ 1); [unfold_with; simpl; tauto |].
  destruct (Rleb _ _); unfold_with; simpl; tauto.
Qed.

Lemma update_position_frame (dt : R) (a : Aircraft.t) :
  same_but_place a (Aircraft._update_position dt a)
  /\ Aircraft.current_waypoint_index (Aircraft._update_position dt a)
     = Aircraft.current_waypoint_index a.
Proof.
  unfold same_but_place, Aircraft._update_position. unfold_with. simpl. tauto.
Qed.

Lemma check_waypoint_progress_frame (a : Aircraft.t) :
  same_but_place a (Aircraft._check_waypoint_progress a)
  /\ Aircraft.position (Aircraft._check_waypoint_progress a) = Aircraft.position a.
Proof.
  unfold same_but_place, Aircraft._check_waypoint_progress.
  destruct (Aircraft.current_waypoint a) as [wp |]; [| tauto].
  destruct (Rltb _ 1); unfold_with; simpl; tauto.
Qed.

(** The first statement of [update]: the clock advances. *)
Definition after_clock (dt : R) (a : Aircraft.t) : Aircraft.t :=
  Aircraft.with_time_in_simulation (Aircraft.time_in_simulation a + dt) a.

Lemma update_unfold (dt : R) (a : Aircraft.t) :
  Aircraft.update dt a =
  Aircraft._check_waypoint_progress
    (Aircraft._update_position dt
       (Aircraft._update_speed dt
          (Aircraft._update_heading dt
             (Aircraft._update_altitude dt (after_clock dt a))))).
Proof. reflexivity. Qed.

(** Altitude and heading after a whole [update] are those left by the
    altitude stage and the heading stage. *)
Lemma update_altitude_result (dt : R) (a : Aircraft.t) :
  Position.altitude (Aircraft.position (Aircraft.update dt a))
  = Position.altitude
      (Aircraft.position (Aircraft._update_altitude dt (after_clock dt a)))
  /\ Aircraft.target_altitude (Aircraft.update dt a)
     = Aircraft.target_altitude (Aircraft._update_altitude dt (after_clock dt a)).
Proof.
  rewrite update_unfold.
  set (a1 := Aircraft._update_altitude dt (after_clock dt a)).
  set (a2 := Aircraft._update_heading dt a1).
  set (a3 := Aircraft._update_speed dt a2).
  set (a4 := Aircraft._update_position dt a3).
  destruct (update_heading_frame dt a1) as (_ & Hp2 & _ & _ & Ht2 & _).
  destruct (update_speed_frame dt a2) as (_ & Hp3 & _ & _ & Ht3 & _).
  destruct (update_position_frame dt a3) as ((_ & Hp4 & _ & _ & Ht4 & _) & _).
  destruct (check_waypoint_progress_frame a4) as ((_ & Hp5 & _ & _ & Ht5 & _) & _).
  fold a2 in Hp2, Ht2. fold a3 in Hp3, Ht3. fold a4 in Hp4, Ht4.
  split; congruence.
Qed.



(** ** Flight envelope (C1) *)

Definition altitude_in_limits (h : R) : Prop :=
  Aircraft.MIN_ALTITUDE <= h <= Aircraft.MAX_ALTITUDE.
Definition speed_in_limits (s : R) : Prop :=
  Aircraft.MIN_SPEED <= s <= Aircraft.MAX_SPEED.
(** The range of [x % 360] as the machine evaluates it: the exact
    remainder lies in [0, 360), and for a tiny negative [x] the
    floating-point result is rounded to 360.0 itself. *)
Definition heading_in_range (h : R) : Prop := 0 <= h <= 360.

(** The envelope the code keeps: altitude in [1000, 45000] ft, speed
    in [120, 550] kt, heading in [0, 360]. *)
Definition in_envelope (a : Aircraft.t) : Prop :=
  altitude_in_limits (Position.altitude (Aircraft.position a))
  /\ speed_in_limits (Velocity.speed (Aircraft.velocity a))
  /\ heading_in_range (Velocity.heading (Aircraft.velocity a)).

(** What the kinematic update and the ATC setters can do to an aircraft. *)
Inductive action : Type :=
| Update (time_delta : R)
| SetAltitude (altitude : R)
| SetHeading (heading : R)
| SetSpeed (speed : R).

Definition apply_action (a : Aircraft.t) (act : action) : Aircraft.t :=
  match act with
  | Update dt => Aircraft.update dt a
  | SetAltitude h => Aircraft.set_altitude h a
  | SetHeading h => Aircraft.set_heading h a
  | SetSpeed s => Aircraft.set_speed s a
  end.

Definition run (acts : list action) (a : Aircraft.t) : Aircraft.t :=
  foldl apply_action a acts.

(** Every altitude the flight plan asks for is inside the limits. *)
Definition plan_in_limits (fp : list Waypoint.t) : Prop :=
  forall wp h, wp ∈ fp -> Waypoint.altitude wp = Some h -> altitude_in_limits h.

(** The pending targets are inside the ranges as well. *)
Definition targets_in_limits (a : Aircraft.t) : Prop :=
  (forall h, Aircraft.target_altitude a = Some h -> altitude_in_limits h)
  /\ (forall h, Aircraft.target_heading a = Some h -> heading_in_range h)
  /\ (forall s, Aircraft.target_speed a = Some s -> speed_in_limits s).

Definition envelope_inv (a : Aircraft.t) : Prop :=
  in_envelope a /\ targets_in_limits a /\ plan_in_limits (Aircraft.flight_plan a).

Section Envelope.
Variable dt : R.

Lemma altitude_limits_ordered : Aircraft.MIN_ALTITUDE <= Aircraft.MAX_ALTITUDE.
Proof. unfold Aircraft.MIN_ALTITUDE, Aircraft.MAX_ALTITUDE. lra. Qed.

Lemma speed_limits_ordered : Aircraft.MIN_SPEED <= Aircraft.MAX_SPEED.
Proof. unfold Aircraft.MIN_SPEED, Aircraft.MAX_SPEED. lra. Qed.

Lemma update_altitude_envelope (a : Aircraft.t) :
  envelope_inv a -> envelope_inv (Aircraft._update_altitude dt a).
Proof.
  intros ((Halt & Hspd & Hhdg) & (Hta & Hth & Hts) & Hplan).
  destruct (update_altitude_frame dt a) as (_ & _ & _ & Hv & Hfp & Hth' & Hts' & _).
  unfold envelope_inv, in_envelope, targets_in_limits.
  rewrite Hv, Hfp, Hth', Hts'.
  assert (Hgoal :
    altitude_in_limits
      (Position.altitude (Aircraft.position (Aircraft._update_altitude dt a)))
    /\ forall h, Aircraft.target_altitude (Aircraft._update_altitude dt a) = Some h ->
                 altitude_in_limits h); [| tauto].
  unfold Aircraft._update_altitude.
  destruct (Aircraft.target_altitude a) as [target |] eqn:Htgt.
  - specialize (Hta target eq_refl).
    destruct (Rltb _ 10).
    { unfold_with; simpl. split; [exact Hta | discriminate]. }
    split.
    + unfold_with; simpl. apply clamp_range, altitude_limits_ordered.
    + destruct (Rleb _ _); unfold_with; simpl; [discriminate |].
      rewrite Htgt. intros h [= <-]. exact Hta.
  - destruct (Aircraft.current_waypoint a) as [wp |] eqn:Hwp.
    + destruct (Waypoint.altitude wp) as [h |] eqn:Hh.
      * unfold_with; simpl. split; [exact Halt |].
        intros h' [= <-]. apply (Hplan wp h); [| exact Hh].
        apply list_elem_of_lookup. eexists. exact Hwp.
      * split; [exact Halt | rewrite Htgt; discriminate].
    + split; [exact Halt | rewrite Htgt; discriminate].
Qed.

Lemma py_mod_heading (x : R) : heading_in_range (py_mod x 360).
Proof.
  unfold heading_in_range.
  assert (H : 0 <= py_mod x 360 < 360) by (apply py_mod_range; lra). lra.
Qed.

Lemma calculate_heading_in_range (a : Aircraft.t) (wp : Waypoint.t) :
  heading_in_range (Aircraft._calculate_heading_to_waypoint a wp).
Proof.
  unfold Aircraft._calculate_heading_to_waypoint. apply py_mod_heading.
Qed.

Lemma update_heading_envelope (a : Aircraft.t) :
  envelope_inv a -> envelope_inv (Aircraft._update_heading dt a).
Proof.
  intros ((Halt & Hspd & Hhdg) & (Hta & Hth & Hts) & Hplan).
  destruct (update_heading_frame dt a) as (_ & Hp & Hs & Hfp & Hta' & Hts' & _).
  unfold envelope_inv, in_envelope, targets_in_limits.
  rewrite Hp, Hs, Hfp, Hta', Hts'.
  assert (Hgoal :
    heading_in_range
      (Velocity.heading (Aircraft.velocity (Aircraft._update_heading dt a)))
    /\ forall h, Aircraft.target_heading (Aircraft._update_heading dt a) = Some h ->
                 heading_in_range h); [| tauto].
  unfold Aircraft._update_heading.
  destruct (Aircraft.target_heading a) as [target |] eqn:Htgt.
  - specialize (Hth target eq_refl).
    destruct (Rltb _ 0.5).
    { unfold_with; simpl. split; [exact Hth | discriminate]. }
    split.
    + unfold_with; simpl. apply py_mod_heading.
    + destruct (Rleb _ _); unfold_with; simpl; [discriminate |].
      rewrite Htgt. intros h [= <-]. exact Hth.
  - destruct (Aircraft.current_waypoint a) as [wp |].
    + unfold_with; simpl. split; [exact Hhdg |].
      intros h [= <-]. apply calculate_heading_in_range.
    + split; [exact Hhdg | rewrite Htgt; discriminate].
Qed.

Lemma update_speed_envelope (a : Aircraft.t) :
  envelope_inv a -> envelope_inv (Aircraft._update_speed dt a).
Proof.
  intros ((Halt & Hspd & Hhdg) & (Hta & Hth & Hts) & Hplan).
  destruct (update_speed_frame dt a) as (_ & Hp & Hh & Hfp & Hta' & Hth' & _).
  unfold envelope_inv, in_envelope, targets_in_limits.
  rewrite Hp, Hh, Hfp, Hta', Hth'.
  assert (Hgoal :
    speed_in_limits
      (Velocity.speed (Aircraft.velocity (Aircraft._update_speed dt a)))
    /\ forall s, Aircraft.target_speed (Aircraft._update_speed dt a) = Some s ->
                 speed_in_limits s); [| tauto].
  unfold Aircraft._update_speed.
  destruct (Aircraft.target_speed a) as [target |] eqn:Htgt.
  - specialize (Hts target eq_refl).
    destruct (Rltb _ 1).
    { unfold_with; simpl. split; [exact Hts | discriminate]. }
    split.
    + unfold_with; simpl. apply clamp_range, speed_limits_ordered.
    + destruct (Rleb _ _); unfold_with; simpl; [discriminate |].
      rewrite Htgt. intros h [= <-]. exact Hts.
  - split; [exact Hspd | rewrite Htgt; discriminate].
Qed.

Lemma same_but_place_envelope (a a' : Aircraft.t) :
  same_but_place a a' -> envelope_inv a -> envelope_inv a'.
Proof.
  intros (_ & Hp & Hv & Hfp & Hta & Hth & Hts).
  unfold envelope_inv, in_envelope, targets_in_limits.
  rewrite Hp, Hv, Hfp, Hta, Hth, Hts. tauto.
Qed.

Lemma update_envelope (a : Aircraft.t) :
  envelope_inv a -> envelope_inv (Aircraft.update dt a).
Proof.
  intros Hinv. rewrite update_unfold.
  eapply same_but_place_envelope; [apply check_waypoint_progress_frame |].
  eapply same_but_place_envelope; [apply update_position_frame |].
  apply update_speed_envelope, update_heading_envelope, update_altitude_envelope.
  exact Hinv.
Qed.

End Envelope.

Lemma apply_action_envelope (a : Aircraft.t) (act : action) :
  envelope_inv a -> envelope_inv (apply_action a act).
Proof.
  destruct act as [dt | h | h | s]; simpl.
  - apply update_envelope.
  - intros (Henv & (Hta & Hth & Hts) & Hplan).
    split; [exact Henv |]. split; [| exact Hplan].
    split; [| split; [exact Hth | exact Hts]].
    unfold Aircraft.set_altitude; unfold_with; simpl.
    intros h' [= <-]. apply clamp_range, altitude_limits_ordered.
  - intros (Henv & (Hta & Hth & Hts) & Hplan).
    split; [exact Henv |]. split; [| exact Hplan].
    split; [exact Hta |]. split; [| exact Hts].
    unfold Aircraft.set_heading; unfold_with; simpl.
    intros h' [= <-]. apply py_mod_heading.
  - intros (Henv & (Hta & Hth & Hts) & Hplan).
    split; [exact Henv |]. split; [| exact Hplan].
    split; [exact Hta |]. split; [exact Hth |].
    unfold Aircraft.set_speed; unfold_with; simpl.
    intros h' [= <-]. apply clamp_range, speed_limits_ordered.
Qed.

Lemma run_envelope (acts : list action) (a : Aircraft.t) :
  envelope_inv a -> envelope_inv (run acts a).
Proof.
  revert a. induction acts as [| act acts IH]; intros a Hinv; [exact Hinv |].
  apply IH, apply_action_envelope, Hinv.
Qed.

(** *** The envelope under any rounding of the modulo *)

(** The three places where the code takes a heading modulo 360, with
    the operator as a parameter: [md x m] stands for [x % m] as the
    machine evaluates it.  On the reals it is [py_mod]; in binary
    floating point its result can be rounded, as far as [m] itself. *)
Section Modulo.
Variable md : R -> R -> R.









(** All that is asked of the operator: a result in [0, 360]. *)
Hypothesis md_range : forall x : R, heading_in_range (md x 360).





End Modulo.




(** The two aircraft of the collision-course scenario of [simulator.py]. *)
Definition UAL100 : Aircraft.t :=
  Aircraft.init "UAL100" (Position.mk 50 100 35000) (Velocity.mk 450 90)
    [Waypoint.mk "DEST1" 150 100 (Some 35000)] "B737" ENROUTE.
Definition AAL200 : Aircraft.t :=
  Aircraft.init "AAL200" (Position.mk 150 100 35000) (Velocity.mk 450 270)
    [Waypoint.mk "DEST2" 50 100 (Some 35000)] "A320" ENROUTE.







(** ** The pair loops *)

(** The nested loops over positions, as written in the source:
    [for i in range(len(l)): for j in range(i + 1, len(l))], taking
    [(l[i], l[j])]. *)
Definition pair_at {A : Type} (l : list A) (i j : nat) : option (A * A) :=
  a ← l !! i; b ← l !! j; Some (a, b).

Definition pairs_by_index {A : Type} (l : list A) : list (A * A) :=
  i ← seq 0 (length l);
  omap (pair_at l i) (seq (S i) (length l - S i)).

Lemma omap_fmap_compose {A B C : Type} (f : B -> option C) (g : A -> B) (l : list A) :
  omap f (g <$> l) = omap (fun x => f (g x)) l.
Proof.
  induction l as [| x l IH]; [reflexivity |]. cbn. rewrite IH. reflexivity.
Qed.

Lemma omap_lookup_all {A B : Type} (f : A -> B) (l : list A) :
  omap (fun j => f <$> l !! j) (seq 0 (length l)) = f <$> l.
Proof.
  induction l as [| a rest IH]; [reflexivity |].
  cbn [length seq omap list_omap lookup list_lookup fmap option_fmap option_map].
  cbn [list_fmap]. f_equal.
  rewrite <- fmap_S_seq, omap_fmap_compose. exact IH.
Qed.

Lemma bind_fmap_compose {A B C : Type} (f : B -> list C) (g : A -> B) (l : list A) :
  (g <$> l) ≫= f = l ≫= (fun x => f (g x)).
Proof.
  induction l as [| x l IH]; [reflexivity |]. cbn. rewrite IH. reflexivity.
Qed.

(** [all_pairs] visits the same pairs in the same order. *)
Lemma all_pairs_by_index {A : Type} (l : list A) : all_pairs l = pairs_by_index l.
Proof.
  unfold pairs_by_index.
  induction l as [| a rest IH]; [reflexivity |].
  cbn [all_pairs length seq]. cbn [mbind list_bind].
  f_equal.
  - replace (S (length rest) - 1)%nat with (length rest) by lia.
    rewrite <- fmap_S_seq, omap_fmap_compose.
    rewrite <- (omap_lookup_all (pair a) rest). reflexivity.
  - rewrite IH, <- fmap_S_seq, bind_fmap_compose.
    apply list_bind_ext; [| reflexivity]. intros i.
    replace (S (length rest) - S (S i))%nat with (length rest - S i)%nat by lia.
    rewrite <- (fmap_S_seq (S i)), omap_fmap_compose. reflexivity.
Qed.

(** ** Conflict prediction (C3) *)

(** [all_pairs] enumerates exactly the pairs of positions [i < j]. *)
Lemma elem_of_all_pairs {A : Type} (l : list A) (x y : A) :
  (x, y) ∈ all_pairs l <->
  exists i j : nat, (i < j)%nat /\ l !! i = Some x /\ l !! j = Some y.
Proof.
  induction l as [| a rest IH]; simpl.
  - split; [intros H; inversion H | intros (i & j & _ & H & _); discriminate].
  - rewrite elem_of_app, list_elem_of_fmap, IH. split.
    + intros [(z & [= -> ->] & Hz) | (i & j & Hij & Hi & Hj)].
      * apply list_elem_of_lookup in Hz as [j Hj].
        exists 0%nat, (S j). split; [lia | split; [reflexivity | exact Hj]].
      * exists (S i), (S j). split; [lia | split; assumption].
    + intros (i & j & Hij & Hi & Hj).
      destruct j as [| j]; [lia |]. simpl in Hj.
      destruct i as [| i]; simpl in Hi.
      * injection Hi as <-. left. exists y. split; [reflexivity |].
        apply list_elem_of_lookup. exists j. exact Hj.
      * right. exists i, j. split; [lia | split; assumption].
Qed.

(** [t] is the sample the loop keeps among [0 .. n-1]: the first one at
    which [h] is minimal. *)
Definition is_cpa_sample (h : nat -> R) (n t : nat) : Prop :=
  (t < n)%nat
  /\ (forall s, (s < n)%nat -> h t <= h s)
  /\ (forall s, (s < t)%nat -> h t < h s).

Lemma is_cpa_sample_unique (h : nat -> R) (n t t' : nat) :
  is_cpa_sample h n t -> is_cpa_sample h n t' -> t = t'.
Proof.
  intros (Ht & Hmin & Hfirst) (Ht' & Hmin' & Hfirst').
  destruct (Nat.lt_trichotomy t t') as [Hlt | [Heq | Hgt]]; [| exact Heq |].
  - specialize (Hfirst' t Hlt). specialize (Hmin t' Ht'). lra.
  - specialize (Hfirst t' Hgt). specialize (Hmin' t Ht). lra.
Qed.

(** The loop variables after [n] samples: still at their initial values
    when no sample was taken, otherwise the first minimum of the
    horizontal separation with the vertical separation of that sample. *)
Definition loop_result (a b : Aircraft.t) (n : nat)
    (st : efloat * efloat * nat) : Prop :=
  match st with
  | (Fin mh, Fin mv, t) =>
      is_cpa_sample (Airspace.h_sep_at a b) n t
      /\ mh = Airspace.h_sep_at a b t /\ mv = Airspace.v_sep_at a b t
  | (Inf, Inf, t) => n = 0%nat /\ t = 0%nat
  | _ => False
  end.

Lemma sample_loop_spec (a b : Aircraft.t) (n : nat) :
  loop_result a b n (Airspace.sample_loop a b n).
Proof.
  unfold Airspace.sample_loop.
  induction n as [| n IH]; [simpl; split; reflexivity |].
  rewrite seq_S, foldl_snoc. simpl (0 + n)%nat.
  destruct (foldl _ _ (seq 0 n)) as [[mh mv] t].
  unfold Airspace.sample_step, loop_result in *.
  destruct mh as [mh |], mv as [mv |]; try contradiction; simpl.
  - destruct IH as ((Ht & Hmin & Hfirst) & -> & ->).
    case_Rltb (Airspace.h_sep_at a b n) (Airspace.h_sep_at a b t).
    + split; [| split; reflexivity]. split; [lia | split].
      * intros s Hs. destruct (decide (s = n)) as [-> | Hne]; [lra |].
        assert (Hs' : (s < n)%nat) by lia. specialize (Hmin s Hs'). lra.
      * intros s Hs. specialize (Hmin s Hs). lra.
    + split; [| split; reflexivity]. split; [lia | split].
      * intros s Hs. destruct (decide (s = n)) as [-> | Hne]; [lra |].
        apply Hmin. lia.
      * exact Hfirst.
  - destruct IH as [-> ->].
    split; [| split; reflexivity]. split; [lia | split].
    + intros s Hs. replace s with 0%nat by lia. lra.
    + intros s Hs. lia.
Qed.

Lemma sample_loop_at (a b : Aircraft.t) (n t : nat) :
  is_cpa_sample (Airspace.h_sep_at a b) n t ->
  Airspace.sample_loop a b n
  = (Fin (Airspace.h_sep_at a b t), Fin (Airspace.v_sep_at a b t), t).
Proof.
  intros Hcpa. pose proof (sample_loop_spec a b n) as Hspec.
  destruct (Airspace.sample_loop a b n) as [[mh mv] t'].
  unfold loop_result in Hspec.
  destruct mh as [mh |], mv as [mv |]; try contradiction.
  - destruct Hspec as (Hcpa' & -> & ->).
    rewrite (is_cpa_sample_unique _ _ _ _ Hcpa Hcpa'). reflexivity.
  - destruct Hspec as [-> _]. destruct Hcpa as [Hlt _]. lia.
Qed.

Lemma sample_loop_none (a b : Aircraft.t) :
  Airspace.sample_loop a b 0 = (Inf, Inf, 0%nat).
Proof. reflexivity. Qed.


Lemma py_int_INR (k : nat) : Z.to_nat (py_int (INR k)) = k.
Proof.
  unfold py_int. destruct (Rle_dec 0 (INR k)) as [_ | Hneg].
  - rewrite Int_part_INR. apply Nat2Z.id.
  - exfalso. apply Hneg, pos_INR.
Qed.

(** The conflict record built from the sample [t]. *)
Definition conflict_at (a b : Aircraft.t) (t : nat) : Conflict.t :=
  Conflict.mk (Aircraft.callsign a) (Aircraft.callsign b) t
    (Fin (Airspace.h_sep_at a b t)) (Fin (Airspace.v_sep_at a b t))
    (Airspace._calculate_severity (Fin (Airspace.h_sep_at a b t))
       (Fin (Airspace.v_sep_at a b t)) t (pair_requirements a b)).

Lemma check_pair_iff (a b : Aircraft.t) (lookahead : R) (c : Conflict.t) :
  Airspace._check_pair_for_conflict a b lookahead = Some c <->
  exists t,
    is_cpa_sample (Airspace.h_sep_at a b) (Z.to_nat (py_int lookahead)) t
    /\ Airspace.h_sep_at a b t
       < SeparationRequirements.horizontal_nm (pair_requirements a b)
    /\ Airspace.v_sep_at a b t
       < SeparationRequirements.vertical_ft (pair_requirements a b)
    /\ c = conflict_at a b t.
Proof.
  unfold Airspace._check_pair_for_conflict.
  fold (avg_altitude a b). fold (pair_requirements a b).
  set (n := Z.to_nat (py_int lookahead)).
  pose proof (sample_loop_spec a b n) as Hspec.
  destruct (Airspace.sample_loop a b n) as [[mh mv] t'].
  unfold loop_result in Hspec.
  destruct mh as [mh |], mv as [mv |]; try contradiction; simpl.
  - destruct Hspec as (Hcpa & -> & ->).
    case_Rltb (Airspace.h_sep_at a b t')
      (SeparationRequirements.horizontal_nm (pair_requirements a b)).
    + case_Rltb (Airspace.v_sep_at a b t')
        (SeparationRequirements.vertical_ft (pair_requirements a b)); simpl.
      * split.
        -- intros [= <-]. exists t'. repeat split; try assumption; apply Hcpa.
        -- intros (t & Hcpa' & _ & _ & ->).
           rewrite (is_cpa_sample_unique _ _ _ _ Hcpa' Hcpa). reflexivity.
      * split; [discriminate |].
        intros (t & Hcpa' & _ & Hv & _).
        rewrite (is_cpa_sample_unique _ _ _ _ Hcpa' Hcpa) in Hv. lra.
    + simpl. split; [discriminate |].
      intros (t & Hcpa' & Hh & _).
      rewrite (is_cpa_sample_unique _ _ _ _ Hcpa' Hcpa) in Hh. lra.
  - destruct Hspec as [Hn _]. split; [discriminate |].
    intros (t & (Hlt & _) & _). lia.
Qed.


Lemma detect_conflicts_elem (self : Airspace.t) (l : list Aircraft.t)
    (lookahead : R) (c : Conflict.t) :
  c ∈ fst (Airspace.detect_conflicts self l lookahead) <->
  exists (i j : nat) (a b : Aircraft.t),
    (i < j)%nat /\ l !! i = Some a /\ l !! j = Some b
    /\ Airspace._check_pair_for_conflict a b lookahead = Some c.
Proof.
  unfold Airspace.detect_conflicts. simpl. rewrite list_elem_of_omap. split.
  - intros ([a b] & Hin & Hc). apply elem_of_all_pairs in Hin as (i & j & Hij & Hi & Hj).
    exists i, j, a, b. repeat split; assumption.
  - intros (i & j & a & b & Hij & Hi & Hj & Hc). exists (a, b). split; [| exact Hc].
    apply elem_of_all_pairs. exists i, j. repeat split; assumption.
Qed.





(** ** The heading-difference loops terminate within their bound *)

Lemma sub_while_exit (fuel : nat) (d : R) :
  d <= 180 + 360 * INR fuel ->
  Aircraft.sub_while fuel d <= 180
  /\ (d <= 180 -> Aircraft.sub_while fuel d = d)
  /\ (180 < d -> -180 < Aircraft.sub_while fuel d).
Proof.
  revert d. induction fuel as [| k IH]; intros d Hd.
  - simpl in *. repeat split; intros; lra.
  - rewrite S_INR in Hd. simpl. unfold Rgtb. case_Rltb 180 d.
    + destruct (IH (d - 360)) as (Hle & Hid & Hgt); [lra |].
      split; [exact Hle |]. split; [intros; lra |]. intros _.
      destruct (Rle_dec (d - 360) 180) as [Hsmall | Hbig].
      * rewrite Hid by exact Hsmall. lra.
      * apply Hgt. lra.
    + repeat split; intros; lra.
Qed.

Lemma add_while_exit (fuel : nat) (d : R) :
  - d <= 180 + 360 * INR fuel ->
  -180 <= Aircraft.add_while fuel d
  /\ (-180 <= d -> Aircraft.add_while fuel d = d)
  /\ (d < -180 -> Aircraft.add_while fuel d < 180).
Proof.
  revert d. induction fuel as [| k IH]; intros d Hd.
  - simpl in *. repeat split; intros; lra.
  - rewrite S_INR in Hd. simpl. case_Rltb d (-180).
    + destruct (IH (d + 360)) as (Hle & Hid & Hlt); [lra |].
      split; [exact Hle |]. split; [intros; lra |]. intros _.
      destruct (Rle_dec (-180) (d + 360)) as [Hsmall | Hbig].
      * rewrite Hid by exact Hsmall. lra.
      * apply Hlt. lra.
    + repeat split; intros; lra.
Qed.

Lemma loop_bound_enough (d : R) : Rabs d <= 360 * INR (Aircraft.loop_bound d).
Proof.
  unfold Aircraft.loop_bound.
  destruct (archimed (Rabs d / 360)) as [Hup _].
  assert (Hpos : 0 <= Rabs d / 360).
  { pose proof (Rabs_pos d). apply Rmult_le_pos; lra. }
  assert (Hz : (0 <= up (Rabs d / 360))%Z).
  { apply le_IZR. lra. }
  rewrite INR_IZR_INZ, Z2Nat.id by exact Hz. lra.
Qed.

(** Both loops of [_shortest_heading_difference] have left through
    their exit condition: the result lies in [-180, 180]. *)
Lemma shortest_heading_difference_range (current target : R) :
  -180 <= Aircraft._shortest_heading_difference current target <= 180.
Proof.
  unfold Aircraft._shortest_heading_difference.
  set (d0 := target - current).
  pose proof (loop_bound_enough d0) as Hb0.
  destruct (sub_while_exit (Aircraft.loop_bound d0) d0) as (Hle & Hid & Hgt).
  { pose proof (Rle_abs d0). lra. }
  set (d1 := Aircraft.sub_while (Aircraft.loop_bound d0) d0) in *.
  pose proof (loop_bound_enough d1) as Hb1.
  destruct (add_while_exit (Aircraft.loop_bound d1) d1) as (Hge & Hid' & Hlt).
  { pose proof (Rle_abs (- d1)). rewrite Rabs_Ropp in *. lra. }
  split; [exact Hge |].
  destruct (Rle_dec (-180) d1) as [Hin | Hout].
  - rewrite Hid' by exact Hin. exact Hle.
  - left. apply Hlt. lra.
Qed.

Lemma shortest_heading_difference_small (current target : R) :
  -180 <= target - current <= 180 ->
  Aircraft._shortest_heading_difference current target = target - current.
Proof.
  intros Hd. unfold Aircraft._shortest_heading_difference.
  set (d0 := target - current) in *.
  pose proof (loop_bound_enough d0) as Hb0.
  destruct (sub_while_exit (Aircraft.loop_bound d0) d0) as (_ & Hid & _).
  { pose proof (Rle_abs d0). lra. }
  rewrite Hid by lra.
  destruct (add_while_exit (Aircraft.loop_bound d0) d0) as (_ & Hid' & _).
  { pose proof (Rle_abs (- d0)). rewrite Rabs_Ropp in *. lra. }
  apply Hid'. lra.
Qed.

(** ** Bearings along a parallel *)

Lemma py_mod_wrap (x m : R) : - m <= x < 0 -> py_mod x m = x + m.
Proof.
  intros [Hlo Hhi]. unfold py_mod.
  assert (Hm : 0 < m) by lra.
  assert (Hq : Int_part (x / m) = (-1)%Z).
  { symmetry. apply Int_part_spec.
    assert (x / m < 0).
    { apply (Rmult_lt_reg_r m); [lra |]. unfold Rdiv.
      rewrite Rmult_assoc, Rinv_l by lra. lra. }
    assert (-1 <= x / m).
    { apply (Rmult_le_reg_r m); [lra |]. unfold Rdiv.
      rewrite Rmult_assoc, Rinv_l by lra. lra. }
    split; lra. }
  rewrite Hq. lra.
Qed.

Lemma bearing_due_east (a : Aircraft.t) (wp : Waypoint.t) :
  Position.y (Aircraft.position a) = Waypoint.y wp ->
  Position.x (Aircraft.position a) < Waypoint.x wp ->
  Aircraft._calculate_heading_to_waypoint a wp = 90.
Proof.
  intros Hy Hx. unfold Aircraft._calculate_heading_to_waypoint, atan2.
  rewrite Hy. replace (Waypoint.y wp - Waypoint.y wp) with 0 by lra.
  eval_Rcmp. unfold degrees.
  replace (PI / 2 * (180 / PI)) with 90 by (field; apply PI_neq0).
  apply py_mod_id. lra.
Qed.

Lemma bearing_due_west (a : Aircraft.t) (wp : Waypoint.t) :
  Position.y (Aircraft.position a) = Waypoint.y wp ->
  Waypoint.x wp < Position.x (Aircraft.position a) ->
  Aircraft._calculate_heading_to_waypoint a wp = 270.
Proof.
  intros Hy Hx. unfold Aircraft._calculate_heading_to_waypoint, atan2.
  rewrite Hy. replace (Waypoint.y wp - Waypoint.y wp) with 0 by lra.
  eval_Rcmp. unfold degrees.
  replace (- (PI / 2) * (180 / PI)) with (-90) by (field; apply PI_neq0).
  rewrite py_mod_wrap by lra. lra.
Qed.

(** ** The head-on scenario (C4) *)

Lemma radians_90 : radians 90 = PI / 2.
Proof. unfold radians. lra. Qed.

Lemma radians_270 : radians 270 = 3 * (PI / 2).
Proof. unfold radians. lra. Qed.

(** [a] flies east and [b] flies west at 450 kt on the same parallel. *)
Definition head_on (a b : Aircraft.t) : Prop :=
  Aircraft.velocity a = Velocity.mk 450 90
  /\ Aircraft.velocity b = Velocity.mk 450 270
  /\ Position.y (Aircraft.position a) = Position.y (Aircraft.position b).

Lemma head_on_h_sep (a b : Aircraft.t) (t : nat) :
  head_on a b ->
  Airspace.h_sep_at a b t
  = Rabs (Position.x (Aircraft.position b) - Position.x (Aircraft.position a)
          - INR t / 4).
Proof.
  intros (Hva & Hvb & Hy).
  unfold Airspace.h_sep_at, Aircraft.predict_position, Position.distance_to.
  rewrite Hva, Hvb. simpl. rewrite radians_90, radians_270, Hy.
  rewrite sin_PI2, cos_PI2, sin_3PI2, cos_3PI2.
  match goal with
  | |- sqrt ?e = Rabs ?d => replace e with (Rsqr d) by (unfold Rsqr; lra)
  end.
  apply sqrt_Rsqr_abs.
Qed.

(** While the two are still closing at the last sample, that sample is
    the one kept. *)
Lemma head_on_closing (a b : Aircraft.t) (n : nat) :
  head_on a b ->
  INR n / 4 <= Position.x (Aircraft.position b) - Position.x (Aircraft.position a) ->
  is_cpa_sample (Airspace.h_sep_at a b) (S n) n.
Proof.
  intros Hho Hgap. split; [lia |].
  assert (Hmono : forall s, (s <= n)%nat ->
            Airspace.h_sep_at a b s
            = Position.x (Aircraft.position b) - Position.x (Aircraft.position a)
              - INR s / 4).
  { intros s Hs. rewrite head_on_h_sep by exact Hho.
    apply le_INR in Hs. apply Rabs_pos_eq. lra. }
  split.
  - intros s Hs. rewrite (Hmono n), (Hmono s) by lia.
    assert (INR s <= INR n) by (apply le_INR; lia). lra.
  - intros s Hs. rewrite (Hmono n), (Hmono s) by lia.
    assert (INR s < INR n) by (apply lt_INR; lia). lra.
Qed.

(** When the two meet exactly at sample [m] inside the window, that
    sample is the one kept. *)
Lemma head_on_meeting (a b : Aircraft.t) (n m : nat) :
  head_on a b -> (m < n)%nat ->
  Position.x (Aircraft.position b) - Position.x (Aircraft.position a) = INR m / 4 ->
  is_cpa_sample (Airspace.h_sep_at a b) n m
  /\ Airspace.h_sep_at a b m = 0.
Proof.
  intros Hho Hm Hgap.
  assert (Hzero : Airspace.h_sep_at a b m = 0).
  { rewrite head_on_h_sep by exact Hho. rewrite Hgap.
    replace (INR m / 4 - INR m / 4) with 0 by lra. apply Rabs_R0. }
  split; [| exact Hzero]. split; [exact Hm |]. rewrite Hzero. split.
  - intros s _. rewrite head_on_h_sep by exact Hho. apply Rabs_pos.
  - intros s Hs. rewrite head_on_h_sep by exact Hho. rewrite Hgap.
    apply lt_INR in Hs. apply Rabs_pos_lt. lra.
Qed.

Lemma INR_numeral (k : nat) : INR k = IZR (Z.of_nat k).
Proof. apply INR_IZR_INZ. Qed.

Lemma lookahead_300 : Z.to_nat (py_int 300.0) = 300%nat.
Proof.
  replace 300.0 with (INR 300)
    by (rewrite INR_numeral; change (Z.of_nat 300) with 300%Z; lra).
  apply py_int_INR.
Qed.

Lemma detect_conflicts_two (self : Airspace.t) (a b : Aircraft.t) (lookahead : R) :
  fst (Airspace.detect_conflicts self [a; b] lookahead)
  = match Airspace._check_pair_for_conflict a b lookahead with
    | Some c => [c]
    | None => []
    end.
Proof.
  unfold Airspace.detect_conflicts. simpl.
  destruct (Airspace._check_pair_for_conflict a b lookahead); reflexivity.
Qed.

Lemma update_callsign (dt : R) (a : Aircraft.t) :
  Aircraft.callsign (Aircraft.update dt a) = Aircraft.callsign a.
Proof.
  rewrite update_unfold.
  destruct (check_waypoint_progress_frame
              (Aircraft._update_position dt
                 (Aircraft._update_speed dt
                    (Aircraft._update_heading dt
                       (Aircraft._update_altitude dt (after_clock dt a))))))
    as [[-> _] _].
  destruct (update_position_frame dt
              (Aircraft._update_speed dt
                 (Aircraft._update_heading dt
                    (Aircraft._update_altitude dt (after_clock dt a)))))
    as [[-> _] _].
  destruct (update_speed_frame dt
              (Aircraft._update_heading dt
                 (Aircraft._update_altitude dt (after_clock dt a)))) as [-> _].
  destruct (update_heading_frame dt (Aircraft._update_altitude dt (after_clock dt a)))
    as [-> _].
  destruct (update_altitude_frame dt (after_clock dt a)) as [-> _].
  reflexivity.
Qed.

(** [k] ticks of one second with no instruction in between. *)
Definition cruise (k : nat) (a : Aircraft.t) : Aircraft.t :=
  run (replicate k (Update 1)) a.

Lemma cruise_S (k : nat) (a : Aircraft.t) :
  cruise (S k) a = Aircraft.update 1 (cruise k a).
Proof. unfold cruise, run. rewrite replicate_S_end, foldl_snoc. reflexivity. Qed.

Lemma cruise_callsign (k : nat) (a : Aircraft.t) :
  Aircraft.callsign (cruise k a) = Aircraft.callsign a.
Proof.
  induction k as [| k IH]; [reflexivity |].
  rewrite cruise_S, update_callsign. exact IH.
Qed.

Lemma position_eta (p : Position.t) (x y h : R) :
  Position.x p = x -> Position.y p = y -> Position.altitude p = h ->
  p = Position.mk x y h.
Proof. destruct p; simpl; intros -> -> ->; reflexivity. Qed.

Lemma velocity_eta (v : Velocity.t) (sp h : R) :
  Velocity.speed v = sp -> Velocity.heading v = h -> v = Velocity.mk sp h.
Proof. destruct v; simpl; intros -> ->; reflexivity. Qed.

(** Level flight at 35000 ft and 450 kt along the parallel y = 100,
    on heading [hdg] (east or west: [s] is its sine), toward the only
    waypoint [wp] of the plan, which lies on the parallel. *)
Section Cruise.
Variables (hdg s x0 : R) (wp : Waypoint.t).
Hypothesis Hsin : sin (radians hdg) = s.
Hypothesis Hcos : cos (radians hdg) = 0.
Hypothesis Hwp_y : Waypoint.y wp = 100.
Hypothesis Hwp_alt : Waypoint.altitude wp = Some 35000.
Hypothesis Hbearing :
  forall a : Aircraft.t,
    Position.y (Aircraft.position a) = 100 ->
    0 < (Waypoint.x wp - Position.x (Aircraft.position a)) * s ->
    Aircraft._calculate_heading_to_waypoint a wp = hdg.

(** On track after [j] seconds, with whatever targets the flight plan
    has put in place. *)
Definition cruising (j : nat) (a : Aircraft.t) : Prop :=
  Aircraft.position a = Position.mk (x0 + s * (INR j / 8)) 100 35000
  /\ Aircraft.velocity a = Velocity.mk 450 hdg
  /\ Aircraft.flight_plan a = [wp]
  /\ Aircraft.current_waypoint_index a = 0%nat
  /\ Aircraft.target_speed a = None
  /\ (Aircraft.target_altitude a = None \/ Aircraft.target_altitude a = Some 35000)
  /\ (Aircraft.target_heading a = None \/ Aircraft.target_heading a = Some hdg).

Lemma altitude_stage_level (a : Aircraft.t) :
  Position.altitude (Aircraft.position a) = 35000 ->
  Aircraft.target_altitude a = None \/ Aircraft.target_altitude a = Some 35000 ->
  Aircraft.current_waypoint a = Some wp ->
  Position.altitude (Aircraft.position (Aircraft._update_altitude 1 a)) = 35000
  /\ (Aircraft.target_altitude (Aircraft._update_altitude 1 a) = None
      \/ Aircraft.target_altitude (Aircraft._update_altitude 1 a) = Some 35000).
Proof.
  intros Halt Hta Hcw. unfold Aircraft._update_altitude.
  destruct Hta as [Hta | Hta]; rewrite Hta.
  - rewrite Hcw, Hwp_alt. unfold_with. simpl. split; [exact Halt | right; reflexivity].
  - rewrite Halt. replace (35000 - 35000) with 0 by lra. rewrite Rabs_R0.
    eval_Rcmp. unfold_with. simpl. split; [reflexivity | left; reflexivity].
Qed.

Lemma heading_stage_level (a : Aircraft.t) :
  Velocity.heading (Aircraft.velocity a) = hdg ->
  Aircraft.target_heading a = None \/ Aircraft.target_heading a = Some hdg ->
  Aircraft.current_waypoint a = Some wp ->
  Aircraft._calculate_heading_to_waypoint a wp = hdg ->
  Velocity.heading (Aircraft.velocity (Aircraft._update_heading 1 a)) = hdg
  /\ (Aircraft.target_heading (Aircraft._update_heading 1 a) = None
      \/ Aircraft.target_heading (Aircraft._update_heading 1 a) = Some hdg).
Proof.
  intros Hh Hth Hcw Hb. unfold Aircraft._update_heading.
  destruct Hth as [Hth | Hth]; rewrite Hth.
  - rewrite Hcw, Hb. unfold_with. simpl. split; [exact Hh | right; reflexivity].
  - rewrite Hh, shortest_heading_difference_small
      by (replace (hdg - hdg) with 0 by lra; lra).
    replace (hdg - hdg) with 0 by lra. rewrite Rabs_R0.
    eval_Rcmp. unfold_with. simpl. split; [reflexivity | left; reflexivity].
Qed.

(** One tick keeps the aircraft on track, as long as the waypoint is
    still ahead and more than 1 NM away afterwards. *)
Lemma cruising_step (j : nat) (a : Aircraft.t) :
  cruising j a ->
  0 < (Waypoint.x wp - (x0 + s * (INR j / 8))) * s ->
  1 <= Rabs (x0 + s * (INR (S j) / 8) - Waypoint.x wp) ->
  cruising (S j) (Aircraft.update 1 a).
Proof.
  intros (Hpos & Hvel & Hfp & Hidx & Hts & Hta & Hth) Hahead Hfar.
  rewrite update_unfold.
  set (a0 := after_clock 1 a).
  assert (Hcw0 : Aircraft.current_waypoint a0 = Some wp).
  { unfold Aircraft.current_waypoint. simpl. rewrite Hfp, Hidx. reflexivity. }
  destruct (update_altitude_frame 1 a0)
    as (_ & Hx1 & Hy1 & Hv1 & Hfp1 & Hth1 & Hts1 & Hidx1).
  destruct (altitude_stage_level a0) as [Halt1 Hta1];
    [simpl; rewrite Hpos; reflexivity | exact Hta | exact Hcw0 |].
  set (a1 := Aircraft._update_altitude 1 a0) in *.
  simpl in Hx1, Hy1, Hv1, Hfp1, Hth1, Hts1, Hidx1.
  rewrite Hpos in Hx1, Hy1. simpl in Hx1, Hy1.
  assert (Hcw1 : Aircraft.current_waypoint a1 = Some wp).
  { unfold Aircraft.current_waypoint. rewrite Hfp1, Hidx1, Hfp, Hidx. reflexivity. }
  destruct (update_heading_frame 1 a1)
    as (_ & Hp2 & Hs2 & Hfp2 & Hta2 & Hts2 & Hidx2).
  destruct (heading_stage_level a1) as [Hh2 Hth2].
  { rewrite Hv1, Hvel. reflexivity. }
  { rewrite Hth1. exact Hth. }
  { exact Hcw1. }
  { apply Hbearing; [rewrite Hy1; reflexivity | rewrite Hx1; exact Hahead]. }
  set (a2 := Aircraft._update_heading 1 a1) in *.
  assert (Ha3 : Aircraft._update_speed 1 a2 = a2).
  { unfold Aircraft._update_speed. rewrite Hts2, Hts1. simpl. rewrite Hts. reflexivity. }
  rewrite Ha3.
  assert (Hvel2 : Aircraft.velocity a2 = Velocity.mk 450 hdg).
  { apply velocity_eta; [rewrite Hs2, Hv1, Hvel; reflexivity | exact Hh2]. }
  assert (Hpos2 : Aircraft.position a2 = Position.mk (x0 + s * (INR j / 8)) 100 35000).
  { rewrite Hp2. apply position_eta; assumption. }
  set (a4 := Aircraft._update_position 1 a2).
  assert (Hpos4 : Aircraft.position a4
                  = Position.mk (x0 + s * (INR (S j) / 8)) 100 35000).
  { subst a4. unfold Aircraft._update_position. unfold_with.
    cbn [Aircraft.position]. rewrite Hvel2, Hpos2.
    cbn [Velocity.speed Velocity.heading Position.x Position.y Position.altitude].
    rewrite Hsin, Hcos, S_INR. f_equal; lra. }
  destruct (update_position_frame 1 a2)
    as ((_ & _ & Hv4 & Hfp4 & Hta4 & Hth4 & Hts4) & Hidx4).
  fold a4 in Hv4, Hfp4, Hta4, Hth4, Hts4, Hidx4.
  assert (Ha5 : Aircraft._check_waypoint_progress a4 = a4).
  { unfold Aircraft._check_waypoint_progress, Aircraft.current_waypoint.
    rewrite Hfp4, Hfp2, Hfp1, Hidx4, Hidx2, Hidx1.
    cbn [Aircraft.flight_plan Aircraft.current_waypoint_index a0 after_clock
         Aircraft.with_time_in_simulation].
    rewrite Hfp, Hidx. cbn [lookup list_lookup]. rewrite Hpos4, Hwp_y.
    cbn [Position.x Position.y].
    match goal with
    | |- context [sqrt ?e] =>
        replace e with (Rsqr (x0 + s * (INR (S j) / 8) - Waypoint.x wp))
          by (unfold Rsqr; lra)
    end.
    rewrite sqrt_Rsqr_abs. eval_Rcmp. reflexivity. }
  rewrite Ha5. unfold cruising.
  split; [exact Hpos4 |].
  split; [rewrite Hv4; exact Hvel2 |].
  split; [rewrite Hfp4, Hfp2, Hfp1; simpl; exact Hfp |].
  split; [rewrite Hidx4, Hidx2, Hidx1; simpl; exact Hidx |].
  split; [rewrite Hts4, Hts2, Hts1; simpl; exact Hts |].
  split; [rewrite Hta4, Hta2; exact Hta1 | rewrite Hth4; exact Hth2].
Qed.

Lemma cruising_run (k : nat) (a : Aircraft.t) :
  cruising 0 a ->
  (forall j, (j < k)%nat ->
     0 < (Waypoint.x wp - (x0 + s * (INR j / 8))) * s
     /\ 1 <= Rabs (x0 + s * (INR (S j) / 8) - Waypoint.x wp)) ->
  cruising k (cruise k a).
Proof.
  intros Hstart. induction k as [| k IH]; intros Hroom; [exact Hstart |].
  rewrite cruise_S. destruct (Hroom k) as [Hahead Hfar]; [lia |].
  apply cruising_step; [| exact Hahead | exact Hfar].
  apply IH. intros j Hj. apply Hroom. lia.
Qed.

End Cruise.

(** The scenario aircraft fly their plans undisturbed for 400 seconds
    and more. *)
Lemma cruise_UAL100 (k : nat) :
  (k <= 400)%nat ->
  Aircraft.position (cruise k UAL100) = Position.mk (50 + INR k / 8) 100 35000
  /\ Aircraft.velocity (cruise k UAL100) = Velocity.mk 450 90.
Proof.
  intros Hk.
  destruct (cruising_run 90 1 50 (Waypoint.mk "DEST1" 150 100 (Some 35000))) with
    (k := k) (a := UAL100) as (Hpos & Hvel & _).
  - rewrite radians_90. apply sin_PI2.
  - rewrite radians_90. apply cos_PI2.
  - reflexivity.
  - reflexivity.
  - intros a Hy Hx. apply bearing_due_east; simpl in *; lra.
  - unfold cruising, UAL100. simpl.
    replace (50 + 1 * (0 / 8)) with 50 by lra. tauto.
  - intros j Hj. cbn [Waypoint.x].
    assert (Hj' : INR (S j) <= 400).
    { replace 400 with (INR 400)
        by (rewrite INR_IZR_INZ; change (Z.of_nat 400) with 400%Z; lra).
      apply le_INR. lia. }
    rewrite S_INR in Hj'. rewrite S_INR. split; [lra |].
    rewrite Rabs_left by lra. lra.
  - split; [| exact Hvel]. rewrite Hpos. f_equal. lra.
Qed.

Lemma cruise_AAL200 (k : nat) :
  (k <= 400)%nat ->
  Aircraft.position (cruise k AAL200) = Position.mk (150 - INR k / 8) 100 35000
  /\ Aircraft.velocity (cruise k AAL200) = Velocity.mk 450 270.
Proof.
  intros Hk.
  destruct (cruising_run 270 (-1) 150 (Waypoint.mk "DEST2" 50 100 (Some 35000))) with
    (k := k) (a := AAL200) as (Hpos & Hvel & _).
  - rewrite radians_270. apply sin_3PI2.
  - rewrite radians_270. apply cos_3PI2.
  - reflexivity.
  - reflexivity.
  - intros a Hy Hx. apply bearing_due_west; simpl in *; lra.
  - unfold cruising, AAL200. simpl.
    replace (150 + -1 * (0 / 8)) with 150 by lra. tauto.
  - intros j Hj. cbn [Waypoint.x].
    assert (Hj' : INR (S j) <= 400).
    { replace 400 with (INR 400)
        by (rewrite INR_IZR_INZ; change (Z.of_nat 400) with 400%Z; lra).
      apply le_INR. lia. }
    rewrite S_INR in Hj'. rewrite S_INR. split; [lra |].
    rewrite Rabs_pos_eq by lra. lra.
  - split; [| exact Hvel]. rewrite Hpos. f_equal. lra.
Qed.

Lemma cruise_head_on (k : nat) :
  (k <= 400)%nat ->
  head_on (cruise k UAL100) (cruise k AAL200)
  /\ Position.x (Aircraft.position (cruise k AAL200))
     - Position.x (Aircraft.position (cruise k UAL100)) = 100 - INR k / 4
  /\ avg_altitude (cruise k UAL100) (cruise k AAL200) = 35000
  /\ Airspace.v_sep_at (cruise k UAL100) (cruise k AAL200) = fun _ => 0.
Proof.
  intros Hk.
  destruct (cruise_UAL100 k Hk) as [Hpa Hva].
  destruct (cruise_AAL200 k Hk) as [Hpb Hvb].
  unfold head_on, avg_altitude, Airspace.v_sep_at, Aircraft.predict_position.
  rewrite Hpa, Hpb, Hva, Hvb. simpl.
  repeat split; try lra.
  replace (35000 - 35000) with 0 by lra. rewrite Rabs_R0. reflexivity.
Qed.

Lemma scenario_head_on :
  head_on UAL100 AAL200
  /\ Position.x (Aircraft.position AAL200) - Position.x (Aircraft.position UAL100) = 100
  /\ avg_altitude UAL100 AAL200 = 35000
  /\ Airspace.v_sep_at UAL100 AAL200 = fun _ => 0.
Proof.
  unfold head_on, avg_altitude, Airspace.v_sep_at. simpl.
  repeat split; try lra.
  replace (35000 - 35000) with 0 by lra. rewrite Rabs_R0. reflexivity.
Qed.

Lemma requirements_35000 (a b : Aircraft.t) :
  avg_altitude a b = 35000 ->
  pair_requirements a b = SeparationRequirements.mk 5.0 2000.0.
Proof.
  intros H. unfold pair_requirements, SeparationRequirements.standard.
  rewrite H. eval_Rcmp. reflexivity.
Qed.

(** The window of 300 samples ends while the two are still 25.25 NM
    apart. *)
Lemma scenario_window :
  Airspace.sample_loop UAL100 AAL200 300 = (Fin 25.25, Fin 0, 299%nat).
Proof.
  destruct scenario_head_on as (Hho & Hgap & _ & Hv).
  assert (H299 : INR 299 = 299)
    by (rewrite INR_numeral; change (Z.of_nat 299) with 299%Z; lra).
  rewrite (sample_loop_at UAL100 AAL200 300 299).
  - rewrite Hv, head_on_h_sep by exact Hho. rewrite Hgap, H299.
    replace (100 - 299 / 4) with 25.25 by lra.
    rewrite Rabs_pos_eq by lra. reflexivity.
  - apply head_on_closing; [exact Hho |]. rewrite Hgap, H299. lra.
Qed.

Lemma scenario_no_conflict :
  Airspace._check_pair_for_conflict UAL100 AAL200 300.0 = None.
Proof.
  unfold Airspace._check_pair_for_conflict.
  rewrite lookahead_300, scenario_window.
  fold (avg_altitude UAL100 AAL200). fold (pair_requirements UAL100 AAL200).
  rewrite (requirements_35000 UAL100 AAL200) by apply scenario_head_on.
  simpl. eval_Rcmp. reflexivity.
Qed.

Lemma cruise_conflict (k : nat) :
  (101 <= k <= 400)%nat ->
  Airspace._check_pair_for_conflict (cruise k UAL100) (cruise k AAL200) 300.0
  = Some (Conflict.mk "UAL100" "AAL200" (400 - k) (Fin 0) (Fin 0) "high").
Proof.
  intros Hk.
  destruct (cruise_head_on k) as (Hho & Hgap & Havg & Hv); [lia |].
  assert (Hm : 100 - INR k / 4 = INR (400 - k) / 4).
  { rewrite minus_INR by lia.
    replace (INR 400) with 400
      by (rewrite INR_numeral; change (Z.of_nat 400) with 400%Z; lra).
    lra. }
  destruct (head_on_meeting (cruise k UAL100) (cruise k AAL200) 300 (400 - k))
    as [Hcpa Hzero]; [exact Hho | lia | rewrite Hgap; exact Hm |].
  unfold Airspace._check_pair_for_conflict.
  rewrite lookahead_300, (sample_loop_at _ _ _ _ Hcpa), Hzero, Hv.
  fold (avg_altitude (cruise k UAL100) (cruise k AAL200)).
  fold (pair_requirements (cruise k UAL100) (cruise k AAL200)).
  rewrite (requirements_35000 _ _ Havg).
  unfold Airspace._calculate_severity. simpl. eval_Rcmp. simpl.
  rewrite orb_true_r, !cruise_callsign. reflexivity.
Qed.

(** C4, as the code has it.  At the stated positions the default
    300-second window ends with the two aircraft still 25.25 NM apart
    (its minimum, at the last sample t = 299), which is not below 5 NM:
    no conflict is returned.  Once both have flown [k] ticks of one
    second on their plans, 101 <= k <= 400, with no instruction in
    between, the window contains the meeting point and
    exactly one conflict is returned for the pair, with time to CPA
    400 - k, horizontal and vertical separation 0 at CPA and severity
    "high". *)
Theorem C4_head_on_reported_once_inside_window
    (self : Airspace.t) (k : nat) (Hk : (101 <= k <= 400)%nat) :
  fst (Airspace.detect_conflicts self [UAL100; AAL200] 300.0) = []
  /\ Airspace.sample_loop UAL100 AAL200 300 = (Fin 25.25, Fin 0, 299%nat)
  /\ fst (Airspace.detect_conflicts self [cruise k UAL100; cruise k AAL200] 300.0)
     = [Conflict.mk "UAL100" "AAL200" (400 - k) (Fin 0) (Fin 0) "high"].
Proof.
  split; [| split].
  - rewrite detect_conflicts_two, scenario_no_conflict. reflexivity.
  - apply scenario_window.
  - rewrite detect_conflicts_two, cruise_conflict by exact Hk. reflexivity.
Qed.

Lemma C4_head_on_reported_once_inside_window_witness :
  fst (Airspace.detect_conflicts Airspace.init
         [cruise 340 UAL100; cruise 340 AAL200] 300.0)
  = [Conflict.mk "UAL100" "AAL200" 60 (Fin 0) (Fin 0) "high"].
Proof.
  apply (C4_head_on_reported_once_inside_window Airspace.init 340). lia.
Defined.

(** C4 as stated fails: for the two aircraft at (50, 100) and (150, 100)
    the detector with the default lookahead returns no conflict. *)
Lemma C4_counterexample :
  ~ exists c : Conflict.t,
      c ∈ fst (Airspace.detect_conflicts Airspace.init [UAL100; AAL200] 300.0).
Proof.
  rewrite detect_conflicts_two, scenario_no_conflict.
  intros [c Hc]. inversion Hc.
Qed.

(** ** Resolution policy (C7, C8, C9) *)

(** The system object after [instruction] is appended to the log and
    counted. *)
Definition logged (instruction : ATCInstruction.t) (self : ATCSystem.t)
    : ATCSystem.t :=
  ATCSystem.mk (ATCSystem.airspace self)
    (ATCSystem.instructions self ++ [instruction])
    (S (ATCSystem.instruction_count self)).

Definition altitude_change (ac : Aircraft.t) (current_time new_altitude : R)
    (conflict : Conflict.t) : ATCInstruction.t :=
  ATCInstruction.mk (Aircraft.callsign ac) current_time ALTITUDE_CHANGE
    {[ "new_altitude" := PFloat new_altitude; "rate" := PStr "normal" ]}
    "traffic_conflict" (ATCSystem.severity_priority conflict).

Definition heading_change (ac : Aircraft.t) (current_time new_heading : R)
    (conflict : Conflict.t) : ATCInstruction.t :=
  ATCInstruction.mk (Aircraft.callsign ac) current_time HEADING_CHANGE
    {[ "new_heading" := PFloat new_heading ]}
    "traffic_conflict" (ATCSystem.severity_priority conflict).

Definition speed_change (ac : Aircraft.t) (current_time new_speed : R)
    : ATCInstruction.t :=
  ATCInstruction.mk (Aircraft.callsign ac) current_time SPEED_CHANGE
    {[ "new_speed" := PFloat new_speed ]} "traffic_conflict" MEDIUM.

Lemma issue_altitude_change (ac : Aircraft.t) (now h : R) (conflict : Conflict.t)
    (i : nat) (st : ATCSystem.state) :
  ATCSystem._issue_instruction (altitude_change ac now h conflict) i st
  = Some (logged (altitude_change ac now h conflict) (fst st),
          alter (Aircraft.set_altitude h) i (snd st)).
Proof.
  destruct st as [self l]. unfold ATCSystem._issue_instruction, altitude_change.
  simpl. unfold ATCSystem.float_param. simpl.
  rewrite lookup_insert_eq. reflexivity.
Qed.

Lemma issue_heading_change (ac : Aircraft.t) (now h : R) (conflict : Conflict.t)
    (i : nat) (st : ATCSystem.state) :
  ATCSystem._issue_instruction (heading_change ac now h conflict) i st
  = Some (logged (heading_change ac now h conflict) (fst st),
          alter (Aircraft.set_heading h) i (snd st)).
Proof.
  destruct st as [self l]. unfold ATCSystem._issue_instruction, heading_change.
  simpl. unfold ATCSystem.float_param. simpl.
  rewrite lookup_singleton_eq. reflexivity.
Qed.

Lemma issue_speed_change (ac : Aircraft.t) (now s : R)
    (i : nat) (st : ATCSystem.state) :
  ATCSystem._issue_instruction (speed_change ac now s) i st
  = Some (logged (speed_change ac now s) (fst st),
          alter (Aircraft.set_speed s) i (snd st)).
Proof.
  destruct st as [self l]. unfold ATCSystem._issue_instruction, speed_change.
  simpl. unfold ATCSystem.float_param. simpl.
  rewrite lookup_singleton_eq. reflexivity.
Qed.

(** Lower and higher aircraft as [_try_altitude_resolution] picks
    them: [ac1] is the lower one only when strictly below [ac2]. *)
Definition lower_of (ac1 ac2 : nat * Aircraft.t) : nat * Aircraft.t :=
  if Rltb (Position.altitude (Aircraft.position (snd ac1)))
          (Position.altitude (Aircraft.position (snd ac2)))
  then ac1 else ac2.
Definition higher_of (ac1 ac2 : nat * Aircraft.t) : nat * Aircraft.t :=
  if Rltb (Position.altitude (Aircraft.position (snd ac1)))
          (Position.altitude (Aircraft.position (snd ac2)))
  then ac2 else ac1.

Definition required_vertical (ac1 ac2 : nat * Aircraft.t) : R :=
  SeparationRequirements.vertical_ft (pair_requirements (snd ac1) (snd ac2)).

(** The two candidate altitudes. *)
Definition down_shift (ac1 ac2 : nat * Aircraft.t) : R :=
  Position.altitude (Aircraft.position (snd (lower_of ac1 ac2)))
  - required_vertical ac1 ac2 - 1000.
Definition up_shift (ac1 ac2 : nat * Aircraft.t) : R :=
  Position.altitude (Aircraft.position (snd (higher_of ac1 ac2)))
  + required_vertical ac1 ac2 + 1000.

(** The state after an altitude instruction to [ac]. *)
Definition altitude_issued (ac : nat * Aircraft.t) (now h : R)
    (conflict : Conflict.t) (st : ATCSystem.state) : ATCSystem.state :=
  (logged (altitude_change (snd ac) now h conflict) (fst st),
   alter (Aircraft.set_altitude h) (fst ac) (snd st)).

(** The state after the heading instruction to [ac]. *)
Definition heading_issued (ac : nat * Aircraft.t) (now : R)
    (conflict : Conflict.t) (st : ATCSystem.state) : ATCSystem.state :=
  let h := py_mod (Velocity.heading (Aircraft.velocity (snd ac)) + 30) 360 in
  (logged (heading_change (snd ac) now h conflict) (fst st),
   alter (Aircraft.set_heading h) (fst ac) (snd st)).

Lemma try_altitude_cases (ac1 ac2 : nat * Aircraft.t) (conflict : Conflict.t)
    (now : R) (st : ATCSystem.state) :
  ATCSystem._try_altitude_resolution ac1 ac2 conflict now st
  = if Rgeb (down_shift ac1 ac2) Aircraft.MIN_ALTITUDE then
      Some (true, altitude_issued (lower_of ac1 ac2) now (down_shift ac1 ac2) conflict st)
    else if Rleb (up_shift ac1 ac2) Aircraft.MAX_ALTITUDE then
      Some (true, altitude_issued (higher_of ac1 ac2) now (up_shift ac1 ac2) conflict st)
    else Some (false, st).
Proof.
  unfold ATCSystem._try_altitude_resolution, down_shift, up_shift, lower_of,
    higher_of, required_vertical, altitude_issued.
  fold (avg_altitude (snd ac1) (snd ac2)).
  fold (pair_requirements (snd ac1) (snd ac2)).
  destruct (Rltb (Position.altitude (Aircraft.position (snd ac1))) _).
  - destruct (Rgeb _ Aircraft.MIN_ALTITUDE).
    + fold (altitude_change (snd ac1) now
              (Position.altitude (Aircraft.position (snd ac1))
               - SeparationRequirements.vertical_ft (pair_requirements (snd ac1) (snd ac2))
               - 1000) conflict).
      rewrite issue_altitude_change. reflexivity.
    + destruct (Rleb _ Aircraft.MAX_ALTITUDE); [| reflexivity].
      fold (altitude_change (snd ac2) now
              (Position.altitude (Aircraft.position (snd ac2))
               + SeparationRequirements.vertical_ft (pair_requirements (snd ac1) (snd ac2))
               + 1000) conflict).
      rewrite issue_altitude_change. reflexivity.
  - destruct (Rgeb _ Aircraft.MIN_ALTITUDE).
    + fold (altitude_change (snd ac2) now
              (Position.altitude (Aircraft.position (snd ac2))
               - SeparationRequirements.vertical_ft (pair_requirements (snd ac1) (snd ac2))
               - 1000) conflict).
      rewrite issue_altitude_change. reflexivity.
    + destruct (Rleb _ Aircraft.MAX_ALTITUDE); [| reflexivity].
      fold (altitude_change (snd ac1) now
              (Position.altitude (Aircraft.position (snd ac1))
               + SeparationRequirements.vertical_ft (pair_requirements (snd ac1) (snd ac2))
               + 1000) conflict).
      rewrite issue_altitude_change. reflexivity.
Qed.

Lemma try_heading_always (ac1 ac2 : nat * Aircraft.t) (conflict : Conflict.t)
    (now : R) (st : ATCSystem.state) :
  ATCSystem._try_heading_resolution ac1 ac2 conflict now st
  = Some (true, heading_issued ac1 now conflict st).
Proof.
  unfold ATCSystem._try_heading_resolution, heading_issued.
  fold (heading_change (snd ac1) now
          (py_mod (Velocity.heading (Aircraft.velocity (snd ac1)) + 30) 360) conflict).
  rewrite issue_heading_change. reflexivity.
Qed.

(** [_resolve_conflict] when both aircraft are found. *)
Lemma resolve_found (conflict : Conflict.t) (now : R) (st : ATCSystem.state)
    (ac1 ac2 : nat * Aircraft.t) :
  ATCSystem.find_aircraft (Conflict.aircraft1 conflict) (snd st) = Some ac1 ->
  ATCSystem.find_aircraft (Conflict.aircraft2 conflict) (snd st) = Some ac2 ->
  ATCSystem._resolve_conflict conflict now st
  = if ATCSystem._recently_instructed (fst st) (Conflict.aircraft1 conflict)
         (Conflict.aircraft2 conflict) now 60.0
    then Some st
    else if Rgeb (down_shift ac1 ac2) Aircraft.MIN_ALTITUDE then
      Some (altitude_issued (lower_of ac1 ac2) now (down_shift ac1 ac2) conflict st)
    else if Rleb (up_shift ac1 ac2) Aircraft.MAX_ALTITUDE then
      Some (altitude_issued (higher_of ac1 ac2) now (up_shift ac1 ac2) conflict st)
    else Some (heading_issued ac1 now conflict st).
Proof.
  intros H1 H2. unfold ATCSystem._resolve_conflict. rewrite H1, H2.
  destruct (ATCSystem._recently_instructed _ _ _ _ _); [reflexivity |].
  rewrite try_altitude_cases.
  destruct (Rgeb _ Aircraft.MIN_ALTITUDE); [reflexivity |].
  destruct (Rleb _ Aircraft.MAX_ALTITUDE); [reflexivity |].
  simpl. rewrite try_heading_always. reflexivity.
Qed.

Lemma resolve_not_found (conflict : Conflict.t) (now : R) (st : ATCSystem.state) :
  ATCSystem.find_aircraft (Conflict.aircraft1 conflict) (snd st) = None
  \/ ATCSystem.find_aircraft (Conflict.aircraft2 conflict) (snd st) = None ->
  ATCSystem._resolve_conflict conflict now st = Some st.
Proof.
  unfold ATCSystem._resolve_conflict. intros [H | H]; rewrite H.
  - reflexivity.
  - destruct (ATCSystem.find_aircraft (Conflict.aircraft1 conflict) (snd st));
      reflexivity.
Qed.

Lemma required_vertical_bounds (ac1 ac2 : nat * Aircraft.t) :
  1000 <= required_vertical ac1 ac2 <= 2000.
Proof. apply standard_vertical_bounds. Qed.


(** *** Cooldown *)

Definition names_either (callsign1 callsign2 : string) (i : ATCInstruction.t) : Prop :=
  ATCInstruction.callsign i = callsign1 \/ ATCInstruction.callsign i = callsign2.

Definition within_window (current_time window : R) (i : ATCInstruction.t) : Prop :=
  current_time - ATCInstruction.timestamp i <= window.

(** The scan answers yes exactly when it meets an instruction to one of
    the two callsigns before meeting one older than the window. *)
Lemma recent_scan_iff (c1 c2 : string) (now w : R) (l : list ATCInstruction.t) :
  ATCSystem.recent_scan c1 c2 now w l = true <->
  exists (k : nat) (i : ATCInstruction.t),
    l !! k = Some i /\ names_either c1 c2 i
    /\ forall (j : nat) (i' : ATCInstruction.t),
         (j <= k)%nat -> l !! j = Some i' -> within_window now w i'.
Proof.
  unfold names_either, within_window.
  induction l as [| i rest IH]; simpl.
  - split; [discriminate | intros (k & i & H & _); discriminate].
  - unfold Rgtb. case_Rltb w (now - ATCInstruction.timestamp i).
    + split; [discriminate |]. intros (k & i0 & _ & _ & Hwin).
      specialize (Hwin 0%nat i (Nat.le_0_l k) eq_refl). lra.
    + destruct (bool_decide (ATCInstruction.callsign i ∈ [c1; c2])) eqn:Hname.
      * split; [intros _ | reflexivity].
        apply bool_decide_eq_true in Hname. exists 0%nat, i.
        split; [reflexivity |]. split.
        -- apply elem_of_cons in Hname as [H | H]; [left; exact H |].
           apply list_elem_of_singleton in H. right; exact H.
        -- intros j i' Hj Hi'. replace j with 0%nat in Hi' by lia.
           injection Hi' as <-. lra.
      * apply bool_decide_eq_false in Hname. rewrite IH. split.
        -- intros (k & i0 & Hk & Hn & Hwin). exists (S k), i0.
           split; [exact Hk |]. split; [exact Hn |].
           intros [| j] i' Hj Hi'; simpl in Hi'.
           ++ injection Hi' as <-. lra.
           ++ apply (Hwin j); [lia | exact Hi'].
        -- intros ([| k] & i0 & Hk & Hn & Hwin); simpl in Hk.
           ++ injection Hk as <-. exfalso. apply Hname.
              destruct Hn as [<- | <-]; [apply list_elem_of_here |].
              apply list_elem_of_further, list_elem_of_here.
           ++ exists k, i0. split; [exact Hk |]. split; [exact Hn |].
              intros j i' Hj Hi'. apply (Hwin (S j)); [lia | exact Hi'].
Qed.

Lemma resolve_recent (conflict : Conflict.t) (now : R) (st : ATCSystem.state) :
  ATCSystem._recently_instructed (fst st) (Conflict.aircraft1 conflict)
    (Conflict.aircraft2 conflict) now 60.0 = true ->
  ATCSystem._resolve_conflict conflict now st = Some st.
Proof.
  intros Hrecent. unfold ATCSystem._resolve_conflict.
  destruct (ATCSystem.find_aircraft (Conflict.aircraft1 conflict) (snd st));
    [| reflexivity].
  destruct (ATCSystem.find_aircraft (Conflict.aircraft2 conflict) (snd st));
    [| reflexivity].
  rewrite Hrecent. reflexivity.
Qed.

(** The log is in issuing order under a clock that does not go back. *)
Definition chronological (log : list ATCInstruction.t) : Prop :=
  forall (i j : nat) (x y : ATCInstruction.t),
    (i <= j)%nat -> log !! i = Some x -> log !! j = Some y ->
    ATCInstruction.timestamp x <= ATCInstruction.timestamp y.

(** Newest first, the timestamps of the last instructions of a
    chronological log do not increase. *)
Lemma newest_first_chronological (n : nat) (log : list ATCInstruction.t)
    (j k : nat) (x y : ATCInstruction.t) :
  chronological log -> (j <= k)%nat ->
  reverse (ATCSystem.last_n n log) !! j = Some x ->
  reverse (ATCSystem.last_n n log) !! k = Some y ->
  ATCInstruction.timestamp y <= ATCInstruction.timestamp x.
Proof.
  intros Hchrono Hjk Hx Hy. unfold ATCSystem.last_n in *.
  apply reverse_lookup_Some in Hx as [Hx Hxlt].
  apply reverse_lookup_Some in Hy as [Hy Hylt].
  rewrite lookup_drop in Hx, Hy.
  eapply Hchrono; [| exact Hy | exact Hx]. lia.
Qed.

(** C8.  [_recently_instructed] looks at the last 20 logged instructions
    newest first and stops at the first one older than the 60-second
    window: it answers yes exactly when an instruction to one of the two
    callsigns is met while every instruction scanned so far, that one
    included, lies within the window.  When it answers yes,
    [_resolve_conflict] issues nothing and changes nothing.  On a log in
    issuing order this is the case as soon as one of the last 20
    instructions names one of the two callsigns and lies within 60
    seconds of the current time. *)
Theorem C8_cooldown_skips_resolution
    (conflict : Conflict.t) (now : R) (st : ATCSystem.state) :
  let log := ATCSystem.instructions (fst st) in
  let newest_first := reverse (drop (length log - 20) log) in
  let c1 := Conflict.aircraft1 conflict in
  let c2 := Conflict.aircraft2 conflict in
  let recent := ATCSystem._recently_instructed (fst st) c1 c2 now 60.0 in
  (recent = true <->
     exists (k : nat) (i : ATCInstruction.t),
       newest_first !! k = Some i
       /\ (ATCInstruction.callsign i = c1 \/ ATCInstruction.callsign i = c2)
       /\ forall (j : nat) (i' : ATCInstruction.t),
            (j <= k)%nat -> newest_first !! j = Some i' ->
            now - ATCInstruction.timestamp i' <= 60)
  /\ (recent = true -> ATCSystem._resolve_conflict conflict now st = Some st)
  /\ (chronological log ->
      (exists i : ATCInstruction.t,
         i ∈ drop (length log - 20) log
         /\ (ATCInstruction.callsign i = c1 \/ ATCInstruction.callsign i = c2)
         /\ now - ATCInstruction.timestamp i <= 60) ->
      recent = true
      /\ ATCSystem._resolve_conflict conflict now st = Some st).
Proof.
  intros log newest_first c1 c2 recent.
  assert (Hiff : recent = true <->
     exists (k : nat) (i : ATCInstruction.t),
       newest_first !! k = Some i
       /\ (ATCInstruction.callsign i = c1 \/ ATCInstruction.callsign i = c2)
       /\ forall (j : nat) (i' : ATCInstruction.t),
            (j <= k)%nat -> newest_first !! j = Some i' ->
            now - ATCInstruction.timestamp i' <= 60).
  { subst recent. unfold ATCSystem._recently_instructed.
    rewrite recent_scan_iff. unfold names_either, within_window.
    fold log. unfold ATCSystem.last_n. fold newest_first.
    split; intros (k & i & Hk & Hn & Hwin); exists k, i;
      (split; [exact Hk |]; split; [exact Hn |]);
      intros j i' Hj Hi'; specialize (Hwin j i' Hj Hi'); lra. }
  split; [exact Hiff |].
  split; [apply resolve_recent |].
  intros Hchrono (i & Hin & Hn & Hwin).
  assert (Hrecent : recent = true).
  { apply Hiff. apply elem_of_reverse, list_elem_of_lookup in Hin as [k Hk].
    exists k, i. split; [exact Hk |]. split; [exact Hn |].
    intros j i' Hj Hi'.
    pose proof (newest_first_chronological 20 log j k i' i Hchrono Hj Hi' Hk).
    lra. }
  split; [exact Hrecent | apply resolve_recent, Hrecent].
Qed.

(** *** Heading always succeeds; speed is never used *)

Lemma find_aircraft_some (cs : string) (l : list Aircraft.t) (i : nat)
    (a : Aircraft.t) :
  ATCSystem.find_aircraft cs l = Some (i, a) ->
  l !! i = Some a /\ Aircraft.callsign a = cs.
Proof.
  unfold ATCSystem.find_aircraft. intros H.
  apply list_find_Some in H as (Hl & Hcs & _). split; assumption.
Qed.



(** The instructions [added] were appended to the log between two
    states and none of them is a SPEED_CHANGE. *)
Definition appended_without_speed (st st' : ATCSystem.state) : Prop :=
  exists added : list ATCInstruction.t,
    ATCSystem.instructions (fst st') = ATCSystem.instructions (fst st) ++ added
    /\ Forall (fun i => ATCInstruction.instruction_type i <> SPEED_CHANGE) added.

Lemma appended_refl (st : ATCSystem.state) : appended_without_speed st st.
Proof. exists []. split; [symmetry; apply app_nil_r | constructor]. Qed.

Lemma appended_trans (st1 st2 st3 : ATCSystem.state) :
  appended_without_speed st1 st2 -> appended_without_speed st2 st3 ->
  appended_without_speed st1 st3.
Proof.
  intros (l1 & H1 & F1) (l2 & H2 & F2). exists (l1 ++ l2). split.
  - rewrite H2, H1. symmetry. apply app_assoc.
  - apply Forall_app. split; assumption.
Qed.

Lemma appended_one (st st' : ATCSystem.state) (i : ATCInstruction.t) :
  fst st' = logged i (fst st) ->
  ATCInstruction.instruction_type i <> SPEED_CHANGE ->
  appended_without_speed st st'.
Proof.
  intros Hst Hty. exists [i]. split; [rewrite Hst; reflexivity |].
  constructor; [exact Hty | constructor].
Qed.

Lemma resolve_total_without_speed (conflict : Conflict.t) (now : R)
    (st : ATCSystem.state) :
  exists st', ATCSystem._resolve_conflict conflict now st = Some st'
              /\ appended_without_speed st st'.
Proof.
  destruct (ATCSystem.find_aircraft (Conflict.aircraft1 conflict) (snd st))
    as [ac1 |] eqn:H1;
    [| exists st; split; [apply resolve_not_found; left; exact H1 | apply appended_refl]].
  destruct (ATCSystem.find_aircraft (Conflict.aircraft2 conflict) (snd st))
    as [ac2 |] eqn:H2;
    [| exists st; split; [apply resolve_not_found; right; exact H2 | apply appended_refl]].
  rewrite (resolve_found conflict now st ac1 ac2 H1 H2).
  destruct (ATCSystem._recently_instructed _ _ _ _ _);
    [exists st; split; [reflexivity | apply appended_refl] |].
  destruct (Rgeb _ Aircraft.MIN_ALTITUDE);
    [eexists; split; [reflexivity | eapply appended_one; [reflexivity | discriminate]] |].
  destruct (Rleb _ Aircraft.MAX_ALTITUDE);
    eexists; (split; [reflexivity | eapply appended_one; [reflexivity | discriminate]]).
Qed.

Lemma resolve_all_total_without_speed (conflicts : list Conflict.t) (now : R)
    (st : ATCSystem.state) :
  exists st', ATCSystem.resolve_all conflicts now st = Some st'
              /\ appended_without_speed st st'.
Proof.
  revert st. induction conflicts as [| conflict rest IH]; intros st; simpl.
  - exists st. split; [reflexivity | apply appended_refl].
  - destruct (bool_decide _); [| apply IH].
    destruct (resolve_total_without_speed conflict now st) as (st1 & -> & Happ1).
    simpl. destruct (IH st1) as (st2 & -> & Happ2).
    exists st2. split; [reflexivity |]. eapply appended_trans; eassumption.
Qed.

(** [_resolve_conflict] with the speed fallback removed. *)
Definition resolve_without_speed (conflict : Conflict.t) (current_time : R)
    (st : ATCSystem.state) : option ATCSystem.state :=
  match ATCSystem.find_aircraft (Conflict.aircraft1 conflict) (snd st),
        ATCSystem.find_aircraft (Conflict.aircraft2 conflict) (snd st) with
  | Some ac1, Some ac2 =>
      if ATCSystem._recently_instructed (fst st) (Conflict.aircraft1 conflict)
           (Conflict.aircraft2 conflict) current_time 60.0
      then Some st
      else
        '(done_, st) ← ATCSystem._try_altitude_resolution ac1 ac2 conflict
                          current_time st;
        if (done_ : bool) then Some st
        else snd <$> ATCSystem._try_heading_resolution ac1 ac2 conflict
                       current_time st
  | _, _ => Some st
  end.

Lemma resolve_never_reaches_speed (conflict : Conflict.t) (now : R)
    (st : ATCSystem.state) :
  ATCSystem._resolve_conflict conflict now st = resolve_without_speed conflict now st.
Proof.
  unfold ATCSystem._resolve_conflict, resolve_without_speed.
  destruct (ATCSystem.find_aircraft (Conflict.aircraft1 conflict) (snd st))
    as [ac1 |]; [| reflexivity].
  destruct (ATCSystem.find_aircraft (Conflict.aircraft2 conflict) (snd st))
    as [ac2 |]; [| reflexivity].
  destruct (ATCSystem._recently_instructed _ _ _ _ _); [reflexivity |].
  destruct (ATCSystem._try_altitude_resolution ac1 ac2 conflict now st)
    as [[[] st1] |]; simpl; try reflexivity.
  rewrite try_heading_always. reflexivity.
Qed.

(** C9.  The heading strategy always succeeds: it logs a HEADING_CHANGE
    for the first-named aircraft with the new heading 30 degrees
    clockwise of the present one modulo 360 and hands it to
    [set_heading]; for a present heading that is not negative the new
    heading lies in [0, 360) and is exactly the aircraft's pending
    heading.  So whenever the altitude strategy
    fails, [_resolve_conflict] ends with the heading instruction, which
    names the conflict's first callsign and is applied to the aircraft
    found under it; the
    speed strategy is never reached, and neither one resolution nor a
    whole [update] of the system adds a SPEED_CHANGE to the log. *)
Theorem C9_heading_always_succeeds_speed_unreachable
    (conflict : Conflict.t) (now : R) (st : ATCSystem.state) :
  (forall ac1 ac2 : nat * Aircraft.t,
     let new_heading :=
       py_mod (Velocity.heading (Aircraft.velocity (snd ac1)) + 30) 360 in
     ATCSystem._try_heading_resolution ac1 ac2 conflict now st
     = Some (true,
             (ATCSystem.mk (ATCSystem.airspace (fst st))
                (ATCSystem.instructions (fst st)
                 ++ [ATCInstruction.mk (Aircraft.callsign (snd ac1)) now
                       HEADING_CHANGE {[ "new_heading" := PFloat new_heading ]}
                       "traffic_conflict" (ATCSystem.severity_priority conflict)])
                (S (ATCSystem.instruction_count (fst st))),
              alter (Aircraft.set_heading new_heading) (fst ac1) (snd st)))
     /\ (0 <= Velocity.heading (Aircraft.velocity (snd ac1)) ->
         Aircraft.target_heading (Aircraft.set_heading new_heading (snd ac1))
         = Some new_heading
         /\ 0 <= new_heading < 360))
  /\ (forall ac1 ac2 : nat * Aircraft.t,
     ATCSystem.find_aircraft (Conflict.aircraft1 conflict) (snd st) = Some ac1 ->
     ATCSystem.find_aircraft (Conflict.aircraft2 conflict) (snd st) = Some ac2 ->
     ATCSystem._recently_instructed (fst st) (Conflict.aircraft1 conflict)
       (Conflict.aircraft2 conflict) now 60.0 = false ->
     ATCSystem._try_altitude_resolution ac1 ac2 conflict now st = Some (false, st) ->
     ATCSystem._resolve_conflict conflict now st
     = snd <$> ATCSystem._try_heading_resolution ac1 ac2 conflict now st
     /\ Aircraft.callsign (snd ac1) = Conflict.aircraft1 conflict
     /\ alter (Aircraft.set_heading
                 (py_mod (Velocity.heading (Aircraft.velocity (snd ac1)) + 30) 360))
          (fst ac1) (snd st) !! fst ac1
        = Some (Aircraft.set_heading
                  (py_mod (Velocity.heading (Aircraft.velocity (snd ac1)) + 30) 360)
                  (snd ac1)))
  /\ ATCSystem._resolve_conflict conflict now st
     = resolve_without_speed conflict now st
  /\ (exists st', ATCSystem._resolve_conflict conflict now st = Some st'
                  /\ appended_without_speed st st')
  /\ (exists st', ATCSystem.update now st = Some st'
                  /\ appended_without_speed st st').
Proof.
  split; [| split; [| split; [| split]]].
  - intros ac1 ac2 new_heading.
    assert (Hrange : 0 <= new_heading < 360) by (apply py_mod_range; lra).
    split; [apply try_heading_always |]. intros _. split; [| exact Hrange].
    unfold Aircraft.set_heading. unfold_with. simpl.
    rewrite py_mod_id by exact Hrange. reflexivity.
  - intros ac1 ac2 H1 H2 Hrecent Halt.
    destruct ac1 as [i1 a1].
    destruct (find_aircraft_some _ _ _ _ H1) as [Hlookup Hcs].
    split; [| split; [exact Hcs |]].
    + unfold ATCSystem._resolve_conflict. rewrite H1, H2, Hrecent, Halt. simpl.
      rewrite try_heading_always. reflexivity.
    + simpl. rewrite list_lookup_alter. destruct (decide (i1 = i1)); [| congruence].
      rewrite Hlookup. reflexivity.
  - apply resolve_never_reaches_speed.
  - apply resolve_total_without_speed.
  - destruct st as [self l]. unfold ATCSystem.update.
    destruct (Airspace.detect_conflicts (ATCSystem.airspace self) l 300.0)
      as [conflicts airspace].
    destruct (resolve_all_total_without_speed conflicts now
                (ATCSystem.mk airspace (ATCSystem.instructions self)
                   (ATCSystem.instruction_count self), l))
      as (st' & Hst' & added & Hadded & Hforall).
    exists st'. split; [exact Hst' |]. exists added. split; assumption.
Qed.

(** *** The log stays in issuing order *)

(** In issuing order and nothing stamped later than [now]. *)
Definition log_upto (now : R) (log : list ATCInstruction.t) : Prop :=
  chronological log
  /\ Forall (fun i => ATCInstruction.timestamp i <= now) log.

Lemma log_upto_later (now now' : R) (log : list ATCInstruction.t) :
  now <= now' -> log_upto now log -> log_upto now' log.
Proof.
  intros Hle [Hchrono Hall]. split; [exact Hchrono |].
  eapply Forall_impl; [exact Hall |]. simpl. intros i Hi. lra.
Qed.

Lemma log_upto_snoc (now : R) (log : list ATCInstruction.t) (i : ATCInstruction.t) :
  log_upto now log -> ATCInstruction.timestamp i = now -> log_upto now (log ++ [i]).
Proof.
  intros [Hchrono Hall] Hts. split.
  - intros m n x y Hmn Hx Hy.
    destruct (decide (n < length log)%nat) as [Hn | Hn].
    + rewrite lookup_app_l in Hx, Hy by lia.
      apply (Hchrono m n x y Hmn Hx Hy).
    + rewrite (lookup_app_r log) in Hy by lia.
      assert (Hy' : y = i).
      { destruct (n - length log)%nat; simpl in Hy; [congruence | discriminate]. }
      subst y. rewrite Hts.
      destruct (decide (m < length log)%nat) as [Hm | Hm].
      * rewrite lookup_app_l in Hx by lia.
        rewrite Forall_forall in Hall. apply Hall.
        apply list_elem_of_lookup. exists m. exact Hx.
      * rewrite (lookup_app_r log) in Hx by lia.
        destruct (m - length log)%nat; simpl in Hx; [| discriminate].
        injection Hx as <-. lra.
  - apply Forall_app. split; [exact Hall |].
    constructor; [lra | constructor].
Qed.

Lemma resolve_log_upto (conflict : Conflict.t) (now : R) (st st' : ATCSystem.state) :
  log_upto now (ATCSystem.instructions (fst st)) ->
  ATCSystem._resolve_conflict conflict now st = Some st' ->
  log_upto now (ATCSystem.instructions (fst st')).
Proof.
  intros Hlog.
  destruct (ATCSystem.find_aircraft (Conflict.aircraft1 conflict) (snd st))
    as [ac1 |] eqn:H1;
    [| rewrite resolve_not_found by (left; exact H1); intros [= <-]; exact Hlog].
  destruct (ATCSystem.find_aircraft (Conflict.aircraft2 conflict) (snd st))
    as [ac2 |] eqn:H2;
    [| rewrite resolve_not_found by (right; exact H2); intros [= <-]; exact Hlog].
  rewrite (resolve_found conflict now st ac1 ac2 H1 H2).
  destruct (ATCSystem._recently_instructed _ _ _ _ _); [intros [= <-]; exact Hlog |].
  destruct (Rgeb _ Aircraft.MIN_ALTITUDE);
    [intros [= <-]; apply log_upto_snoc; [exact Hlog | reflexivity] |].
  destruct (Rleb _ Aircraft.MAX_ALTITUDE);
    intros [= <-]; apply log_upto_snoc; [exact Hlog | reflexivity | exact Hlog | reflexivity].
Qed.

Lemma resolve_all_log_upto (conflicts : list Conflict.t) (now : R)
    (st st' : ATCSystem.state) :
  log_upto now (ATCSystem.instructions (fst st)) ->
  ATCSystem.resolve_all conflicts now st = Some st' ->
  log_upto now (ATCSystem.instructions (fst st')).
Proof.
  revert st. induction conflicts as [| conflict rest IH]; intros st Hlog; simpl.
  - intros [= <-]. exact Hlog.
  - destruct (bool_decide _); [| apply IH, Hlog].
    destruct (ATCSystem._resolve_conflict conflict now st) as [st1 |] eqn:Hres;
      [| discriminate].
    simpl. apply IH. eapply resolve_log_upto; eassumption.
Qed.

(** Under a clock that does not go back, every [update] finds and
    leaves the log in issuing order: the order assumed in the last part
    of C8 holds on every log the system produces. *)
Lemma update_log_upto (now now' : R) (st st' : ATCSystem.state) :
  now <= now' ->
  log_upto now (ATCSystem.instructions (fst st)) ->
  ATCSystem.update now' st = Some st' ->
  log_upto now' (ATCSystem.instructions (fst st')).
Proof.
  intros Hle Hlog. destruct st as [self l]. unfold ATCSystem.update.
  destruct (Airspace.detect_conflicts (ATCSystem.airspace self) l 300.0)
    as [conflicts airspace].
  apply resolve_all_log_upto. simpl. eapply log_upto_later; eassumption.
Qed.

Lemma log_upto_init (now : R) (airspace : Airspace.t) :
  log_upto now (ATCSystem.instructions (ATCSystem.init airspace)).
Proof.
  split; [| constructor]. intros i j x y _ Hx. discriminate.
Qed.

(** ** Safety monitor (C5, C6) *)

Definition key_of (p : Aircraft.t * Aircraft.t) : string * string :=
  pair_key (Aircraft.callsign (fst p)) (Aircraft.callsign (snd p)).

Definition violating (p : Aircraft.t * Aircraft.t) : Prop :=
  Airspace.is_separated (fst p) (snd p) = false.

(** [v'] keeps everything measured when [v] was created; only the
    duration may have grown. *)
Definition same_reading (v v' : SeparationViolation.t) : Prop :=
  SeparationViolation.aircraft1 v' = SeparationViolation.aircraft1 v
  /\ SeparationViolation.aircraft2 v' = SeparationViolation.aircraft2 v
  /\ SeparationViolation.timestamp v' = SeparationViolation.timestamp v
  /\ SeparationViolation.horizontal_separation v'
     = SeparationViolation.horizontal_separation v
  /\ SeparationViolation.vertical_separation v'
     = SeparationViolation.vertical_separation v
  /\ SeparationViolation.severity v' = SeparationViolation.severity v
  /\ SeparationViolation.duration v <= SeparationViolation.duration v'.

Lemma same_reading_refl (v : SeparationViolation.t) : same_reading v v.
Proof. unfold same_reading. repeat split; lra. Qed.

Lemma same_reading_trans (v1 v2 v3 : SeparationViolation.t) :
  same_reading v1 v2 -> same_reading v2 v3 -> same_reading v1 v3.
Proof.
  unfold same_reading.
  intros (A1 & B1 & C1 & D1 & E1 & F1 & G1) (A2 & B2 & C2 & D2 & E2 & F2 & G2).
  repeat split; try congruence. lra.
Qed.

Lemma same_reading_add_duration (v : SeparationViolation.t) :
  same_reading v (SeparationViolation.add_duration 1.0 v).
Proof. unfold same_reading. simpl. repeat split; lra. Qed.

(** The new record of a pair seen violating for the first time. *)
Definition new_violation (now : R) (p : Aircraft.t * Aircraft.t)
    : SeparationViolation.t :=
  SeparationViolation.mk (Aircraft.callsign (fst p)) (Aircraft.callsign (snd p)) now
    (horizontal_of (fst p) (snd p)) (vertical_of (fst p) (snd p)) 0.0
    (SafetyEvaluator._classify_violation_severity
       (horizontal_of (fst p) (snd p)) (vertical_of (fst p) (snd p)) (fst p) (snd p)).

Section ViolationStep.
Variable now : R.
Implicit Types (self : SafetyEvaluator.t) (cur : gset (string * string))
  (p : Aircraft.t * Aircraft.t).

Lemma violation_step_separated self cur p :
  ~ violating p ->
  SafetyEvaluator.violation_step now (self, cur) p = (self, cur).
Proof.
  unfold violating. intros H. destruct p as [a b]. simpl in *.
  destruct (Airspace.is_separated a b); [reflexivity | contradiction].
Qed.

Lemma violation_step_new self cur p :
  violating p ->
  SafetyEvaluator.active_violations self !! key_of p = None ->
  SafetyEvaluator.violation_step now (self, cur) p
  = (SafetyEvaluator.with_violations
       (SafetyEvaluator.violations self ++ [new_violation now p])
       (SafetyEvaluator.with_active_violations
          (<[ key_of p := length (SafetyEvaluator.violations self) ]>
             (SafetyEvaluator.active_violations self)) self),
     {[ key_of p ]} ∪ cur).
Proof.
  unfold violating, key_of. destruct p as [a b]. simpl. intros Hv Hnone.
  rewrite Hv. simpl. rewrite Hnone. reflexivity.
Qed.

Lemma violation_step_continuing self cur p (i : nat) :
  violating p ->
  SafetyEvaluator.active_violations self !! key_of p = Some i ->
  SafetyEvaluator.violation_step now (self, cur) p
  = (SafetyEvaluator.with_violations
       (alter (SeparationViolation.add_duration 1.0) i
          (SafetyEvaluator.violations self)) self,
     {[ key_of p ]} ∪ cur).
Proof.
  unfold violating, key_of. destruct p as [a b]. simpl. intros Hv Hsome.
  rewrite Hv. simpl. rewrite Hsome. reflexivity.
Qed.

(** The three cases of one step. *)
Lemma violation_step_cases self cur p :
  (~ violating p
   /\ SafetyEvaluator.violation_step now (self, cur) p = (self, cur))
  \/ (violating p
      /\ SafetyEvaluator.active_violations self !! key_of p = None
      /\ SafetyEvaluator.violation_step now (self, cur) p
         = (SafetyEvaluator.with_violations
              (SafetyEvaluator.violations self ++ [new_violation now p])
              (SafetyEvaluator.with_active_violations
                 (<[ key_of p := length (SafetyEvaluator.violations self) ]>
                    (SafetyEvaluator.active_violations self)) self),
            {[ key_of p ]} ∪ cur))
  \/ (exists i, violating p
      /\ SafetyEvaluator.active_violations self !! key_of p = Some i
      /\ SafetyEvaluator.violation_step now (self, cur) p
         = (SafetyEvaluator.with_violations
              (alter (SeparationViolation.add_duration 1.0) i
                 (SafetyEvaluator.violations self)) self,
            {[ key_of p ]} ∪ cur)).
Proof.
  destruct (Airspace.is_separated (fst p) (snd p)) eqn:Hsep.
  - left. assert (Hnv : ~ violating p) by (unfold violating; congruence).
    split; [exact Hnv | apply violation_step_separated, Hnv].
  - right. destruct (SafetyEvaluator.active_violations self !! key_of p)
      as [i |] eqn:Hact.
    + right. exists i. split; [exact Hsep |]. split; [reflexivity |].
      apply violation_step_continuing; assumption.
    + left. split; [exact Hsep |]. split; [reflexivity |].
      apply violation_step_new; assumption.
Qed.

(** A step never rewrites what a history record has measured. *)
Lemma violation_step_history self cur p (idx : nat) (v : SeparationViolation.t) :
  SafetyEvaluator.violations self !! idx = Some v ->
  exists v',
    SafetyEvaluator.violations
      (fst (SafetyEvaluator.violation_step now (self, cur) p)) !! idx = Some v'
    /\ same_reading v v'.
Proof.
  intros Hv.
  destruct (violation_step_cases self cur p)
    as [[_ ->] | [(_ & _ & ->) | (i & _ & _ & ->)]]; simpl.
  - exists v. split; [exact Hv | apply same_reading_refl].
  - exists v. split; [| apply same_reading_refl].
    apply lookup_app_l_Some, Hv.
  - rewrite list_lookup_alter. destruct (decide (i = idx)) as [-> | _].
    + rewrite Hv. simpl. eexists. split; [reflexivity |].
      apply same_reading_add_duration.
    + exists v. split; [exact Hv | apply same_reading_refl].
Qed.

Lemma violation_fold_history (pairs : list (Aircraft.t * Aircraft.t))
    (acc : SafetyEvaluator.t * gset (string * string))
    (idx : nat) (v : SeparationViolation.t) :
  SafetyEvaluator.violations (fst acc) !! idx = Some v ->
  exists v',
    SafetyEvaluator.violations
      (fst (foldl (SafetyEvaluator.violation_step now) acc pairs)) !! idx = Some v'
    /\ same_reading v v'.
Proof.
  revert acc v. induction pairs as [| p rest IH]; intros [self cur] v Hv; cbn [foldl].
  - exists v. split; [exact Hv | apply same_reading_refl].
  - destruct (violation_step_history self cur p idx v Hv) as (v1 & Hv1 & Hs1).
    destruct (IH _ v1 Hv1) as (v2 & Hv2 & Hs2).
    exists v2. split; [exact Hv2 | eapply same_reading_trans; eassumption].
Qed.

(** The keys collected in [current_violations] and the keys of the
    active map after the pair loop. *)
Lemma violation_fold_current (pairs : list (Aircraft.t * Aircraft.t))
    (acc : SafetyEvaluator.t * gset (string * string)) (k : string * string) :
  k ∈ snd (foldl (SafetyEvaluator.violation_step now) acc pairs) <->
  k ∈ snd acc \/ exists p, p ∈ pairs /\ violating p /\ k = key_of p.
Proof.
  revert acc. induction pairs as [| p rest IH]; intros [self cur]; cbn [foldl].
  - split; [intros H; left; exact H | intros [H | (p & Hp & _)]; [exact H | inversion Hp]].
  - rewrite IH.
    destruct (violation_step_cases self cur p)
      as [[Hnv ->] | [(Hv & _ & ->) | (i & Hv & _ & ->)]]; simpl.
    + split.
      * intros [H | (q & Hq & Hvq & ->)]; [left; exact H | right].
        exists q. split; [apply list_elem_of_further, Hq | split; [exact Hvq | reflexivity]].
      * intros [H | (q & Hq & Hvq & ->)]; [left; exact H |].
        apply elem_of_cons in Hq as [-> | Hq]; [contradiction |].
        right. exists q. split; [exact Hq | split; [exact Hvq | reflexivity]].
    + split.
      * intros [H | (q & Hq & Hvq & ->)].
        -- apply elem_of_union in H as [H | H]; [| left; exact H].
           apply elem_of_singleton in H. right. exists p.
           split; [apply list_elem_of_here | split; assumption].
        -- right. exists q.
           split; [apply list_elem_of_further, Hq | split; [exact Hvq | reflexivity]].
      * intros [H | (q & Hq & Hvq & ->)]; [left; apply elem_of_union_r, H |].
        apply elem_of_cons in Hq as [-> | Hq];
          [left; apply elem_of_union_l, elem_of_singleton; reflexivity |].
        right. exists q. split; [exact Hq | split; [exact Hvq | reflexivity]].
    + split.
      * intros [H | (q & Hq & Hvq & ->)].
        -- apply elem_of_union in H as [H | H]; [| left; exact H].
           apply elem_of_singleton in H. right. exists p.
           split; [apply list_elem_of_here | split; assumption].
        -- right. exists q.
           split; [apply list_elem_of_further, Hq | split; [exact Hvq | reflexivity]].
      * intros [H | (q & Hq & Hvq & ->)]; [left; apply elem_of_union_r, H |].
        apply elem_of_cons in Hq as [-> | Hq];
          [left; apply elem_of_union_l, elem_of_singleton; reflexivity |].
        right. exists q. split; [exact Hq | split; [exact Hvq | reflexivity]].
Qed.

(** Every key collected so far is a key of the active map. *)
Lemma violation_step_covered self cur p :
  cur ⊆ dom (SafetyEvaluator.active_violations self) ->
  snd (SafetyEvaluator.violation_step now (self, cur) p)
  ⊆ dom (SafetyEvaluator.active_violations
           (fst (SafetyEvaluator.violation_step now (self, cur) p))).
Proof.
  intros Hsub.
  destruct (violation_step_cases self cur p)
    as [[_ ->] | [(_ & _ & ->) | (i & _ & Hsome & ->)]]; simpl.
  - exact Hsub.
  - rewrite dom_insert_L. intros k Hk.
    apply elem_of_union in Hk as [Hk | Hk].
    + apply elem_of_union_l, Hk.
    + apply elem_of_union_r, Hsub, Hk.
  - intros k Hk. apply elem_of_union in Hk as [Hk | Hk].
    + apply elem_of_singleton in Hk as ->.
      apply elem_of_dom. eexists. exact Hsome.
    + apply Hsub, Hk.
Qed.

Lemma violation_fold_covered (pairs : list (Aircraft.t * Aircraft.t))
    (acc : SafetyEvaluator.t * gset (string * string)) :
  snd acc ⊆ dom (SafetyEvaluator.active_violations (fst acc)) ->
  snd (foldl (SafetyEvaluator.violation_step now) acc pairs)
  ⊆ dom (SafetyEvaluator.active_violations
           (fst (foldl (SafetyEvaluator.violation_step now) acc pairs))).
Proof.
  revert acc. induction pairs as [| p rest IH]; intros [self cur] Hsub; cbn [foldl].
  - exact Hsub.
  - apply IH. destruct (SafetyEvaluator.violation_step now (self, cur) p)
      as [self1 cur1] eqn:Hstep.
    pose proof (violation_step_covered self cur p Hsub) as H.
    rewrite Hstep in H. exact H.
Qed.

End ViolationStep.

(** The pair loop of [_check_violations]. *)
Definition violation_loop (l : list Aircraft.t) (now : R) (self : SafetyEvaluator.t)
    : SafetyEvaluator.t * gset (string * string) :=
  foldl (SafetyEvaluator.violation_step now) (self, ∅) (all_pairs l).

Lemma check_violations_unfold (l : list Aircraft.t) (now : R)
    (self : SafetyEvaluator.t) :
  SafetyEvaluator._check_violations l now self
  = SafetyEvaluator.with_active_violations
      (foldr delete
         (SafetyEvaluator.active_violations (fst (violation_loop l now self)))
         (elements
            (dom (SafetyEvaluator.active_violations (fst (violation_loop l now self)))
             ∖ snd (violation_loop l now self))))
      (fst (violation_loop l now self)).
Proof.
  unfold SafetyEvaluator._check_violations, violation_loop.
  destruct (foldl _ _ _) as [self1 cur1]. reflexivity.
Qed.

Lemma check_violations_history (l : list Aircraft.t) (now : R)
    (self : SafetyEvaluator.t) :
  SafetyEvaluator.violations (SafetyEvaluator._check_violations l now self)
  = SafetyEvaluator.violations (fst (violation_loop l now self))
  /\ SafetyEvaluator.near_misses (SafetyEvaluator._check_violations l now self)
     = SafetyEvaluator.near_misses self.
Proof.
  rewrite check_violations_unfold. simpl. split; [reflexivity |].
  unfold violation_loop. generalize (∅ : gset (string * string)).
  revert self. induction (all_pairs l) as [| p rest IH]; intros self cur;
    cbn [foldl]; [reflexivity |].
  destruct (violation_step_cases now self cur p)
    as [[_ ->] | [(_ & _ & ->) | (i & _ & _ & ->)]]; rewrite IH; reflexivity.
Qed.

(** After [_check_violations] the active map is the map built by the
    loop, cut down to the keys seen violating on this tick. *)
Lemma check_violations_active (l : list Aircraft.t) (now : R)
    (self : SafetyEvaluator.t) (k : string * string) (i : nat) :
  SafetyEvaluator.active_violations (SafetyEvaluator._check_violations l now self)
    !! k = Some i <->
  k ∈ snd (violation_loop l now self)
  /\ SafetyEvaluator.active_violations (fst (violation_loop l now self)) !! k = Some i.
Proof.
  rewrite check_violations_unfold. simpl.
  rewrite lookup_foldr_delete_Some, elem_of_elements, elem_of_difference, elem_of_dom.
  split.
  - intros [Hnot Hk]. split; [| exact Hk].
    destruct (decide (k ∈ snd (violation_loop l now self))) as [Hin | Hout];
      [exact Hin |].
    exfalso. apply Hnot. split; [eexists; exact Hk | exact Hout].
  - intros [Hin Hk]. split; [| exact Hk]. intros [_ Hout]. contradiction.
Qed.

(** The keys active after [_check_violations] are exactly the keys of
    the pairs found violating on this tick. *)
Lemma check_violations_dom (l : list Aircraft.t) (now : R)
    (self : SafetyEvaluator.t) (k : string * string) :
  k ∈ dom (SafetyEvaluator.active_violations
             (SafetyEvaluator._check_violations l now self)) <->
  exists p, p ∈ all_pairs l /\ violating p /\ k = key_of p.
Proof.
  rewrite elem_of_dom. unfold is_Some.
  assert (Hcur : k ∈ snd (violation_loop l now self) <->
                 exists p, p ∈ all_pairs l /\ violating p /\ k = key_of p).
  { unfold violation_loop. rewrite violation_fold_current. simpl. split.
    - intros [H | H]; [inversion H | exact H].
    - intros H. right. exact H. }
  split.
  - intros [i Hi]. apply check_violations_active in Hi as [Hin _].
    apply Hcur, Hin.
  - intros Hp. apply Hcur in Hp.
    assert (Hcov : snd (violation_loop l now self)
                   ⊆ dom (SafetyEvaluator.active_violations
                            (fst (violation_loop l now self)))).
    { apply violation_fold_covered. simpl. apply empty_subseteq. }
    destruct (proj1 (elem_of_dom _ _) (Hcov k Hp)) as [i Hi].
    exists i. apply check_violations_active. split; assumption.
Qed.

(** *** Near misses *)

Definition min_ratio (a b : Aircraft.t) : R :=
  SafetyEvaluator.min_ratio_of
    (horizontal_of a b / SeparationRequirements.horizontal_nm (pair_requirements a b))
    (SafetyEvaluator.v_ratio_of (vertical_of a b) (pair_requirements a b)).

Lemma near_miss_of_iff (now : R) (a b : Aircraft.t) (r : NearMiss.t) :
  SafetyEvaluator.near_miss_of now (a, b) = Some r <->
  Airspace.is_separated a b = true
  /\ min_ratio a b < 1.5
  /\ r = NearMiss.mk (Aircraft.callsign a) (Aircraft.callsign b) now
           (horizontal_of a b) (vertical_of a b) (min_ratio a b).
Proof.
  unfold SafetyEvaluator.near_miss_of, Airspace.check_separation.
  fold (horizontal_of a b) (vertical_of a b) (avg_altitude a b).
  fold (pair_requirements a b). fold (min_ratio a b).
  unfold SafetyEvaluator.NEAR_MISS_THRESHOLD.
  destruct (Airspace.is_separated a b).
  - case_Rltb (min_ratio a b) 1.5.
    + split; [intros [= <-]; auto | intros (_ & _ & ->); reflexivity].
    + split; [discriminate | intros (_ & H & _); lra].
  - split; [discriminate | intros (H & _); discriminate].
Qed.

Lemma near_miss_fold (now : R) (pairs : list (Aircraft.t * Aircraft.t))
    (self : SafetyEvaluator.t) :
  foldl (SafetyEvaluator.near_miss_step now) self pairs
  = SafetyEvaluator.with_near_misses
      (SafetyEvaluator.near_misses self ++ omap (SafetyEvaluator.near_miss_of now) pairs)
      self.
Proof.
  revert self. induction pairs as [| p rest IH]; intros self; cbn [foldl omap list_omap].
  - rewrite app_nil_r. destruct self; reflexivity.
  - rewrite IH. unfold SafetyEvaluator.near_miss_step.
    destruct (SafetyEvaluator.near_miss_of now p) as [r |].
    + destruct self; unfold SafetyEvaluator.with_near_misses; simpl.
      rewrite <- app_assoc. reflexivity.
    + reflexivity.
Qed.

(** The evaluator's histories and active map after a whole [update]. *)
Lemma update_fields (l : list Aircraft.t) (now : R) (atc : option ATCSystem.t)
    (self : SafetyEvaluator.t) :
  exists self0,
    SafetyEvaluator.violations self0 = SafetyEvaluator.violations self
    /\ SafetyEvaluator.near_misses self0 = SafetyEvaluator.near_misses self
    /\ SafetyEvaluator.active_violations self0 = SafetyEvaluator.active_violations self
    /\ SafetyEvaluator.violations (SafetyEvaluator.update l now atc self)
       = SafetyEvaluator.violations (SafetyEvaluator._check_violations l now self0)
    /\ SafetyEvaluator.active_violations (SafetyEvaluator.update l now atc self)
       = SafetyEvaluator.active_violations (SafetyEvaluator._check_violations l now self0)
    /\ SafetyEvaluator.near_misses (SafetyEvaluator.update l now atc self)
       = SafetyEvaluator.near_misses self
         ++ omap (SafetyEvaluator.near_miss_of now) (all_pairs l).
Proof.
  unfold SafetyEvaluator.update.
  eexists. split; [| split; [| split; [| split; [| split]]]].
  4: { destruct atc; simpl; unfold SafetyEvaluator._check_near_misses;
       rewrite near_miss_fold; reflexivity. }
  4: { destruct atc; simpl; unfold SafetyEvaluator._check_near_misses;
       rewrite near_miss_fold; reflexivity. }
  4: { destruct atc; simpl; unfold SafetyEvaluator._check_near_misses;
       rewrite near_miss_fold; simpl;
       rewrite (proj2 (check_violations_history _ _ _)); reflexivity. }
  all: reflexivity.
Qed.



Lemma pair_key_eq (a b c d : string) :
  pair_key a b = pair_key c d -> (a = c /\ b = d) \/ (a = d /\ b = c).
Proof.
  unfold pair_key.
  destruct (String.ltb b a), (String.ltb d c); intros [= -> ->]; auto.
Qed.

(** In a list without repeated callsigns two pairs with the same key
    are the same pair. *)
Lemma all_pairs_key_inj (l : list Aircraft.t) (p q : Aircraft.t * Aircraft.t) :
  NoDup (Aircraft.callsign <$> l) ->
  p ∈ all_pairs l -> q ∈ all_pairs l -> key_of p = key_of q -> p = q.
Proof.
  intros Hnd Hp Hq Hkey. destruct p as [a b], q as [c d].
  apply elem_of_all_pairs in Hp as (i & j & Hij & Hi & Hj).
  apply elem_of_all_pairs in Hq as (i' & j' & Hij' & Hi' & Hj').
  assert (Hinj : forall (m n : nat) (x y : Aircraft.t),
            l !! m = Some x -> l !! n = Some y ->
            Aircraft.callsign x = Aircraft.callsign y -> m = n).
  { intros m n x y Hm Hn Hcs.
    apply (NoDup_lookup _ m n (Aircraft.callsign x) Hnd).
    - rewrite list_lookup_fmap, Hm. reflexivity.
    - rewrite list_lookup_fmap, Hn, Hcs. reflexivity. }
  unfold key_of in Hkey. simpl in Hkey.
  apply pair_key_eq in Hkey as [[Hac Hbd] | [Had Hbc]].
  - assert (i = i') by (eapply Hinj; eassumption).
    assert (j = j') by (eapply Hinj; eassumption).
    subst. congruence.
  - assert (i = j') by (eapply Hinj; eassumption).
    assert (j = i') by (eapply Hinj; eassumption).
    lia.
Qed.

(** C6.  On an [update] a near miss is recorded for a pair exactly when
    the pair is separated and the smaller of horizontal / required
    horizontal and vertical / required vertical (the latter counted as
    infinite when the vertical separation is zero) is below 1.5; the
    pairs found violating are exactly those that are not separated.
    So no pair is both recorded as a near miss and found violating on
    the same tick, and, callsigns being unique, no near miss recorded on
    a tick bears the key of a violation active after it. *)
Theorem C6_near_miss_iff_separated_and_close
    (l : list Aircraft.t) (now : R) (atc : option ATCSystem.t)
    (self : SafetyEvaluator.t) :
  let after := SafetyEvaluator.update l now atc self in
  let ratio (a b : Aircraft.t) : R :=
    let h_ratio :=
      horizontal_of a b / SeparationRequirements.horizontal_nm (pair_requirements a b) in
    let v_ratio :=
      vertical_of a b / SeparationRequirements.vertical_ft (pair_requirements a b) in
    if Rgtb (vertical_of a b) 0 then py_min h_ratio v_ratio else h_ratio in
  (forall (a b : Aircraft.t) (r : NearMiss.t),
     SafetyEvaluator.near_miss_of now (a, b) = Some r <->
     Airspace.is_separated a b = true /\ ratio a b < 1.5
     /\ r = NearMiss.mk (Aircraft.callsign a) (Aircraft.callsign b) now
              (horizontal_of a b) (vertical_of a b) (ratio a b))
  /\ SafetyEvaluator.near_misses after
     = SafetyEvaluator.near_misses self
       ++ omap (SafetyEvaluator.near_miss_of now) (all_pairs l)
  /\ (forall k : string * string,
     k ∈ dom (SafetyEvaluator.active_violations after) <->
     exists a b : Aircraft.t,
       (a, b) ∈ all_pairs l /\ Airspace.is_separated a b = false
       /\ k = pair_key (Aircraft.callsign a) (Aircraft.callsign b))
  /\ (forall (a b : Aircraft.t) (r : NearMiss.t),
     SafetyEvaluator.near_miss_of now (a, b) = Some r ->
     Airspace.is_separated a b <> false)
  /\ (NoDup (Aircraft.callsign <$> l) ->
      forall r : NearMiss.t,
        r ∈ omap (SafetyEvaluator.near_miss_of now) (all_pairs l) ->
        pair_key (NearMiss.aircraft1 r) (NearMiss.aircraft2 r)
        ∉ dom (SafetyEvaluator.active_violations after)).
Proof.
  intros after ratio.
  assert (Hratio : forall a b, ratio a b = min_ratio a b).
  { intros a b. unfold ratio, min_ratio, SafetyEvaluator.min_ratio_of,
      SafetyEvaluator.v_ratio_of.
    destruct (Rgtb (vertical_of a b) 0); reflexivity. }
  destruct (update_fields l now atc self) as (self0 & _ & _ & _ & _ & Ha & Hn).
  assert (Hdom : forall k : string * string,
     k ∈ dom (SafetyEvaluator.active_violations after) <->
     exists a b : Aircraft.t,
       (a, b) ∈ all_pairs l /\ Airspace.is_separated a b = false
       /\ k = pair_key (Aircraft.callsign a) (Aircraft.callsign b)).
  { intros k. subst after. rewrite Ha, check_violations_dom. split.
    - intros ([a b] & Hin & Hv & ->). exists a, b. auto.
    - intros (a & b & Hin & Hv & ->). exists (a, b). auto. }
  split; [| split; [| split; [| split]]].
  - intros a b r. rewrite near_miss_of_iff, Hratio. reflexivity.
  - exact Hn.
  - exact Hdom.
  - intros a b r Hr. apply near_miss_of_iff in Hr as [Hsep _]. congruence.
  - intros Hnd r Hr Hk.
    apply list_elem_of_omap in Hr as ([a b] & Hab & Hr).
    apply near_miss_of_iff in Hr as (Hsep & _ & ->). simpl in Hk.
    apply Hdom in Hk as (c & d & Hcd & Hviol & Hkey).
    assert (Heq : (a, b) = (c, d))
      by (apply (all_pairs_key_inj l); [exact Hnd | exact Hab | exact Hcd | exact Hkey]).
    injection Heq as -> ->. congruence.
Qed.

(** *** A pair closing from 3 NM to 2 NM over two ticks *)

Lemma violation_loop_two (a b : Aircraft.t) (now : R) (self : SafetyEvaluator.t) :
  violation_loop [a; b] now self
  = SafetyEvaluator.violation_step now (self, ∅) (a, b).
Proof. reflexivity. Qed.

Lemma update_two_new (a b : Aircraft.t) (now : R) (atc : option ATCSystem.t)
    (self : SafetyEvaluator.t) :
  violating (a, b) ->
  SafetyEvaluator.active_violations self !! key_of (a, b) = None ->
  SafetyEvaluator.violations (SafetyEvaluator.update [a; b] now atc self)
  = SafetyEvaluator.violations self ++ [new_violation now (a, b)]
  /\ SafetyEvaluator.active_violations (SafetyEvaluator.update [a; b] now atc self)
       !! key_of (a, b)
     = Some (length (SafetyEvaluator.violations self)).
Proof.
  intros Hviol Hnone.
  destruct (update_fields [a; b] now atc self)
    as (self0 & Hv0 & _ & Ha0 & -> & -> & _).
  rewrite <- Ha0 in Hnone. split.
  - rewrite (proj1 (check_violations_history _ _ _)), violation_loop_two.
    rewrite (violation_step_new now self0 ∅ (a, b) Hviol Hnone). simpl.
    rewrite Hv0. reflexivity.
  - apply check_violations_active. rewrite violation_loop_two.
    rewrite (violation_step_new now self0 ∅ (a, b) Hviol Hnone). simpl.
    split; [apply elem_of_union_l, elem_of_singleton; reflexivity |].
    rewrite lookup_insert_eq, Hv0. reflexivity.
Qed.


(** Two aircraft level at 10000 ft, [x] NM apart. *)
Definition ac_A : Aircraft.t :=
  Aircraft.init "A" (Position.mk 0 0 10000) (Velocity.mk 250 0) [] "B737" ENROUTE.
Definition ac_B (x : R) : Aircraft.t :=
  Aircraft.init "B" (Position.mk x 0 10000) (Velocity.mk 250 0) [] "B737" ENROUTE.

Lemma close_pair (x : R) :
  0 <= x < 5 ->
  Airspace.check_separation ac_A (ac_B x) = (x, 0)
  /\ Airspace.is_separated ac_A (ac_B x) = false.
Proof.
  intros Hx.
  assert (Hh : horizontal_of ac_A (ac_B x) = x).
  { unfold horizontal_of, Position.distance_to. simpl.
    match goal with
    | |- sqrt ?e = _ => replace e with (Rsqr x) by (unfold Rsqr; lra)
    end.
    apply sqrt_Rsqr. lra. }
  assert (Hv : vertical_of ac_A (ac_B x) = 0).
  { unfold vertical_of, Position.vertical_separation. simpl.
    replace (10000 - 10000) with 0 by lra. apply Rabs_R0. }
  split.
  - unfold Airspace.check_separation.
    fold (horizontal_of ac_A (ac_B x)) (vertical_of ac_A (ac_B x)).
    rewrite Hh, Hv. reflexivity.
  - apply not_true_is_false. intros Hsep. apply is_separated_iff in Hsep.
    rewrite Hh, Hv in Hsep. unfold pair_requirements in Hsep.
    rewrite standard_horizontal in Hsep.
    pose proof (standard_vertical_bounds (avg_altitude ac_A (ac_B x))).
    destruct Hsep; lra.
Qed.

Definition tick1 : SafetyEvaluator.t :=
  SafetyEvaluator.update [ac_A; ac_B 3] 0 None SafetyEvaluator.init.
Definition tick2 : SafetyEvaluator.t :=
  SafetyEvaluator.update [ac_A; ac_B 2] 1 None tick1.

Lemma tick1_state :
  SafetyEvaluator.violations tick1 = [new_violation 0 (ac_A, ac_B 3)]
  /\ SafetyEvaluator.active_violations tick1 !! ("A", "B") = Some 0%nat.
Proof.
  assert (H3 : 0 <= 3 < 5) by lra.
  destruct (update_two_new ac_A (ac_B 3) 0 None SafetyEvaluator.init) as [Hv Ha].
  - apply (close_pair 3 H3).
  - apply lookup_empty.
  - split; [exact Hv | exact Ha].
Qed.





(** ** The scenario aircraft on their first tick *)


(** ** The theorems at concrete inputs *)

(** Boundary pair: 5 NM and 1000 ft apart below FL290; and a pair at
    4.99 NM and 999 ft. *)
Definition at_place (cs : string) (x h : R) : Aircraft.t :=
  Aircraft.init cs (Position.mk x 0 h) (Velocity.mk 250 0) [] "B737" ENROUTE.

Lemma at_place_separation (x1 x2 h1 h2 : R) :
  x1 <= x2 -> h1 <= h2 ->
  horizontal_of (at_place "A" x1 h1) (at_place "B" x2 h2) = x2 - x1
  /\ vertical_of (at_place "A" x1 h1) (at_place "B" x2 h2) = h2 - h1
  /\ avg_altitude (at_place "A" x1 h1) (at_place "B" x2 h2) = (h1 + h2) / 2.
Proof.
  intros Hx Hh. split; [| split; [| reflexivity]].
  - unfold horizontal_of, Position.distance_to. simpl.
    match goal with
    | |- sqrt ?e = _ => replace e with (Rsqr (x2 - x1)) by (unfold Rsqr; lra)
    end.
    apply sqrt_Rsqr. lra.
  - unfold vertical_of, Position.vertical_separation. simpl.
    rewrite Rabs_left1 by lra. lra.
Qed.

Lemma C2_is_separated_either_axis_witness :
  Airspace.is_separated (at_place "A" 0 10000) (at_place "B" 5 11000) = true
  /\ Airspace.is_separated (at_place "A" 0 10000) (at_place "B" 4.99 10999) = false.
Proof.
  split.
  - destruct (at_place_separation 0 5 10000 11000) as (Hh & Hv & Havg); [lra | lra |].
    destruct (C2_is_separated_either_axis (at_place "A" 0 10000) (at_place "B" 5 11000))
      as (_ & _ & _ & _ & Hboundary & _).
    apply Hboundary; [rewrite Hh | rewrite Hv | rewrite Havg]; lra.
  - destruct (at_place_separation 0 4.99 10000 10999) as (Hh & Hv & _); [lra | lra |].
    destruct (C2_is_separated_either_axis (at_place "A" 0 10000)
                (at_place "B" 4.99 10999))
      as (_ & _ & _ & _ & _ & Hinside).
    apply Hinside; [rewrite Hh | rewrite Hv]; lra.
Defined.


(** A separated pair 6 NM apart at the same level is a near miss. *)
Lemma C6_near_miss_iff_separated_and_close_witness :
  SafetyEvaluator.near_misses
    (SafetyEvaluator.update [at_place "A" 0 10000; at_place "B" 6 10000] 0 None
       SafetyEvaluator.init)
  = [NearMiss.mk "A" "B" 0 6 0 (6 / 5)].
Proof.
  destruct (at_place_separation 0 6 10000 10000) as (Hh & Hv & Havg); [lra | lra |].
  replace (6 - 0) with 6 in Hh by lra. replace (10000 - 10000) with 0 in Hv by lra.
  destruct (C6_near_miss_iff_separated_and_close
              [at_place "A" 0 10000; at_place "B" 6 10000] 0 None SafetyEvaluator.init)
    as (Hiff & Hrec & _).
  rewrite Hrec. cbn [SafetyEvaluator.near_misses SafetyEvaluator.init app all_pairs
                      fmap list_fmap omap list_omap].
  assert (Hreq : SeparationRequirements.horizontal_nm
                   (pair_requirements (at_place "A" 0 10000) (at_place "B" 6 10000)) = 5)
    by apply standard_horizontal.
  rewrite (proj2 (Hiff (at_place "A" 0 10000) (at_place "B" 6 10000)
                    (NearMiss.mk "A" "B" 0 6 0 (6 / 5)))); [reflexivity |].
  rewrite Hh, Hv, Hreq. unfold Rgtb. rewrite (proj2 (Rltb_false 0 0)) by lra.
  split; [| split; [lra | reflexivity]].
  apply is_separated_iff. left. rewrite Hh. unfold pair_requirements.
  rewrite standard_horizontal. lra.
Defined.

(** The scenario at the moment its conflict is acted on. *)
Definition scenario_conflict : Conflict.t :=
  Conflict.mk "UAL100" "AAL200" 60 (Fin 0) (Fin 0) "high".

Definition scenario_state : ATCSystem.state :=
  (ATCSystem.init Airspace.init, [UAL100; AAL200]).


(** An instruction to UAL100 thirty seconds ago blocks the resolution. *)
Definition cooling_state : ATCSystem.state :=
  (ATCSystem.mk Airspace.init
     [heading_change UAL100 100 120 scenario_conflict] 1,
   [UAL100; AAL200]).

Lemma C8_cooldown_skips_resolution_witness :
  ATCSystem._resolve_conflict scenario_conflict 130 cooling_state
  = Some cooling_state.
Proof.
  pose proof (C8_cooldown_skips_resolution scenario_conflict 130 cooling_state) as H.
  cbv zeta in H. destruct H as (Hiff & Hskip & _).
  apply Hskip, Hiff.
  exists 0%nat, (heading_change UAL100 100 120 scenario_conflict).
  split; [reflexivity |]. split; [left; reflexivity |].
  intros j i' Hj Hi'. replace j with 0%nat in Hi' by lia.
  injection Hi' as <-. simpl. lra.
Defined.

(** Two aircraft at 2000 ft and 44000 ft: there is no room below the
    lower one nor above the higher one, so the altitude strategy fails
    and the first-named aircraft, heading 0, is turned to 30 degrees;
    the log gets that one HEADING_CHANGE and no SPEED_CHANGE. *)
Definition stacked_conflict : Conflict.t :=
  Conflict.mk "A" "B" 60 (Fin 0) (Fin 0) "high".

Definition stacked_state : ATCSystem.state :=
  (ATCSystem.init Airspace.init, [at_place "A" 0 2000; at_place "B" 0 44000]).

Lemma stacked_no_room :
  ATCSystem._try_altitude_resolution (0%nat, at_place "A" 0 2000)
    (1%nat, at_place "B" 0 44000) stacked_conflict 0 stacked_state
  = Some (false, stacked_state).
Proof.
  rewrite try_altitude_cases.
  assert (Hl : lower_of (0%nat, at_place "A" 0 2000) (1%nat, at_place "B" 0 44000)
               = (0%nat, at_place "A" 0 2000)).
  { unfold lower_of. simpl. eval_Rcmp. reflexivity. }
  assert (Hh : higher_of (0%nat, at_place "A" 0 2000) (1%nat, at_place "B" 0 44000)
               = (1%nat, at_place "B" 0 44000)).
  { unfold higher_of. simpl. eval_Rcmp. reflexivity. }
  assert (Hr : required_vertical (0%nat, at_place "A" 0 2000)
                 (1%nat, at_place "B" 0 44000) = 1000).
  { unfold required_vertical, pair_requirements, avg_altitude. simpl fst. simpl snd.
    apply standard_vertical_low. simpl. lra. }
  unfold down_shift, up_shift. rewrite Hl, Hh, Hr.
  unfold Aircraft.MIN_ALTITUDE, Aircraft.MAX_ALTITUDE. simpl.
  eval_Rcmp. reflexivity.
Qed.

Lemma C9_heading_always_succeeds_speed_unreachable_witness :
  ATCSystem._resolve_conflict stacked_conflict 0 stacked_state
  = Some (ATCSystem.mk Airspace.init
            [ATCInstruction.mk "A" 0 HEADING_CHANGE
               {[ "new_heading" := PFloat (py_mod (0 + 30) 360) ]}
               "traffic_conflict" HIGH] 1,
          [Aircraft.set_heading (py_mod (0 + 30) 360) (at_place "A" 0 2000);
           at_place "B" 0 44000])
  /\ py_mod (0 + 30) 360 = 30
  /\ Aircraft.target_heading
       (Aircraft.set_heading (py_mod (0 + 30) 360) (at_place "A" 0 2000))
     = Some (py_mod (0 + 30) 360)
  /\ (exists st',
        ATCSystem._resolve_conflict stacked_conflict 0 stacked_state = Some st'
        /\ Forall (fun i => ATCInstruction.instruction_type i <> SPEED_CHANGE)
             (ATCSystem.instructions (fst st'))).
Proof.
  destruct (C9_heading_always_succeeds_speed_unreachable stacked_conflict 0
              stacked_state)
    as (Hheading & Hfallback & _ & (st' & Hst' & added & Hlog & Hnone) & _).
  destruct (Hfallback (0%nat, at_place "A" 0 2000) (1%nat, at_place "B" 0 44000)
              eq_refl eq_refl eq_refl stacked_no_room) as (Hresolve & _ & _).
  pose proof (Hheading (0%nat, at_place "A" 0 2000) (1%nat, at_place "B" 0 44000))
    as Hturn.
  cbv zeta in Hturn. destruct Hturn as (Htry & Htarget).
  destruct Htarget as (Htarget & _); [simpl; lra |].
  split; [| split; [| split]].
  - rewrite Hresolve, Htry. reflexivity.
  - replace (0 + 30) with 30 by lra. apply py_mod_id. lra.
  - exact Htarget.
  - exists st'. split; [exact Hst' |]. rewrite Hlog. exact Hnone.
Defined.


(** * Further properties *)

(** ** Separation and severity *)

Lemma distance_to_sym (p q : Position.t) :
  Position.distance_to p q = Position.distance_to q p.
Proof. unfold Position.distance_to. f_equal. ring. Qed.

Lemma vertical_separation_sym (p q : Position.t) :
  Position.vertical_separation p q = Position.vertical_separation q p.
Proof. unfold Position.vertical_separation. apply Rabs_minus_sym. Qed.

(** X1.  Separation does not depend on the order of the pair: both
    measures of [check_separation] and the verdict of [is_separated]
    are the same for (a, b) and (b, a). *)
Theorem X1_is_separated_symmetric (a b : Aircraft.t) :
  Airspace.check_separation a b = Airspace.check_separation b a
  /\ Airspace.is_separated a b = Airspace.is_separated b a.
Proof.
  assert (Hc : Airspace.check_separation a b = Airspace.check_separation b a).
  { unfold Airspace.check_separation.
    rewrite distance_to_sym, vertical_separation_sym. reflexivity. }
  split; [exact Hc |].
  unfold Airspace.is_separated. rewrite Hc.
  replace ((Position.altitude (Aircraft.position a)
            + Position.altitude (Aircraft.position b)) / 2)
    with ((Position.altitude (Aircraft.position b)
           + Position.altitude (Aircraft.position a)) / 2) by lra.
  reflexivity.
Qed.

(** Severity as a number: low 0, medium 1, high 2. *)
Definition severity_rank (s : string) : nat :=
  if bool_decide (s = "high") then 2
  else if bool_decide (s = "medium") then 1 else 0.

(** X2.  Severity is monotone: with the same requirements, a conflict
    that is no later and no wider than another is rated at least as
    severe. *)
Theorem X2_severity_monotone (h h' v v' : R) (t t' : nat)
    (req : SeparationRequirements.t)
    (Ht : (t' <= t)%nat) (Hh : h' <= h) :
  (severity_rank (Airspace._calculate_severity (Fin h) (Fin v) t req)
   <= severity_rank (Airspace._calculate_severity (Fin h') (Fin v') t' req))%nat.
Proof.
  unfold Airspace._calculate_severity, ef_ltb_r.
  set (half := SeparationRequirements.horizontal_nm req * 0.5).
  set (three_quarters := SeparationRequirements.horizontal_nm req * 0.75).
  assert (H1 : (t <? 60)%nat = true -> (t' <? 60)%nat = true).
  { rewrite !Nat.ltb_lt. lia. }
  assert (H2 : (t <? 180)%nat = true -> (t' <? 180)%nat = true).
  { rewrite !Nat.ltb_lt. lia. }
  assert (H3 : Rltb h half = true -> Rltb h' half = true).
  { rewrite !Rltb_true. lra. }
  assert (H4 : Rltb h three_quarters = true -> Rltb h' three_quarters = true).
  { rewrite !Rltb_true. lra. }
  destruct (t <? 60)%nat, (t' <? 60)%nat, (t <? 180)%nat, (t' <? 180)%nat,
    (Rltb h half), (Rltb h' half), (Rltb h three_quarters), (Rltb h' three_quarters);
    try (specialize (H1 eq_refl); discriminate);
    try (specialize (H2 eq_refl); discriminate);
    try (specialize (H3 eq_refl); discriminate);
    try (specialize (H4 eq_refl); discriminate);
    vm_compute; lia.
Qed.

Lemma X2_severity_monotone_witness :
  (severity_rank
     (Airspace._calculate_severity (Fin 4) (Fin 0) 200 (SeparationRequirements.mk 5 1000))
   <= severity_rank
        (Airspace._calculate_severity (Fin 3) (Fin 0) 100
           (SeparationRequirements.mk 5 1000)))%nat.
Proof.
  apply (X2_severity_monotone 4 3 0 0 200 100 (SeparationRequirements.mk 5 1000));
    [lia | lra].
Defined.

(** ** What the detector returns *)

Lemma check_pair_sound (a b : Aircraft.t) (lookahead : R) (c : Conflict.t) :
  Airspace._check_pair_for_conflict a b lookahead = Some c ->
  Conflict.aircraft1 c = Aircraft.callsign a
  /\ Conflict.aircraft2 c = Aircraft.callsign b
  /\ Conflict.is_violation c (pair_requirements a b) = true
  /\ (Conflict.time_to_cpa c < Z.to_nat (py_int lookahead))%nat
  /\ Conflict.vertical_separation_at_cpa c
     = Fin (Rabs (Position.altitude (Aircraft.position a)
                  - Position.altitude (Aircraft.position b))).
Proof.
  intros Hc. apply check_pair_iff in Hc as (t & (Ht & _) & Hh & Hv & ->).
  unfold conflict_at, Conflict.is_violation. simpl.
  rewrite (proj2 (Rltb_true _ _) Hh), (proj2 (Rltb_true _ _) Hv).
  repeat split; try reflexivity. exact Ht.
Qed.

(** X3.  Every conflict [detect_conflicts] returns comes from a pair
    of the list taken in list order, names its two callsigns in that
    order, is a violation of the standard requirements at the pair's
    average altitude ([Conflict.is_violation]), has its closest
    approach inside the sampled window, and carries the pair's present
    vertical separation. *)
Theorem X3_detected_conflict_is_predicted_violation
    (self : Airspace.t) (l : list Aircraft.t) (lookahead : R) (c : Conflict.t)
    (Hc : c ∈ fst (Airspace.detect_conflicts self l lookahead)) :
  exists (i j : nat) (a b : Aircraft.t),
    (i < j)%nat /\ l !! i = Some a /\ l !! j = Some b
    /\ Conflict.aircraft1 c = Aircraft.callsign a
    /\ Conflict.aircraft2 c = Aircraft.callsign b
    /\ Conflict.is_violation c
         (SeparationRequirements.standard
            ((Position.altitude (Aircraft.position a)
              + Position.altitude (Aircraft.position b)) / 2)) = true
    /\ (Conflict.time_to_cpa c < Z.to_nat (py_int lookahead))%nat
    /\ Conflict.vertical_separation_at_cpa c
       = Fin (Rabs (Position.altitude (Aircraft.position a)
                    - Position.altitude (Aircraft.position b))).
Proof.
  apply detect_conflicts_elem in Hc as (i & j & a & b & Hij & Hi & Hj & Hpair).
  exists i, j, a, b. split; [exact Hij |]. split; [exact Hi |]. split; [exact Hj |].
  apply (check_pair_sound a b lookahead c Hpair).
Qed.

Lemma X3_detected_conflict_is_predicted_violation_witness :
  exists (i j : nat) (a b : Aircraft.t),
    (i < j)%nat
    /\ [cruise 340 UAL100; cruise 340 AAL200] !! i = Some a
    /\ [cruise 340 UAL100; cruise 340 AAL200] !! j = Some b
    /\ Aircraft.callsign a = "UAL100" /\ Aircraft.callsign b = "AAL200".
Proof.
  destruct (X3_detected_conflict_is_predicted_violation Airspace.init
              [cruise 340 UAL100; cruise 340 AAL200] 300.0
              (Conflict.mk "UAL100" "AAL200" 60 (Fin 0) (Fin 0) "high"))
    as (i & j & a & b & Hij & Hi & Hj & H1 & H2 & _).
  - rewrite detect_conflicts_two, (cruise_conflict 340) by lia.
    apply list_elem_of_singleton. reflexivity.
  - exists i, j, a, b. repeat split; try assumption; symmetry; assumption.
Defined.

(** X4.  After a detection pass, [get_conflicts_for_aircraft] returns,
    in detection order, exactly the stored conflicts that name the
    callsign on either side; every stored conflict is found under both
    of its callsigns, and a callsign borne by no aircraft of the list
    has none. *)
Theorem X4_conflicts_for_aircraft
    (self : Airspace.t) (l : list Aircraft.t) (lookahead : R) (callsign : string) :
  let after := snd (Airspace.detect_conflicts self l lookahead) in
  Airspace.conflicts after = fst (Airspace.detect_conflicts self l lookahead)
  /\ (forall c : Conflict.t,
        c ∈ Airspace.get_conflicts_for_aircraft after callsign <->
        c ∈ Airspace.conflicts after
        /\ (Conflict.aircraft1 c = callsign \/ Conflict.aircraft2 c = callsign))
  /\ (forall c : Conflict.t,
        c ∈ Airspace.conflicts after ->
        c ∈ Airspace.get_conflicts_for_aircraft after (Conflict.aircraft1 c)
        /\ c ∈ Airspace.get_conflicts_for_aircraft after (Conflict.aircraft2 c))
  /\ (callsign ∉ Aircraft.callsign <$> l ->
      Airspace.get_conflicts_for_aircraft after callsign = []).
Proof.
  intros after.
  assert (Hfilter : forall (cs : string) (c : Conflict.t),
            c ∈ Airspace.get_conflicts_for_aircraft after cs <->
            c ∈ Airspace.conflicts after
            /\ (Conflict.aircraft1 c = cs \/ Conflict.aircraft2 c = cs)).
  { intros cs c. unfold Airspace.get_conflicts_for_aircraft.
    rewrite !list_elem_of_In, filter_In, orb_true_iff, !bool_decide_eq_true.
    reflexivity. }
  split; [reflexivity |]. split; [apply Hfilter |]. split.
  - intros c Hc. split; apply Hfilter; split; auto.
  - intros Hnot.
    destruct (Airspace.get_conflicts_for_aircraft after callsign) as [| c rest] eqn:Hl;
      [reflexivity | exfalso].
    assert (Hin : c ∈ Airspace.get_conflicts_for_aircraft after callsign)
      by (rewrite Hl; apply list_elem_of_here).
    apply Hfilter in Hin as [Hc Hname].
    change (Airspace.conflicts after)
      with (fst (Airspace.detect_conflicts self l lookahead)) in Hc.
    apply detect_conflicts_elem in Hc as (i & j & a & b & _ & Hi & Hj & Hpair).
    apply check_pair_sound in Hpair as (H1 & H2 & _).
    apply Hnot, list_elem_of_fmap.
    destruct Hname as [Hn | Hn].
    + exists a. split; [congruence |]. apply list_elem_of_lookup. eauto.
    + exists b. split; [congruence |]. apply list_elem_of_lookup. eauto.
Qed.

(** ** Sectors *)

Ltac case_Rleb_goal :=
  repeat match goal with
  | |- context [Rleb ?a ?b] =>
      first [ rewrite (proj2 (Rleb_true a b)) by lra
            | rewrite (proj2 (Rleb_false a b)) by lra ]
  end.

(** X5.  The four default sectors cover the whole area between 1000
    and 45000 ft: a position inside the two ranges and that altitude
    band belongs to a sector, and [get_sector] returns the first of
    them in creation order: the high sector from 18000 ft up (18000 ft
    itself included), the western one up to and including the middle
    meridian.  A position below 1000 ft or above 45000 ft is in no
    sector. *)
Theorem X5_default_sectors_cover (x0 x1 y0 y1 : R) (p : Position.t)
    (Hx : x0 <= Position.x p <= x1) (Hy : y0 <= Position.y p <= y1) :
  let sectors := Airspace.create_default_sectors [] (x0, x1) (y0, y1) in
  (1000 <= Position.altitude p <= 45000 ->
   exists s : Sector.t,
     Airspace.get_sector sectors p = Some s
     /\ Sector.contains s p = true
     /\ Sector.name s
        = ((if Rleb 18000 (Position.altitude p) then "HIGH" else "LOW")
           +:+ (if Rleb (Position.x p) ((x0 + x1) / 2) then "_WEST" else "_EAST")))
  /\ (Position.altitude p < 1000 \/ 45000 < Position.altitude p ->
      Airspace.get_sector sectors p = None).
Proof.
  intros sectors. subst sectors.
  unfold Airspace.create_default_sectors, Airspace.add_sector, Airspace.get_sector.
  cbn [app fst snd List.find]. unfold Sector.contains.
  cbn [Sector.x_min Sector.x_max Sector.y_min Sector.y_max Sector.altitude_min
       Sector.altitude_max].
  split.
  - intros Halt.
    destruct (Rle_dec 18000 (Position.altitude p)) as [Hhigh | Hlow];
      destruct (Rle_dec (Position.x p) ((x0 + x1) / 2)) as [Hwest | Heast].
    + case_Rleb_goal. rewrite ?andb_false_r. cbn. eexists.
      split; [reflexivity |]. cbn. case_Rleb_goal. split; reflexivity.
    + assert (Hx' : (x0 + x1) / 2 < Position.x p) by lra.
      case_Rleb_goal. rewrite ?andb_false_r. cbn. eexists.
      split; [reflexivity |]. cbn. case_Rleb_goal. split; reflexivity.
    + assert (Ha' : Position.altitude p < 18000) by lra.
      case_Rleb_goal. rewrite ?andb_false_r. cbn. eexists.
      split; [reflexivity |]. cbn. case_Rleb_goal. split; reflexivity.
    + assert (Ha' : Position.altitude p < 18000) by lra.
      assert (Hx' : (x0 + x1) / 2 < Position.x p) by lra.
      case_Rleb_goal. rewrite ?andb_false_r. cbn. eexists.
      split; [reflexivity |]. cbn. case_Rleb_goal. split; reflexivity.
  - intros [Hlow | Hhigh].
    + rewrite (proj2 (Rleb_false 18000 (Position.altitude p))) by lra.
      rewrite (proj2 (Rleb_false 1000 (Position.altitude p))) by lra.
      rewrite !andb_false_r. reflexivity.
    + rewrite (proj2 (Rleb_false (Position.altitude p) 45000)) by lra.
      rewrite (proj2 (Rleb_false (Position.altitude p) 18000)) by lra.
      rewrite !andb_false_r. reflexivity.
Qed.

Lemma X5_default_sectors_cover_witness :
  exists s : Sector.t,
    Airspace.get_sector (Airspace.create_default_sectors [] (0, 200) (0, 200))
      (Position.mk 100 100 18000) = Some s
    /\ Sector.name s = "HIGH_WEST".
Proof.
  destruct (X5_default_sectors_cover 0 200 0 200 (Position.mk 100 100 18000))
    as [Hin _]; [simpl; lra | simpl; lra |].
  destruct Hin as (s & Hs & _ & Hname); [simpl; lra |].
  exists s. split; [exact Hs |]. rewrite Hname. simpl.
  rewrite (proj2 (Rleb_true 18000 18000)) by lra.
  rewrite (proj2 (Rleb_true 100 ((0 + 200) / 2))) by lra. reflexivity.
Defined.

(** ** Fewer than two aircraft *)

Lemma all_pairs_short {A : Type} (l : list A) :
  (length l <= 1)%nat -> all_pairs l = [].
Proof.
  destruct l as [| a [| b rest]]; simpl; intros H; [reflexivity | reflexivity | lia].
Qed.

Lemma delete_all_keys (m : gmap (string * string) nat) :
  foldr delete m (elements (dom m ∖ (∅ : gset (string * string)))) = ∅.
Proof.
  apply map_eq. intros k. rewrite lookup_empty.
  destruct (m !! k) as [i |] eqn:Hk.
  - apply lookup_foldr_delete, elem_of_elements, elem_of_difference.
    split; [apply elem_of_dom; eexists; exact Hk | apply not_elem_of_empty].
  - destruct (foldr delete m _ !! k) as [j |] eqn:Hj; [| reflexivity].
    apply lookup_foldr_delete_Some in Hj as [_ Hj]. congruence.
Qed.

(** X6.  With no aircraft or a single one there is no pair to look at:
    the detector returns nothing, the ATC update only replaces the
    stored conflict list by the empty one and issues nothing, and the
    safety update records nothing new -- but, no pair being seen in
    violation, it drops every violation that was active. *)
Theorem X6_fewer_than_two_aircraft
    (l : list Aircraft.t) (now lookahead : R) (self : Airspace.t)
    (atc : ATCSystem.t) (atc_opt : option ATCSystem.t) (ev : SafetyEvaluator.t)
    (Hl : (length l <= 1)%nat) :
  Airspace.detect_conflicts self l lookahead = ([], Airspace.mk [])
  /\ ATCSystem.update now (atc, l)
     = Some (ATCSystem.mk (Airspace.mk []) (ATCSystem.instructions atc)
               (ATCSystem.instruction_count atc), l)
  /\ SafetyEvaluator.violations (SafetyEvaluator.update l now atc_opt ev)
     = SafetyEvaluator.violations ev
  /\ SafetyEvaluator.near_misses (SafetyEvaluator.update l now atc_opt ev)
     = SafetyEvaluator.near_misses ev
  /\ SafetyEvaluator.active_violations (SafetyEvaluator.update l now atc_opt ev) = ∅.
Proof.
  pose proof (all_pairs_short l Hl) as Hpairs.
  assert (Hdet : forall la s, Airspace.detect_conflicts s l la = ([], Airspace.mk [])).
  { intros la s. unfold Airspace.detect_conflicts. rewrite Hpairs. reflexivity. }
  split; [apply Hdet |]. split.
  { unfold ATCSystem.update. rewrite Hdet. reflexivity. }
  destruct (update_fields l now atc_opt ev)
    as (ev0 & Hv0 & _ & _ & Hv & Ha & Hn).
  split; [| split].
  - rewrite Hv, (proj1 (check_violations_history _ _ _)).
    unfold violation_loop. rewrite Hpairs. exact Hv0.
  - rewrite Hn, Hpairs. apply app_nil_r.
  - rewrite Ha, check_violations_unfold. unfold violation_loop. rewrite Hpairs.
    simpl. apply delete_all_keys.
Qed.

Lemma X6_fewer_than_two_aircraft_witness :
  SafetyEvaluator.active_violations (SafetyEvaluator.update [ac_A] 2 None tick2) = ∅.
Proof.
  apply (X6_fewer_than_two_aircraft [ac_A] 2 300 Airspace.init
           (ATCSystem.init Airspace.init) None tick2).
  simpl. lia.
Defined.

(** ** Turning *)

Lemma sub_while_multiple (fuel : nat) (d : R) :
  exists n : nat, Aircraft.sub_while fuel d = d - 360 * INR n.
Proof.
  revert d. induction fuel as [| k IH]; intros d; simpl.
  - exists 0%nat. simpl. lra.
  - destruct (Rgtb d 180).
    + destruct (IH (d - 360)) as [n Hn]. exists (S n). rewrite Hn, S_INR. lra.
    + exists 0%nat. simpl. lra.
Qed.

Lemma add_while_multiple (fuel : nat) (d : R) :
  exists n : nat, Aircraft.add_while fuel d = d + 360 * INR n.
Proof.
  revert d. induction fuel as [| k IH]; intros d; simpl.
  - exists 0%nat. simpl. lra.
  - destruct (Rltb d (-180)).
    + destruct (IH (d + 360)) as [n Hn]. exists (S n). rewrite Hn, S_INR. lra.
    + exists 0%nat. simpl. lra.
Qed.

Lemma shortest_heading_difference_multiple (current target : R) :
  exists k : Z,
    Aircraft._shortest_heading_difference current target
    = target - current + 360 * IZR k.
Proof.
  unfold Aircraft._shortest_heading_difference.
  destruct (sub_while_multiple (Aircraft.loop_bound (target - current))
              (target - current)) as [n Hn].
  rewrite Hn.
  destruct (add_while_multiple
              (Aircraft.loop_bound (target - current - 360 * INR n))
              (target - current - 360 * INR n)) as [m Hm].
  rewrite Hm. exists (Z.of_nat m - Z.of_nat n)%Z.
  rewrite minus_IZR, <- !INR_IZR_INZ. lra.
Qed.

(** Two angles a whole number of turns apart, one within a half turn of
    zero and the other strictly so, are equal. *)
Lemma half_turn_unique (r x : R) (k : Z) :
  -180 <= r <= 180 -> -180 < x < 180 -> r = x + 360 * IZR k -> r = x.
Proof.
  intros Hr Hx Heq.
  assert (Hk : (-1 < k < 1)%Z) by (split; apply lt_IZR; lra).
  assert (k = 0%Z) by lia. subst k. lra.
Qed.

(** X7.  [_shortest_heading_difference] returns the signed turn from
    [current] to [target]: it lies in [-180, 180] and differs from
    [target - current] by a whole number of turns.  When
    [target - current] itself lies in that interval it is returned
    unchanged. *)
Theorem X7_shortest_heading_difference (current target : R) :
  -180 <= Aircraft._shortest_heading_difference current target <= 180
  /\ (exists k : Z,
        Aircraft._shortest_heading_difference current target
        = target - current + 360 * IZR k)
  /\ (-180 <= target - current <= 180 ->
      Aircraft._shortest_heading_difference current target = target - current).
Proof.
  split; [apply shortest_heading_difference_range |].
  split; [apply shortest_heading_difference_multiple |].
  apply shortest_heading_difference_small.
Qed.

(** The turn that remains after moving [step] of the way, [step]
    being shorter than the turn. *)
Lemma shortest_after_turn (current target step : R) :
  let d := Aircraft._shortest_heading_difference current target in
  Rabs step < Rabs d -> 0 < step * d ->
  Aircraft._shortest_heading_difference (py_mod (current + step) 360) target
  = d - step.
Proof.
  intros d Hlt Hsame.
  pose proof (shortest_heading_difference_range current target) as Hd. fold d in Hd.
  destruct (shortest_heading_difference_multiple current target) as [k Hk].
  fold d in Hk.
  set (c' := py_mod (current + step) 360).
  pose proof (shortest_heading_difference_range c' target) as Hr.
  destruct (shortest_heading_difference_multiple c' target) as [k' Hk'].
  assert (Hc' : c' = current + step - 360 * IZR (Int_part ((current + step) / 360)))
    by reflexivity.
  apply (half_turn_unique _ _ (k' + Int_part ((current + step) / 360) - k)%Z).
  - exact Hr.
  - destruct (Rlt_dec 0 d) as [Hpos | Hneg].
    + assert (0 < step) by nra.
      rewrite (Rabs_pos_eq step), (Rabs_pos_eq d) in Hlt by lra. lra.
    + assert (Hd0 : d <> 0)
        by (intros H0; rewrite H0, Rmult_0_r in Hsame; lra).
      assert (d < 0) by lra.
      assert (step < 0).
      { destruct (Rlt_dec step 0) as [Hs | Hs]; [exact Hs | exfalso].
        assert (step * d <= 0) by nra. lra. }
      rewrite (Rabs_left step), (Rabs_left d) in Hlt by lra. lra.
  - rewrite Hk', Hc', minus_IZR, plus_IZR. lra.
Qed.

(** X8.  A turn takes the shorter way round.  With a pending heading
    [t] in [0, 360) and a positive time step, let [d] be
    the signed shortest difference from the present heading.  If [d] is
    within 0.5 degrees or within the 3 degrees per second the step
    allows, the heading becomes [t] and the target is cleared.
    Otherwise the target stays, the heading moves by 3 * time_delta in
    the direction of [d] (wrapped into [0, 360)), and the remaining
    difference is [d] shortened by exactly that much. *)
Theorem X8_turn_takes_shorter_arc
    (dt t : R) (a : Aircraft.t)
    (Htarget : Aircraft.target_heading a = Some t)
    (Ht : 0 <= t < 360) (Hdt : 0 < dt) :
  let d := Aircraft._shortest_heading_difference
             (Velocity.heading (Aircraft.velocity a)) t in
  let a' := Aircraft._update_heading dt a in
  let turn := if Rgtb d 0 then 3 * dt else - (3 * dt) in
  (Rabs d < 0.5 \/ Rabs d <= 3 * dt ->
   Velocity.heading (Aircraft.velocity a') = t
   /\ Aircraft.target_heading a' = None)
  /\ (0.5 <= Rabs d -> 3 * dt < Rabs d ->
      Aircraft.target_heading a' = Some t
      /\ Velocity.heading (Aircraft.velocity a')
         = py_mod (Velocity.heading (Aircraft.velocity a) + turn) 360
      /\ Aircraft._shortest_heading_difference
           (Velocity.heading (Aircraft.velocity a')) t = d - turn
      /\ Rabs (d - turn) = Rabs d - 3 * dt).
Proof.
  intros d a' turn. subst a'. unfold Aircraft._update_heading.
  rewrite Htarget. fold d. unfold Aircraft.MAX_TURN_RATE. split.
  - intros Hnear. case_Rltb (Rabs d) 0.5.
    + unfold_with. simpl. split; reflexivity.
    + destruct Hnear as [Hnear | Hnear]; [lra |].
      rewrite (proj2 (Rleb_true _ _) Hnear). unfold_with. simpl.
      split; [apply py_mod_id; exact Ht | reflexivity].
  - intros Hfar Hslow.
    rewrite (proj2 (Rltb_false _ _) Hfar), (proj2 (Rleb_false _ _) Hslow).
    fold turn. unfold_with. simpl.
    assert (Hturn : Rabs turn < Rabs d /\ 0 < turn * d
                    /\ Rabs (d - turn) = Rabs d - 3 * dt).
    { subst turn. unfold Rgtb. case_Rltb 0 d.
      - rewrite (Rabs_pos_eq d) in * by lra.
        rewrite (Rabs_pos_eq (3 * dt)), (Rabs_pos_eq (d - 3 * dt)) by lra.
        split; [lra |]. split; [nra | lra].
      - rewrite (Rabs_left1 d) in * by lra.
        rewrite Rabs_Ropp, (Rabs_pos_eq (3 * dt)) by lra.
        rewrite (Rabs_left1 (d - - (3 * dt))) by lra.
        split; [lra |]. split; [nra | lra]. }
    destruct Hturn as (Hlt & Hsame & Hrest).
    split; [exact Htarget |]. split; [reflexivity |]. split; [| exact Hrest].
    apply (shortest_after_turn _ t turn); assumption.
Qed.

(** From heading 10 toward 350 the first one-second tick goes down to
    7, not up. *)
Lemma X8_turn_takes_shorter_arc_witness :
  Velocity.heading
    (Aircraft.velocity
       (Aircraft._update_heading 1
          (Aircraft.set_heading 350
             (Aircraft.init "T" (Position.mk 0 0 10000) (Velocity.mk 250 10) []
                "B737" ENROUTE))))
  = 7.
Proof.
  set (a := Aircraft.set_heading 350 _).
  assert (H350 : py_mod 350 360 = 350) by (apply py_mod_id; lra).
  assert (Htgt : Aircraft.target_heading a = Some 350).
  { subst a. unfold Aircraft.set_heading. unfold_with. simpl. rewrite H350. reflexivity. }
  assert (Hd : Aircraft._shortest_heading_difference
                 (Velocity.heading (Aircraft.velocity a)) 350 = -20).
  { subst a. unfold Aircraft.set_heading. unfold_with.
    cbn [Aircraft.velocity Velocity.heading Aircraft.init].
    destruct (shortest_heading_difference_multiple 10 350) as [k Hk].
    pose proof (shortest_heading_difference_range 10 350) as Hr.
    apply (half_turn_unique _ _ (k + 1)%Z); [exact Hr | lra |].
    rewrite Hk, plus_IZR. lra. }
  destruct (X8_turn_takes_shorter_arc 1 350 a Htgt) as [_ Hfar]; [lra | lra |].
  cbv zeta in Hfar. rewrite Hd in Hfar.
  destruct Hfar as (_ & Hh & _).
  - rewrite Rabs_left by lra. lra.
  - rewrite Rabs_left by lra. lra.
  - rewrite Hh. unfold Rgtb. rewrite (proj2 (Rltb_false 0 (-20))) by lra.
    subst a. unfold Aircraft.set_heading. unfold_with.
    cbn [Aircraft.velocity Velocity.heading Aircraft.init].
    replace (10 + - (3 * 1)) with 7 by lra.
    apply py_mod_id. lra.
Defined.

(** ** Climbing, descending and changing speed *)

Lemma run_replicate_update (n : nat) (dt : R) (a : Aircraft.t) :
  run (replicate n (Update dt)) a = Nat.iter n (Aircraft.update dt) a.
Proof.
  induction n as [| n IH]; [reflexivity |].
  unfold run in *. rewrite replicate_S_end, foldl_snoc, IH. reflexivity.
Qed.

(** A quantity [cur] that every [tick] either brings onto its pending
    target [t] or moves [rate] closer to it. *)
Section RateLimited.
Variables (cur : Aircraft.t -> R) (tgt : Aircraft.t -> option R)
  (ok : Aircraft.t -> Prop) (tick : Aircraft.t -> Aircraft.t) (t rate : R).
Hypothesis Hrate : 0 < rate.
Hypothesis Hstep :
  forall a, tgt a = Some t -> ok a ->
    (cur (tick a) = t /\ tgt (tick a) = None)
    \/ (tgt (tick a) = Some t /\ ok (tick a)
        /\ Rabs (t - cur (tick a)) = Rabs (t - cur a) - rate).

Lemma rate_limited_converges (N : nat) (a : Aircraft.t) :
  tgt a = Some t -> ok a -> Rabs (t - cur a) <= rate * INR N ->
  exists n, (1 <= n <= S N)%nat
            /\ cur (Nat.iter n tick a) = t /\ tgt (Nat.iter n tick a) = None.
Proof.
  revert a. induction N as [| N IH]; intros a Htgt Hok Hdist.
  - destruct (Hstep a Htgt Hok) as [[Hc Ht] | (_ & _ & Hd)].
    + exists 1%nat. split; [lia |]. split; assumption.
    + pose proof (Rabs_pos (t - cur (tick a))). simpl in Hdist. lra.
  - destruct (Hstep a Htgt Hok) as [[Hc Ht] | (Ht' & Hok' & Hd)].
    + exists 1%nat. split; [lia |]. split; assumption.
    + destruct (IH (tick a) Ht' Hok') as (n & Hn & Hc & Hnone).
      { rewrite Hd. rewrite S_INR in Hdist. lra. }
      exists (S n). split; [lia |]. rewrite Nat.iter_succ_r. split; assumption.
Qed.

End RateLimited.

Lemma ticks_bound (dist rate : R) :
  0 < rate -> 0 <= dist -> dist <= rate * INR (Z.to_nat (up (dist / rate))).
Proof.
  intros Hrate Hdist. destruct (archimed (dist / rate)) as [Hup _].
  assert (Hq : 0 <= dist / rate).
  { apply Rmult_le_pos; [lra | left; apply Rinv_0_lt_compat; lra]. }
  assert (Hz : (0 <= up (dist / rate))%Z) by (apply le_IZR; lra).
  rewrite INR_IZR_INZ, Z2Nat.id by exact Hz.
  assert (dist = rate * (dist / rate)) by (field; lra).
  assert (rate * (dist / rate) < rate * IZR (up (dist / rate)))
    by (apply Rmult_lt_compat_l; lra).
  lra.
Qed.

(** One altitude stage, target and altitude both inside the limits. *)
Lemma altitude_stage_step (dt t : R) (a : Aircraft.t) :
  0 <= dt ->
  Aircraft.target_altitude a = Some t ->
  altitude_in_limits t ->
  altitude_in_limits (Position.altitude (Aircraft.position a)) ->
  let alt := Position.altitude (Aircraft.position a) in
  let a' := Aircraft._update_altitude dt a in
  let alt' := Position.altitude (Aircraft.position a') in
  let max_change := 2000 * (dt / 60) in
  ((Rabs (t - alt) < 10 \/ Rabs (t - alt) <= max_change)
   /\ alt' = t /\ Aircraft.target_altitude a' = None)
  \/ (10 <= Rabs (t - alt) /\ max_change < Rabs (t - alt)
      /\ Aircraft.target_altitude a' = Some t
      /\ altitude_in_limits alt'
      /\ Rabs (t - alt') = Rabs (t - alt) - max_change
      /\ Rabs (alt' - alt) = max_change).
Proof.
  intros Hdt Htgt Ht Ha alt a' alt' max_change.
  subst a' alt'. unfold Aircraft._update_altitude. rewrite Htgt. fold alt.
  unfold Aircraft.MAX_CLIMB_RATE, Aircraft.MAX_DESCENT_RATE.
  replace ((if Rgtb (t - alt) 0 then 2000 else 2000) * (dt / 60))
    with max_change by (destruct (Rgtb (t - alt) 0); reflexivity).
  unfold altitude_in_limits, Aircraft.MIN_ALTITUDE, Aircraft.MAX_ALTITUDE in *.
  fold alt in Ha.
  assert (Hmc : 0 <= max_change) by (subst max_change; lra).
  case_Rltb (Rabs (t - alt)) 10.
  { left. unfold_with. simpl. auto. }
  case_Rleb (Rabs (t - alt)) max_change.
  { left. unfold_with. simpl. split; [auto |]. split; [| reflexivity].
    apply clamp_id. lra. }
  right. split; [lra |]. split; [lra |].
  unfold_with. cbn [Aircraft.target_altitude Aircraft.position Position.altitude].
  fold alt. split; [exact Htgt |].
  unfold Rgtb. case_Rltb 0 (t - alt).
  - rewrite (Rabs_pos_eq (t - alt)) in * by lra.
    rewrite clamp_id by lra.
    rewrite (Rabs_pos_eq (t - (alt + max_change))) by lra.
    replace (alt + max_change - alt) with max_change by lra.
    rewrite (Rabs_pos_eq max_change) by lra.
    repeat split; lra.
  - rewrite (Rabs_left1 (t - alt)) in * by lra.
    rewrite clamp_id by lra.
    rewrite (Rabs_left1 (t - (alt + - max_change))) by lra.
    replace (alt + - max_change - alt) with (- max_change) by lra.
    rewrite Rabs_Ropp, (Rabs_pos_eq max_change) by lra.
    repeat split; lra.
Qed.

(** One speed stage, target and speed both inside the limits. *)
Lemma speed_stage_step (dt t : R) (a : Aircraft.t) :
  0 <= dt ->
  Aircraft.target_speed a = Some t ->
  speed_in_limits t ->
  speed_in_limits (Velocity.speed (Aircraft.velocity a)) ->
  let spd := Velocity.speed (Aircraft.velocity a) in
  let a' := Aircraft._update_speed dt a in
  let spd' := Velocity.speed (Aircraft.velocity a') in
  let max_change := 10 * dt in
  ((Rabs (t - spd) < 1 \/ Rabs (t - spd) <= max_change)
   /\ spd' = t /\ Aircraft.target_speed a' = None)
  \/ (1 <= Rabs (t - spd) /\ max_change < Rabs (t - spd)
      /\ Aircraft.target_speed a' = Some t
      /\ speed_in_limits spd'
      /\ Rabs (t - spd') = Rabs (t - spd) - max_change
      /\ Rabs (spd' - spd) = max_change).
Proof.
  intros Hdt Htgt Ht Ha spd a' spd' max_change.
  subst a' spd'. unfold Aircraft._update_speed. rewrite Htgt. fold spd.
  unfold Aircraft.MAX_SPEED_CHANGE. fold max_change.
  unfold speed_in_limits, Aircraft.MIN_SPEED, Aircraft.MAX_SPEED in *.
  fold spd in Ha.
  assert (Hmc : 0 <= max_change) by (subst max_change; lra).
  case_Rltb (Rabs (t - spd)) 1.
  { left. unfold_with. simpl. auto. }
  case_Rleb (Rabs (t - spd)) max_change.
  { left. unfold_with. simpl. split; [auto |]. split; [| reflexivity].
    apply clamp_id. lra. }
  right. split; [lra |]. split; [lra |].
  unfold_with. cbn [Aircraft.target_speed Aircraft.velocity Velocity.speed].
  fold spd. split; [exact Htgt |].
  unfold Rgtb. case_Rltb 0 (t - spd).
  - rewrite (Rabs_pos_eq (t - spd)) in * by lra.
    rewrite clamp_id by lra.
    rewrite (Rabs_pos_eq (t - (spd + max_change))) by lra.
    replace (spd + max_change - spd) with max_change by lra.
    rewrite (Rabs_pos_eq max_change) by lra.
    repeat split; lra.
  - rewrite (Rabs_left1 (t - spd)) in * by lra.
    rewrite clamp_id by lra.
    rewrite (Rabs_left1 (t - (spd + - max_change))) by lra.
    replace (spd + - max_change - spd) with (- max_change) by lra.
    rewrite Rabs_Ropp, (Rabs_pos_eq max_change) by lra.
    repeat split; lra.
Qed.

(** Speed after a whole [update] is the one left by the speed stage,
    which sees the speed and the speed target the update started with. *)
Lemma update_speed_result (dt : R) (a : Aircraft.t) :
  exists a2 : Aircraft.t,
    Velocity.speed (Aircraft.velocity a2) = Velocity.speed (Aircraft.velocity a)
    /\ Aircraft.target_speed a2 = Aircraft.target_speed a
    /\ Velocity.speed (Aircraft.velocity (Aircraft.update dt a))
       = Velocity.speed (Aircraft.velocity (Aircraft._update_speed dt a2))
    /\ Aircraft.target_speed (Aircraft.update dt a)
       = Aircraft.target_speed (Aircraft._update_speed dt a2).
Proof.
  rewrite update_unfold.
  set (a1 := Aircraft._update_altitude dt (after_clock dt a)).
  set (a2 := Aircraft._update_heading dt a1).
  set (a3 := Aircraft._update_speed dt a2).
  set (a4 := Aircraft._update_position dt a3).
  destruct (update_altitude_frame dt (after_clock dt a))
    as (_ & _ & _ & Hv1 & _ & _ & Hts1 & _).
  destruct (update_heading_frame dt a1) as (_ & _ & Hs2 & _ & _ & Hts2 & _).
  destruct (update_position_frame dt a3) as ((_ & _ & Hv4 & _ & _ & _ & Hts4) & _).
  destruct (check_waypoint_progress_frame a4) as ((_ & _ & Hv5 & _ & _ & _ & Hts5) & _).
  fold a1 in Hv1, Hts1. fold a2 in Hs2, Hts2. fold a4 in Hv4, Hts4.
  exists a2. split; [rewrite Hs2, Hv1; reflexivity |].
  split; [rewrite Hts2, Hts1; reflexivity |].
  split; [rewrite Hv5, Hv4; reflexivity | rewrite Hts5, Hts4; reflexivity].
Qed.

(** X9.  A pending altitude is reached.  With altitude and pending
    target inside [1000, 45000] ft and a positive time step, some
    number of updates between 1 and 1 + the least whole number above
    distance / (2000 * time_delta / 60) brings the aircraft exactly
    onto the target and clears it. *)
Theorem X9_altitude_reaches_target (dt t : R) (a : Aircraft.t)
    (Hdt : 0 < dt)
    (Htgt : Aircraft.target_altitude a = Some t)
    (Ht : altitude_in_limits t)
    (Ha : altitude_in_limits (Position.altitude (Aircraft.position a))) :
  exists n : nat,
    (1 <= n <= S (Z.to_nat
                    (up (Rabs (t - Position.altitude (Aircraft.position a))
                         / (2000 * (dt / 60))))))%nat
    /\ Position.altitude (Aircraft.position (run (replicate n (Update dt)) a)) = t
    /\ Aircraft.target_altitude (run (replicate n (Update dt)) a) = None.
Proof.
  assert (Hrate : 0 < 2000 * (dt / 60)) by lra.
  destruct (rate_limited_converges
              (fun a => Position.altitude (Aircraft.position a))
              Aircraft.target_altitude
              (fun a => altitude_in_limits (Position.altitude (Aircraft.position a)))
              (Aircraft.update dt) t (2000 * (dt / 60)) Hrate) with
    (N := Z.to_nat (up (Rabs (t - Position.altitude (Aircraft.position a))
                        / (2000 * (dt / 60))))) (a := a)
    as (n & Hn & Hc & Hnone).
  - intros b Hb Hok. destruct (update_altitude_result dt b) as [-> ->].
    destruct (altitude_stage_step dt t (after_clock dt b)) as
      [(_ & H1 & H2) | (_ & _ & H1 & H2 & H3 & _)];
      [lra | exact Hb | exact Ht | exact Hok | left; auto | right; auto].
  - exact Htgt.
  - exact Ha.
  - apply ticks_bound; [exact Hrate | apply Rabs_pos].
  - exists n. rewrite run_replicate_update. auto.
Qed.

Lemma X9_altitude_reaches_target_witness :
  exists n : nat,
    (1 <= n)%nat
    /\ Position.altitude
         (Aircraft.position
            (run (replicate n (Update 1)) (Aircraft.set_altitude 50000 UAL100)))
       = 45000.
Proof.
  assert (Hclamp : py_max Aircraft.MIN_ALTITUDE (py_min Aircraft.MAX_ALTITUDE 50000)
                   = 45000).
  { unfold Aircraft.MIN_ALTITUDE, Aircraft.MAX_ALTITUDE, py_max, py_min.
    eval_Rcmp. reflexivity. }
  destruct (X9_altitude_reaches_target 1 45000 (Aircraft.set_altitude 50000 UAL100))
    as (n & [Hn _] & Halt & _).
  - lra.
  - unfold Aircraft.set_altitude. unfold_with. simpl. rewrite Hclamp. reflexivity.
  - unfold altitude_in_limits, Aircraft.MIN_ALTITUDE, Aircraft.MAX_ALTITUDE. lra.
  - unfold altitude_in_limits, Aircraft.MIN_ALTITUDE, Aircraft.MAX_ALTITUDE.
    simpl. lra.
  - exists n. split; [exact Hn | exact Halt].
Defined.

(** X10.  A pending speed is reached.  With speed and pending target
    inside [120, 550] kt and a positive time step, some number of
    updates between 1 and 1 + the least whole number above
    distance / (10 * time_delta) brings the aircraft exactly onto the
    target speed and clears it. *)
Theorem X10_speed_reaches_target (dt t : R) (a : Aircraft.t)
    (Hdt : 0 < dt)
    (Htgt : Aircraft.target_speed a = Some t)
    (Ht : speed_in_limits t)
    (Ha : speed_in_limits (Velocity.speed (Aircraft.velocity a))) :
  exists n : nat,
    (1 <= n <= S (Z.to_nat
                    (up (Rabs (t - Velocity.speed (Aircraft.velocity a))
                         / (10 * dt)))))%nat
    /\ Velocity.speed (Aircraft.velocity (run (replicate n (Update dt)) a)) = t
    /\ Aircraft.target_speed (run (replicate n (Update dt)) a) = None.
Proof.
  assert (Hrate : 0 < 10 * dt) by lra.
  destruct (rate_limited_converges
              (fun a => Velocity.speed (Aircraft.velocity a))
              Aircraft.target_speed
              (fun a => speed_in_limits (Velocity.speed (Aircraft.velocity a)))
              (Aircraft.update dt) t (10 * dt) Hrate) with
    (N := Z.to_nat (up (Rabs (t - Velocity.speed (Aircraft.velocity a)) / (10 * dt))))
    (a := a) as (n & Hn & Hc & Hnone).
  - intros b Hb Hok.
    destruct (update_speed_result dt b) as (b2 & Hs2 & Ht2 & -> & ->).
    rewrite <- Ht2 in Hb. rewrite <- Hs2 in Hok. rewrite <- Hs2.
    destruct (speed_stage_step dt t b2) as
      [(_ & H1 & H2) | (_ & _ & H1 & H2 & H3 & _)];
      [lra | exact Hb | exact Ht | exact Hok | left; auto | right; auto].
  - exact Htgt.
  - exact Ha.
  - apply ticks_bound; [exact Hrate | apply Rabs_pos].
  - exists n. rewrite run_replicate_update. auto.
Qed.

Lemma X10_speed_reaches_target_witness :
  exists n : nat,
    (1 <= n)%nat
    /\ Velocity.speed
         (Aircraft.velocity
            (run (replicate n (Update 1)) (Aircraft.set_speed 100 UAL100)))
       = 120.
Proof.
  assert (Hclamp : py_max Aircraft.MIN_SPEED (py_min Aircraft.MAX_SPEED 100) = 120).
  { unfold Aircraft.MIN_SPEED, Aircraft.MAX_SPEED, py_max, py_min.
    eval_Rcmp. reflexivity. }
  destruct (X10_speed_reaches_target 1 120 (Aircraft.set_speed 100 UAL100))
    as (n & [Hn _] & Hspd & _).
  - lra.
  - unfold Aircraft.set_speed. unfold_with. simpl. rewrite Hclamp. reflexivity.
  - unfold speed_in_limits, Aircraft.MIN_SPEED, Aircraft.MAX_SPEED. lra.
  - unfold speed_in_limits, Aircraft.MIN_SPEED, Aircraft.MAX_SPEED. simpl. lra.
  - exists n. split; [exact Hn | exact Hspd].
Defined.

(** X11.  The update is rate limited.  For an aircraft inside the
    flight envelope whose pending targets are inside the limits, one
    update with a time step that is not negative changes the altitude
    by at most 2000 ft/min times the step (or by less than the 10 ft of
    the final snap), and the speed by at most 10 kt/s times the step
    (or by less than the 1 kt of the final snap). *)
Theorem X11_update_is_rate_limited (dt : R) (a : Aircraft.t)
    (Hdt : 0 <= dt) (Henv : in_envelope a) (Htargets : targets_in_limits a) :
  Rabs (Position.altitude (Aircraft.position (Aircraft.update dt a))
        - Position.altitude (Aircraft.position a))
  <= Rmax 10 (2000 * (dt / 60))
  /\ Rabs (Velocity.speed (Aircraft.velocity (Aircraft.update dt a))
           - Velocity.speed (Aircraft.velocity a))
     <= Rmax 1 (10 * dt).
Proof.
  destruct Henv as (Halt & Hspd & _). destruct Htargets as (Hta & _ & Hts).
  split.
  - destruct (update_altitude_result dt a) as [-> _].
    destruct (Aircraft.target_altitude a) as [t |] eqn:Htgt.
    + destruct (altitude_stage_step dt t (after_clock dt a) Hdt Htgt (Hta t eq_refl) Halt)
        as [(Hnear & H1 & _) | (_ & _ & _ & _ & _ & H1)].
      * rewrite H1. simpl (Position.altitude (Aircraft.position (after_clock dt a))) in *.
        pose proof (Rmax_l 10 (2000 * (dt / 60))).
        pose proof (Rmax_r 10 (2000 * (dt / 60))).
        destruct Hnear; lra.
      * simpl (Position.altitude (Aircraft.position (after_clock dt a))) in H1.
        rewrite H1. apply Rmax_r.
    + unfold Aircraft._update_altitude.
      replace (Aircraft.target_altitude (after_clock dt a)) with (@None R)
        by (symmetry; exact Htgt).
      assert (Hsame : forall b : Aircraft.t,
                Position.altitude (Aircraft.position b)
                = Position.altitude (Aircraft.position a) ->
                Rabs (Position.altitude (Aircraft.position b)
                      - Position.altitude (Aircraft.position a))
                <= Rmax 10 (2000 * (dt / 60))).
      { intros b ->. rewrite Rminus_diag, Rabs_R0.
        pose proof (Rmax_l 10 (2000 * (dt / 60))). lra. }
      destruct (Aircraft.current_waypoint (after_clock dt a)) as [wp |];
        [destruct (Waypoint.altitude wp) |]; apply Hsame; reflexivity.
  - destruct (update_speed_result dt a) as (a2 & Hs2 & Ht2 & -> & _).
    rewrite <- Hs2 in *.
    destruct (Aircraft.target_speed a2) as [t |] eqn:Htgt.
    + assert (Ht : speed_in_limits t) by (apply Hts; rewrite <- Ht2; reflexivity).
      destruct (speed_stage_step dt t a2 Hdt Htgt Ht Hspd)
        as [(Hnear & H1 & _) | (_ & _ & _ & _ & _ & H1)].
      * rewrite H1.
        pose proof (Rmax_l 1 (10 * dt)). pose proof (Rmax_r 1 (10 * dt)).
        destruct Hnear; lra.
      * rewrite H1. apply Rmax_r.
    + unfold Aircraft._update_speed. rewrite Htgt.
      rewrite Rminus_diag, Rabs_R0. pose proof (Rmax_l 1 (10 * dt)). lra.
Qed.

Lemma X11_update_is_rate_limited_witness :
  Rabs (Position.altitude (Aircraft.position (Aircraft.update 1 UAL100))
        - Position.altitude (Aircraft.position UAL100))
  <= Rmax 10 (2000 * (1 / 60)).
Proof.
  apply (X11_update_is_rate_limited 1 UAL100).
  - lra.
  - unfold in_envelope, altitude_in_limits, speed_in_limits, heading_in_range,
      Aircraft.MIN_ALTITUDE, Aircraft.MAX_ALTITUDE, Aircraft.MIN_SPEED,
      Aircraft.MAX_SPEED. simpl. lra.
  - unfold targets_in_limits. simpl. repeat split; discriminate.
Defined.

(** ** Moving *)

(** Nothing steers the aircraft: no pending target, and no waypoint
    under the cursor. *)
Definition unsteered (a : Aircraft.t) : Prop :=
  Aircraft.target_altitude a = None
  /\ Aircraft.target_heading a = None
  /\ Aircraft.target_speed a = None
  /\ Aircraft.current_waypoint a = None.

Lemma unsteered_update (dt : R) (a : Aircraft.t) :
  unsteered a ->
  Aircraft.update dt a
  = Aircraft.with_position (Aircraft.predict_position a dt) (after_clock dt a).
Proof.
  intros (Hta & Hth & Hts & Hwp). rewrite update_unfold.
  assert (H1 : Aircraft._update_altitude dt (after_clock dt a) = after_clock dt a).
  { unfold Aircraft._update_altitude.
    replace (Aircraft.target_altitude (after_clock dt a)) with (@None R)
      by (symmetry; exact Hta).
    replace (Aircraft.current_waypoint (after_clock dt a)) with (@None Waypoint.t)
      by (symmetry; exact Hwp).
    reflexivity. }
  rewrite H1.
  assert (H2 : Aircraft._update_heading dt (after_clock dt a) = after_clock dt a).
  { unfold Aircraft._update_heading.
    replace (Aircraft.target_heading (after_clock dt a)) with (@None R)
      by (symmetry; exact Hth).
    replace (Aircraft.current_waypoint (after_clock dt a)) with (@None Waypoint.t)
      by (symmetry; exact Hwp).
    reflexivity. }
  rewrite H2.
  assert (H3 : Aircraft._update_speed dt (after_clock dt a) = after_clock dt a).
  { unfold Aircraft._update_speed.
    replace (Aircraft.target_speed (after_clock dt a)) with (@None R)
      by (symmetry; exact Hts).
    reflexivity. }
  rewrite H3.
  unfold Aircraft._check_waypoint_progress.
  replace (Aircraft.current_waypoint (Aircraft._update_position dt (after_clock dt a)))
    with (@None Waypoint.t) by (symmetry; exact Hwp).
  reflexivity.
Qed.

Lemma predict_position_0 (a : Aircraft.t) :
  Aircraft.predict_position a 0 = Aircraft.position a.
Proof.
  symmetry. apply position_eta; unfold Aircraft.predict_position; simpl; lra.
Qed.

(** Predicting from a predicted position, velocity unchanged. *)
Lemma predict_position_add (a b : Aircraft.t) (s dt : R) :
  Aircraft.position b = Aircraft.predict_position a s ->
  Aircraft.velocity b = Aircraft.velocity a ->
  Aircraft.predict_position b dt = Aircraft.predict_position a (s + dt).
Proof.
  intros Hp Hv. unfold Aircraft.predict_position at 1. rewrite Hp, Hv.
  unfold Aircraft.predict_position.
  cbn [Position.x Position.y Position.altitude]. f_equal; field.
Qed.

(** X12.  An aircraft that nothing steers flies the straight line
    [predict_position] extrapolates: after [n] updates of [dt] seconds
    its position is the one predicted [n * dt] seconds ahead, its
    velocity is unchanged and still nothing steers it. *)
Theorem X12_unsteered_flight_follows_prediction
    (dt : R) (n : nat) (a : Aircraft.t) (Hfree : unsteered a) :
  let a' := run (replicate n (Update dt)) a in
  Aircraft.position a' = Aircraft.predict_position a (INR n * dt)
  /\ Aircraft.velocity a' = Aircraft.velocity a
  /\ Aircraft.time_in_simulation a' = Aircraft.time_in_simulation a + INR n * dt
  /\ unsteered a'.
Proof.
  cbv zeta. rewrite run_replicate_update.
  induction n as [| n (IHp & IHv & IHt & IHfree)].
  - cbn [Nat.iter nat_rect INR]. rewrite Rmult_0_l, predict_position_0.
    repeat split; [lra | apply Hfree ..].
  - rewrite Nat.iter_succ.
    set (b := Nat.iter n (Aircraft.update dt) a) in *.
    rewrite (unsteered_update dt b IHfree).
    unfold after_clock. unfold_with.
    cbn [Aircraft.position Aircraft.velocity Aircraft.time_in_simulation].
    split; [| split; [exact IHv | split]].
    + rewrite (predict_position_add a b (INR n * dt) dt IHp IHv).
      f_equal. rewrite S_INR. ring.
    + rewrite IHt, S_INR. ring.
    + destruct IHfree as (H1 & H2 & H3 & H4).
      repeat split; assumption.
Qed.

Lemma X12_unsteered_flight_follows_prediction_witness :
  Aircraft.position (run (replicate 2 (Update 1)) ac_A)
  = Aircraft.predict_position ac_A (INR 2 * 1).
Proof.
  apply (X12_unsteered_flight_follows_prediction 1 2 ac_A).
  repeat split; reflexivity.
Defined.

(** The aircraft as [_update_position] receives it inside [update]. *)
Definition before_moving (dt : R) (a : Aircraft.t) : Aircraft.t :=
  Aircraft._update_speed dt
    (Aircraft._update_heading dt
       (Aircraft._update_altitude dt (after_clock dt a))).

Lemma before_moving_frame (dt : R) (a : Aircraft.t) :
  Position.x (Aircraft.position (before_moving dt a)) = Position.x (Aircraft.position a)
  /\ Position.y (Aircraft.position (before_moving dt a))
     = Position.y (Aircraft.position a)
  /\ Aircraft.flight_plan (before_moving dt a) = Aircraft.flight_plan a
  /\ Aircraft.current_waypoint_index (before_moving dt a)
     = Aircraft.current_waypoint_index a.
Proof.
  unfold before_moving.
  set (a1 := Aircraft._update_altitude dt (after_clock dt a)).
  set (a2 := Aircraft._update_heading dt a1).
  destruct (update_altitude_frame dt (after_clock dt a))
    as (_ & Hx1 & Hy1 & _ & Hf1 & _ & _ & Hi1).
  destruct (update_heading_frame dt a1) as (_ & Hp2 & _ & Hf2 & _ & _ & Hi2).
  destruct (update_speed_frame dt a2) as (_ & Hp3 & _ & Hf3 & _ & _ & Hi3).
  fold a1 in Hx1, Hy1, Hf1, Hi1. fold a2 in Hp2, Hf2, Hi2.
  simpl in Hx1, Hy1, Hf1, Hi1.
  repeat split; congruence.
Qed.

(** X13.  The ground distance covered by one update is the speed the
    update leaves, times the time step (in hours), in magnitude: the
    position stage runs after the speed stage and moves along the unit
    vector of the heading. *)
Theorem X13_ground_distance_per_update (dt : R) (a : Aircraft.t) :
  Position.distance_to (Aircraft.position a) (Aircraft.position (Aircraft.update dt a))
  = Rabs (Velocity.speed (Aircraft.velocity (Aircraft.update dt a)) * (dt / 3600)).
Proof.
  rewrite update_unfold. fold (before_moving dt a).
  destruct (before_moving_frame dt a) as (Hx & Hy & _ & _).
  set (b := before_moving dt a) in *.
  destruct (check_waypoint_progress_frame (Aircraft._update_position dt b))
    as ((_ & _ & -> & _) & ->).
  unfold Aircraft._update_position. unfold_with.
  cbn [Aircraft.position Aircraft.velocity Position.x Position.y].
  unfold Position.distance_to. cbn [Position.x Position.y].
  rewrite Hx, Hy.
  set (d := Velocity.speed (Aircraft.velocity b) * (dt / 3600)).
  set (h := radians (Velocity.heading (Aircraft.velocity b))).
  match goal with
  | |- sqrt ?e = _ => replace e with (Rsqr d)
  end.
  - apply sqrt_Rsqr_abs.
  - pose proof (sin2_cos2 h) as Hunit. unfold Rsqr in *.
    transitivity (d * d * (sin h * sin h + cos h * cos h)); [rewrite Hunit |]; ring.
Qed.

(** X14.  The waypoint cursor.  An update never changes the flight
    plan; the cursor stays or advances by exactly one, never past the
    end of the plan, and advances only when the position after the
    move is less than 1 NM from the waypoint that was under it. *)
Theorem X14_waypoint_cursor_advances_within_1nm (dt : R) (a : Aircraft.t) :
  let a' := Aircraft.update dt a in
  let i := Aircraft.current_waypoint_index a in
  Aircraft.flight_plan a' = Aircraft.flight_plan a
  /\ (Aircraft.current_waypoint_index a' = i
      \/ Aircraft.current_waypoint_index a' = S i
         /\ exists wp : Waypoint.t,
              Aircraft.flight_plan a !! i = Some wp
              /\ sqrt ((Position.x (Aircraft.position a') - Waypoint.x wp) ^ 2
                       + (Position.y (Aircraft.position a') - Waypoint.y wp) ^ 2) < 1)
  /\ ((i <= length (Aircraft.flight_plan a))%nat ->
      (Aircraft.current_waypoint_index a' <= length (Aircraft.flight_plan a))%nat).
Proof.
  cbv zeta. rewrite update_unfold. fold (before_moving dt a).
  destruct (before_moving_frame dt a) as (_ & _ & Hfp & Hidx).
  set (b := Aircraft._update_position dt (before_moving dt a)).
  destruct (update_position_frame dt (before_moving dt a))
    as ((_ & _ & _ & Hfp4 & _) & Hidx4).
  fold b in Hfp4, Hidx4. rewrite Hfp in Hfp4. rewrite Hidx in Hidx4.
  unfold Aircraft._check_waypoint_progress, Aircraft.current_waypoint.
  rewrite Hfp4, Hidx4.
  destruct (Aircraft.flight_plan a !! Aircraft.current_waypoint_index a)
    as [wp |] eqn:Hwp.
  - match goal with |- context [Rltb ?x ?y] => case_Rltb x y end.
    + unfold_with. cbn [Aircraft.flight_plan Aircraft.current_waypoint_index
                        Aircraft.position].
      split; [exact Hfp4 |]. split.
      * right. split; [reflexivity |]. exists wp. split; [reflexivity | assumption].
      * intros _. apply lookup_lt_Some in Hwp. lia.
    + rewrite Hfp4, Hidx4. split; [reflexivity |]. split; [left; reflexivity | tauto].
  - rewrite Hfp4, Hidx4. split; [reflexivity |]. split; [left; reflexivity | tauto].
Qed.

(** ** What the controller does to the aircraft *)

(** [a'] is [a] with other pending targets; targets inside the limits
    stay inside. *)
Definition retargeted (a a' : Aircraft.t) : Prop :=
  Aircraft.callsign a' = Aircraft.callsign a
  /\ Aircraft.position a' = Aircraft.position a
  /\ Aircraft.velocity a' = Aircraft.velocity a
  /\ Aircraft.flight_plan a' = Aircraft.flight_plan a
  /\ Aircraft.current_waypoint_index a' = Aircraft.current_waypoint_index a
  /\ Aircraft.time_in_simulation a' = Aircraft.time_in_simulation a
  /\ (targets_in_limits a -> targets_in_limits a').

Lemma retargeted_refl (a : Aircraft.t) : retargeted a a.
Proof. unfold retargeted. tauto. Qed.

Lemma retargeted_trans (a b c : Aircraft.t) :
  retargeted a b -> retargeted b c -> retargeted a c.
Proof.
  intros (H1 & H2 & H3 & H4 & H5 & H6 & H7) (G1 & G2 & G3 & G4 & G5 & G6 & G7).
  unfold retargeted. repeat (split; [congruence |]).
  intros Ht. apply G7, H7, Ht.
Qed.

Lemma set_altitude_retargeted (h : R) (a : Aircraft.t) :
  retargeted a (Aircraft.set_altitude h a).
Proof.
  unfold retargeted, targets_in_limits, Aircraft.set_altitude. unfold_with. simpl.
  repeat (split; [reflexivity |]).
  intros (Hta & Hth & Hts). split; [| split; assumption].
  intros h' [= <-]. apply clamp_range, altitude_limits_ordered.
Qed.

Lemma set_heading_retargeted (h : R) (a : Aircraft.t) :
  retargeted a (Aircraft.set_heading h a).
Proof.
  unfold retargeted, targets_in_limits, Aircraft.set_heading. unfold_with. simpl.
  repeat (split; [reflexivity |]).
  intros (Hta & Hth & Hts). split; [exact Hta | split; [| exact Hts]].
  intros h' [= <-]. apply py_mod_heading.
Qed.

Lemma Forall2_retargeted_refl (l : list Aircraft.t) : Forall2 retargeted l l.
Proof. induction l; constructor; auto using retargeted_refl. Qed.

Lemma alter_retargeted (f : Aircraft.t -> Aircraft.t) (i : nat) (l : list Aircraft.t) :
  (forall a, retargeted a (f a)) -> Forall2 retargeted l (alter f i l).
Proof.
  intros Hf. revert i. induction l as [| a l IH]; intros i; [constructor |].
  destruct i as [| i]; simpl; constructor.
  - apply Hf.
  - apply Forall2_retargeted_refl.
  - apply retargeted_refl.
  - apply IH.
Qed.

Lemma Forall2_retargeted_trans (l1 l2 l3 : list Aircraft.t) :
  Forall2 retargeted l1 l2 -> Forall2 retargeted l2 l3 -> Forall2 retargeted l1 l3.
Proof.
  intros H12. revert l3. induction H12 as [| a b l1 l2 Hab _ IH]; intros l3 H23.
  - inversion H23. constructor.
  - inversion H23 as [| b' c l2' l3' Hbc Hrest]; subst.
    constructor; [eapply retargeted_trans; eassumption | apply IH, Hrest].
Qed.

(** The log after [added] more instructions, each counted. *)
Definition issued (added : nat) (s s' : ATCSystem.t) : Prop :=
  length (ATCSystem.instructions s') = (length (ATCSystem.instructions s) + added)%nat
  /\ ATCSystem.instruction_count s' = (ATCSystem.instruction_count s + added)%nat.

Lemma resolve_effect (conflict : Conflict.t) (now : R) (st st' : ATCSystem.state) :
  ATCSystem._resolve_conflict conflict now st = Some st' ->
  Forall2 retargeted (snd st) (snd st')
  /\ exists added, issued added (fst st) (fst st').
Proof.
  intros Hres.
  destruct (ATCSystem.find_aircraft (Conflict.aircraft1 conflict) (snd st))
    as [ac1 |] eqn:H1;
    [| rewrite resolve_not_found in Hres by (left; exact H1);
       injection Hres as <-; split;
       [apply Forall2_retargeted_refl | exists 0%nat; split; lia]].
  destruct (ATCSystem.find_aircraft (Conflict.aircraft2 conflict) (snd st))
    as [ac2 |] eqn:H2;
    [| rewrite resolve_not_found in Hres by (right; exact H2);
       injection Hres as <-; split;
       [apply Forall2_retargeted_refl | exists 0%nat; split; lia]].
  rewrite (resolve_found conflict now st ac1 ac2 H1 H2) in Hres.
  destruct (ATCSystem._recently_instructed _ _ _ _ _).
  { injection Hres as <-. split;
      [apply Forall2_retargeted_refl | exists 0%nat; split; lia]. }
  destruct (Rgeb _ _); [| destruct (Rleb _ _)]; injection Hres as <-;
    unfold altitude_issued, heading_issued, logged; cbn [fst snd];
    (split;
     [apply alter_retargeted;
      auto using set_altitude_retargeted, set_heading_retargeted
     | exists 1%nat; split; cbn [ATCSystem.instructions ATCSystem.instruction_count];
       [rewrite length_app; reflexivity | lia]]).
Qed.

Lemma resolve_all_effect (conflicts : list Conflict.t) (now : R)
    (st st' : ATCSystem.state) :
  ATCSystem.resolve_all conflicts now st = Some st' ->
  Forall2 retargeted (snd st) (snd st')
  /\ exists added, issued added (fst st) (fst st').
Proof.
  revert st. induction conflicts as [| c rest IH]; intros st Hall.
  - injection Hall as <-. split;
      [apply Forall2_retargeted_refl | exists 0%nat; split; lia].
  - cbn [ATCSystem.resolve_all] in Hall.
    destruct (bool_decide _); [| apply IH, Hall].
    destruct (ATCSystem._resolve_conflict c now st) as [st1 |] eqn:Hres;
      [| discriminate].
    cbn in Hall. destruct (resolve_effect c now st st1 Hres) as (Hf & n & Hl & Hc).
    destruct (IH st1 Hall) as (Hf' & m & Hl' & Hc').
    split; [eapply Forall2_retargeted_trans; eassumption |].
    exists (n + m)%nat. split; lia.
Qed.

Lemma update_total (now : R) (st : ATCSystem.state) :
  exists st' : ATCSystem.state, ATCSystem.update now st = Some st'.
Proof.
  destruct st as [self l]. unfold ATCSystem.update, Airspace.detect_conflicts.
  match goal with
  | |- exists st', ATCSystem.resolve_all ?cs now ?st0 = Some st' =>
      destruct (resolve_all_total_without_speed cs now st0) as (st' & Hst' & _);
      exists st'; exact Hst'
  end.
Qed.

(** X15.  The controller only instructs.  [update] always returns; it
    leaves the number of aircraft, and the callsign, position,
    velocity, flight plan, waypoint cursor and clock of each aircraft,
    as they were: at most the pending targets change, and targets that
    were inside the limits are inside the limits afterwards. *)
Theorem X15_controller_only_sets_targets (now : R) (st : ATCSystem.state) :
  exists st' : ATCSystem.state,
    ATCSystem.update now st = Some st'
    /\ Forall2 retargeted (snd st) (snd st').
Proof.
  destruct st as [self l]. unfold ATCSystem.update, Airspace.detect_conflicts.
  match goal with
  | |- exists st', ATCSystem.resolve_all ?cs now ?st0 = Some st' /\ _ =>
      destruct (resolve_all_total_without_speed cs now st0) as (st' & Hst' & _);
      exists st'; split; [exact Hst' |];
      destruct (resolve_all_effect cs now st0 st' Hst') as [Hf _]; exact Hf
  end.
Qed.

(** X16.  [instruction_count] counts every instruction ever issued.
    One [update] lengthens the log and raises the counter by the same
    number; [clear_old_instructions] shortens the log (it keeps the
    instructions stamped at or after the given time) and leaves the
    counter, so that the counter is never below the length of the log
    once it was equal to it. *)
Theorem X16_instruction_count_counts_every_issue
    (now before : R) (st : ATCSystem.state) :
  exists (st' : ATCSystem.state) (added : nat),
    ATCSystem.update now st = Some st'
    /\ length (ATCSystem.instructions (fst st'))
       = (length (ATCSystem.instructions (fst st)) + added)%nat
    /\ ATCSystem.instruction_count (fst st')
       = (ATCSystem.instruction_count (fst st) + added)%nat
    /\ ATCSystem.instruction_count (ATCSystem.clear_old_instructions before (fst st'))
       = ATCSystem.instruction_count (fst st')
    /\ (length (ATCSystem.instructions
                  (ATCSystem.clear_old_instructions before (fst st')))
        <= length (ATCSystem.instructions (fst st')))%nat
    /\ Forall (fun i => before <= ATCInstruction.timestamp i)
         (ATCSystem.instructions (ATCSystem.clear_old_instructions before (fst st'))).
Proof.
  destruct st as [self l]. unfold ATCSystem.update, Airspace.detect_conflicts.
  match goal with
  | |- exists st' added, ATCSystem.resolve_all ?cs now ?st0 = Some st' /\ _ =>
      destruct (resolve_all_total_without_speed cs now st0) as (st' & Hst' & _);
      destruct (resolve_all_effect cs now st0 st' Hst') as (_ & added & Hl & Hc)
  end.
  exists st', added. split; [exact Hst' |].
  cbn [fst ATCSystem.instructions ATCSystem.instruction_count] in Hl, Hc.
  split; [exact Hl |]. split; [exact Hc |].
  unfold ATCSystem.clear_old_instructions.
  cbn [ATCSystem.instructions ATCSystem.instruction_count].
  split; [reflexivity |]. split.
  - apply List.filter_length_le.
  - clear Hl Hc Hst'.
    induction (ATCSystem.instructions (fst st')) as [| i log IH]; [constructor |].
    cbn [List.filter].
    destruct (Rgeb (ATCInstruction.timestamp i) before) eqn:Hkeep; [| exact IH].
    constructor; [apply Rleb_true, Hkeep | exact IH].
Qed.

(** ** The cooldown and the log *)

(** Right after [i] is logged, the scan stops on it. *)
Lemma recently_after_issue (s : ATCSystem.t) (i : ATCInstruction.t)
    (c1 c2 : string) (later w : R) :
  later - ATCInstruction.timestamp i <= w ->
  names_either c1 c2 i ->
  ATCSystem._recently_instructed (logged i s) c1 c2 later w = true.
Proof.
  intros Hw Hname. unfold ATCSystem._recently_instructed, ATCSystem.last_n, logged.
  cbn [ATCSystem.instructions].
  rewrite length_app, drop_app_le by (simpl; lia).
  rewrite reverse_snoc. cbn [ATCSystem.recent_scan].
  unfold Rgtb. rewrite (proj2 (Rltb_false _ _)) by lra.
  rewrite bool_decide_eq_true_2; [reflexivity |].
  destruct Hname as [-> | ->];
    [apply list_elem_of_here | apply list_elem_of_further, list_elem_of_here].
Qed.

(** X17.  An instruction starts the cooldown of its pair.  When
    resolving a conflict at time [now] has issued an instruction,
    resolving the same conflict again at any time up to 60 s later
    changes nothing: neither the log nor any aircraft. *)
Theorem X17_instruction_starts_cooldown
    (conflict : Conflict.t) (now later : R) (st st' : ATCSystem.state)
    (Hres : ATCSystem._resolve_conflict conflict now st = Some st')
    (Hissued : ATCSystem.instructions (fst st') <> ATCSystem.instructions (fst st))
    (Hlater : later - now <= 60) :
  ATCSystem._recently_instructed (fst st') (Conflict.aircraft1 conflict)
    (Conflict.aircraft2 conflict) later 60.0 = true
  /\ ATCSystem._resolve_conflict conflict later st' = Some st'.
Proof.
  assert (Hrecent :
            ATCSystem._recently_instructed (fst st') (Conflict.aircraft1 conflict)
              (Conflict.aircraft2 conflict) later 60.0 = true);
    [| split; [exact Hrecent | apply resolve_recent, Hrecent]].
  destruct (ATCSystem.find_aircraft (Conflict.aircraft1 conflict) (snd st))
    as [[i1 a1] |] eqn:H1;
    [| rewrite resolve_not_found in Hres by (left; exact H1);
       injection Hres as <-; contradiction].
  destruct (ATCSystem.find_aircraft (Conflict.aircraft2 conflict) (snd st))
    as [[i2 a2] |] eqn:H2;
    [| rewrite resolve_not_found in Hres by (right; exact H2);
       injection Hres as <-; contradiction].
  rewrite (resolve_found conflict now st _ _ H1 H2) in Hres.
  apply find_aircraft_some in H1 as [_ Hc1]. apply find_aircraft_some in H2 as [_ Hc2].
  destruct (ATCSystem._recently_instructed _ _ _ _ _);
    [injection Hres as <-; contradiction |].
  assert (Hlow : Aircraft.callsign (snd (lower_of (i1, a1) (i2, a2)))
                 = Conflict.aircraft1 conflict
                 \/ Aircraft.callsign (snd (lower_of (i1, a1) (i2, a2)))
                    = Conflict.aircraft2 conflict).
  { unfold lower_of. destruct (Rltb _ _); [left | right]; assumption. }
  assert (Hhigh : Aircraft.callsign (snd (higher_of (i1, a1) (i2, a2)))
                  = Conflict.aircraft1 conflict
                  \/ Aircraft.callsign (snd (higher_of (i1, a1) (i2, a2)))
                     = Conflict.aircraft2 conflict).
  { unfold higher_of. destruct (Rltb _ _); [right | left]; assumption. }
  destruct (Rgeb _ _); [| destruct (Rleb _ _)]; injection Hres as <-;
    unfold altitude_issued, heading_issued; cbn [fst];
    apply recently_after_issue; cbn [ATCInstruction.timestamp altitude_change
                                       heading_change]; try lra.
  - exact Hlow.
  - exact Hhigh.
  - left. exact Hc1.
Qed.

Lemma X17_instruction_starts_cooldown_witness :
  ATCSystem._resolve_conflict scenario_conflict 30
    (altitude_issued (1%nat, AAL200) 0 (35000 - 2000 - 1000) scenario_conflict
       scenario_state)
  = Some (altitude_issued (1%nat, AAL200) 0 (35000 - 2000 - 1000) scenario_conflict
            scenario_state).
Proof.
  apply (X17_instruction_starts_cooldown scenario_conflict 0 30 scenario_state).
  - rewrite (resolve_found scenario_conflict 0 scenario_state (0%nat, UAL100)
               (1%nat, AAL200) eq_refl eq_refl).
    assert (Hl : lower_of (0%nat, UAL100) (1%nat, AAL200) = (1%nat, AAL200)).
    { unfold lower_of. simpl. eval_Rcmp. reflexivity. }
    assert (Hr : required_vertical (0%nat, UAL100) (1%nat, AAL200) = 2000).
    { unfold required_vertical. simpl fst. simpl snd.
      rewrite requirements_35000 by apply scenario_head_on. simpl. lra. }
    assert (Hd : down_shift (0%nat, UAL100) (1%nat, AAL200) = 35000 - 2000 - 1000).
    { unfold down_shift. rewrite Hl, Hr. reflexivity. }
    rewrite Hd, Hl.
    replace (ATCSystem._recently_instructed (fst scenario_state)
               (Conflict.aircraft1 scenario_conflict)
               (Conflict.aircraft2 scenario_conflict) 0 60.0)
      with false by reflexivity.
    unfold Aircraft.MIN_ALTITUDE. eval_Rcmp. reflexivity.
  - simpl. discriminate.
  - lra.
Defined.

(** Before an instruction that is too old the scan has stopped. *)
Lemma recent_scan_before_expired (c1 c2 : string) (now w : R)
    (l1 l2 : list ATCInstruction.t) :
  Forall (fun i => now - ATCInstruction.timestamp i > w) l2 ->
  ATCSystem.recent_scan c1 c2 now w (l1 ++ l2) = ATCSystem.recent_scan c1 c2 now w l1.
Proof.
  intros Hold. induction l1 as [| i l1 IH].
  - destruct Hold as [| i l2 Hi _]; [reflexivity |].
    cbn [app ATCSystem.recent_scan]. unfold Rgtb.
    rewrite (proj2 (Rltb_true _ _)) by lra. reflexivity.
  - cbn [app ATCSystem.recent_scan]. rewrite IH. reflexivity.
Qed.

Lemma last_n_scan (c1 c2 : string) (now w : R) (pre suf : list ATCInstruction.t) :
  Forall (fun i => now - ATCInstruction.timestamp i > w) pre ->
  ATCSystem.recent_scan c1 c2 now w (reverse (ATCSystem.last_n 20 (pre ++ suf)))
  = ATCSystem.recent_scan c1 c2 now w (reverse (ATCSystem.last_n 20 suf)).
Proof.
  intros Hold. unfold ATCSystem.last_n.
  rewrite length_app, drop_app, reverse_app.
  rewrite recent_scan_before_expired by (apply Forall_reverse, Forall_drop, Hold).
  replace (length pre + length suf - 20 - length pre)%nat
    with (length suf - 20)%nat by lia.
  reflexivity.
Qed.

Lemma chronological_tail (x : ATCInstruction.t) (log : list ATCInstruction.t) :
  chronological (x :: log) ->
  chronological log
  /\ Forall (fun y => ATCInstruction.timestamp x <= ATCInstruction.timestamp y) log.
Proof.
  intros Hc. split.
  - intros i j a b Hij Ha Hb. apply (Hc (S i) (S j) a b); [lia | exact Ha | exact Hb].
  - apply Forall_lookup_2. intros j y Hy.
    apply (Hc 0%nat (S j) x y); [lia | reflexivity | exact Hy].
Qed.

(** On a log in issuing order, [clear_old_instructions] keeps a suffix
    and drops instructions stamped before the given time only. *)
Lemma clear_keeps_suffix (before : R) (log : list ATCInstruction.t) :
  chronological log ->
  exists k : nat,
    List.filter (fun inst => Rgeb (ATCInstruction.timestamp inst) before) log
    = drop k log
    /\ Forall (fun i => ATCInstruction.timestamp i < before) (take k log).
Proof.
  induction log as [| x log IH]; intros Hc.
  - exists 0%nat. split; [reflexivity | constructor].
  - destruct (chronological_tail x log Hc) as [Hc' Hafter].
    cbn [List.filter].
    destruct (Rgeb (ATCInstruction.timestamp x) before) eqn:Hkeep.
    + apply Rleb_true in Hkeep. exists 0%nat. split; [| constructor].
      cbn [drop]. f_equal. clear IH Hc Hc'.
      induction Hafter as [| y log Hy _ IH]; [reflexivity |].
      cbn [List.filter]. unfold Rgeb at 1.
      rewrite (proj2 (Rleb_true _ _)) by lra. f_equal. exact IH.
    + apply Rleb_false in Hkeep. destruct (IH Hc') as (k & Hf & Hold).
      exists (S k). split; [exact Hf |]. cbn [take]. constructor; [lra | exact Hold].
Qed.

(** X18.  Clearing what the cooldown no longer looks at.  On a log in
    issuing order, [clear_old_instructions] with a time that is no
    later than [current_time - window] does not change any answer of
    [_recently_instructed] for that time and window. *)
Theorem X18_clearing_keeps_cooldown
    (s : ATCSystem.t) (c1 c2 : string) (now window before : R)
    (Hchrono : chronological (ATCSystem.instructions s))
    (Hbefore : before <= now - window) :
  ATCSystem._recently_instructed (ATCSystem.clear_old_instructions before s)
    c1 c2 now window
  = ATCSystem._recently_instructed s c1 c2 now window.
Proof.
  unfold ATCSystem._recently_instructed, ATCSystem.clear_old_instructions.
  cbn [ATCSystem.instructions].
  destruct (clear_keeps_suffix before (ATCSystem.instructions s) Hchrono)
    as (k & -> & Hold).
  rewrite <- (take_drop k (ATCSystem.instructions s)) at 2.
  symmetry. apply last_n_scan.
  eapply Forall_impl; [exact Hold |]. intros i Hi. simpl in Hi. lra.
Qed.

Lemma X18_clearing_keeps_cooldown_witness :
  ATCSystem._recently_instructed
    (ATCSystem.clear_old_instructions 70 (fst cooling_state)) "UAL100" "AAL200" 130 60
  = ATCSystem._recently_instructed (fst cooling_state) "UAL100" "AAL200" 130 60.
Proof.
  apply (X18_clearing_keeps_cooldown (fst cooling_state) "UAL100" "AAL200" 130 60 70).
  - apply (log_upto_snoc 100 [] (heading_change UAL100 100 120 scenario_conflict)
             (log_upto_init 100 Airspace.init) eq_refl).
  - lra.
Defined.

(** ** Statistics *)

#[global] Instance Priority_eq_dec : EqDecision Priority.
Proof. solve_decision. Defined.

(** The loop of [get_statistics] on one of its two dicts. *)
Definition tally (key : ATCInstruction.t -> string) (log : list ATCInstruction.t)
    (d : gmap string nat) : gmap string nat :=
  foldl (fun d instruction => ATCSystem.count_up (key instruction) d) d log.

Definition type_key (i : ATCInstruction.t) : string :=
  ATCSystem.instruction_type_value (ATCInstruction.instruction_type i).
Definition priority_key (i : ATCInstruction.t) : string :=
  ATCSystem.priority_value (ATCInstruction.priority i).

(** How many instructions of the log have key [k]. *)
Definition occurrences (key : ATCInstruction.t -> string) (k : string)
    (log : list ATCInstruction.t) : nat :=
  length (List.filter (fun i => bool_decide (key i = k)) log).

Lemma statistics_loop (log : list ATCInstruction.t) (d1 d2 : gmap string nat) :
  foldl
    (fun '(by_type, by_priority) instruction =>
       let inst_type :=
         ATCSystem.instruction_type_value (ATCInstruction.instruction_type instruction) in
       let priority := ATCSystem.priority_value (ATCInstruction.priority instruction) in
       (ATCSystem.count_up inst_type by_type, ATCSystem.count_up priority by_priority))
    (d1, d2) log
  = (tally type_key log d1, tally priority_key log d2).
Proof.
  revert d1 d2. induction log as [| i log IH]; intros d1 d2; [reflexivity |].
  cbn [foldl]. rewrite IH. reflexivity.
Qed.

Lemma tally_lookup (key : ATCInstruction.t -> string) (log : list ATCInstruction.t)
    (d : gmap string nat) (k : string) :
  tally key log d !! k
  = if (occurrences key k log =? 0)%nat then d !! k
    else Some (default 0%nat (d !! k) + occurrences key k log)%nat.
Proof.
  revert d. induction log as [| i log IH]; intros d; [reflexivity |].
  unfold tally in *. cbn [foldl]. rewrite IH. clear IH.
  unfold occurrences. cbn [List.filter]. unfold ATCSystem.count_up.
  destruct (decide (key i = k)) as [Heq | Hne].
  - rewrite (bool_decide_eq_true_2 _ Heq). cbn [length]. rewrite Heq.
    rewrite lookup_insert_eq. cbn [default].
    destruct (length _ =? 0)%nat eqn:Hz.
    + apply Nat.eqb_eq in Hz. rewrite Hz. cbn. f_equal; lia.
    + cbn. f_equal; lia.
  - rewrite (bool_decide_eq_false_2 _ Hne).
    rewrite lookup_insert_ne by exact Hne. reflexivity.
Qed.

Lemma type_key_occurrences (ty : InstructionType) (log : list ATCInstruction.t) :
  occurrences type_key (ATCSystem.instruction_type_value ty) log
  = length (List.filter
              (fun i => bool_decide (ATCInstruction.instruction_type i = ty)) log).
Proof.
  unfold occurrences. f_equal. apply List.filter_ext. intros i.
  apply bool_decide_ext. unfold type_key. split; [| intros ->; reflexivity].
  destruct (ATCInstruction.instruction_type i), ty; simpl; congruence.
Qed.

Lemma priority_key_occurrences (p : Priority) (log : list ATCInstruction.t) :
  occurrences priority_key (ATCSystem.priority_value p) log
  = length (List.filter (fun i => bool_decide (ATCInstruction.priority i = p)) log).
Proof.
  unfold occurrences. f_equal. apply List.filter_ext. intros i.
  apply bool_decide_ext. unfold priority_key. split; [| intros ->; reflexivity].
  destruct (ATCInstruction.priority i), p; simpl; congruence.
Qed.

(** X19.  [get_statistics] counts the log: the total is its length;
    under the value of an instruction type, [by_type] holds the number
    of logged instructions of that type, and has no entry when there
    is none; likewise [by_priority]. *)
Theorem X19_statistics_count_the_log
    (s : ATCSystem.t) (ty : InstructionType) (p : Priority) :
  let stats := ATCSystem.get_statistics s in
  let of_type :=
    length (List.filter
              (fun i => bool_decide (ATCInstruction.instruction_type i = ty))
              (ATCSystem.instructions s)) in
  let of_priority :=
    length (List.filter (fun i => bool_decide (ATCInstruction.priority i = p))
              (ATCSystem.instructions s)) in
  ATCSystem.total_instructions stats = length (ATCSystem.instructions s)
  /\ ATCSystem.by_type stats !! ATCSystem.instruction_type_value ty
     = (if (of_type =? 0)%nat then None else Some of_type)
  /\ ATCSystem.by_priority stats !! ATCSystem.priority_value p
     = (if (of_priority =? 0)%nat then None else Some of_priority).
Proof.
  cbv zeta. rewrite <- type_key_occurrences, <- priority_key_occurrences.
  unfold ATCSystem.get_statistics.
  destruct (ATCSystem.instructions s) as [| i log] eqn:Hlog.
  - cbn. rewrite !lookup_empty. auto.
  - rewrite statistics_loop.
    cbn [ATCSystem.total_instructions ATCSystem.by_type ATCSystem.by_priority].
    split; [reflexivity |].
    rewrite !tally_lookup, !lookup_empty. cbn [default].
    split; destruct (occurrences _ _ _ =? 0)%nat; reflexivity.
Qed.

(** ** Unique callsigns: every conflict is resolved by altitude *)

Lemma find_aircraft_unique (l : list Aircraft.t) (i : nat) (a : Aircraft.t) :
  NoDup (Aircraft.callsign <$> l) -> l !! i = Some a ->
  ATCSystem.find_aircraft (Aircraft.callsign a) l = Some (i, a).
Proof.
  intros Hnd Hi. unfold ATCSystem.find_aircraft. apply list_find_Some.
  split; [exact Hi |]. split; [reflexivity |].
  intros j y Hj Hlt Hy.
  assert (i = j); [| lia].
  apply (NoDup_lookup _ i j (Aircraft.callsign a) Hnd);
    rewrite list_lookup_fmap; [rewrite Hi | rewrite Hj, <- Hy]; reflexivity.
Qed.

Lemma retargeted_callsigns (l l' : list Aircraft.t) :
  Forall2 retargeted l l' -> Aircraft.callsign <$> l' = Aircraft.callsign <$> l.
Proof.
  induction 1 as [| a b l l' (Hcs & _) _ IH]; [reflexivity |].
  cbn [fmap list_fmap]. f_equal; assumption.
Qed.

(** A pair closer vertically than its required separation always has
    room for one of the two altitude shifts. *)
Lemma altitude_shift_available (ac1 ac2 : nat * Aircraft.t) :
  Rabs (Position.altitude (Aircraft.position (snd ac1))
        - Position.altitude (Aircraft.position (snd ac2)))
  < required_vertical ac1 ac2 ->
  Rgeb (down_shift ac1 ac2) Aircraft.MIN_ALTITUDE = false ->
  Rleb (up_shift ac1 ac2) Aircraft.MAX_ALTITUDE = true.
Proof.
  intros Hclose Hdown. apply Rleb_false in Hdown. apply Rleb_true.
  pose proof (required_vertical_bounds ac1 ac2) as Hrv.
  apply Rabs_def2 in Hclose as [Hlt Hgt].
  unfold down_shift, up_shift, lower_of, higher_of, Aircraft.MIN_ALTITUDE,
    Aircraft.MAX_ALTITUDE in *.
  destruct (Rltb _ _); lra.
Qed.

(** The instructions [added] were appended at time [now], and all are
    altitude changes. *)
Definition altitude_only (now : R) (s s' : ATCSystem.t) : Prop :=
  exists added : list ATCInstruction.t,
    ATCSystem.instructions s' = ATCSystem.instructions s ++ added
    /\ Forall (fun i => ATCInstruction.instruction_type i = ALTITUDE_CHANGE
                        /\ ATCInstruction.timestamp i = now) added.

Lemma altitude_only_refl (now : R) (s : ATCSystem.t) : altitude_only now s s.
Proof. exists []. split; [rewrite app_nil_r; reflexivity | constructor]. Qed.

Lemma altitude_only_trans (now : R) (s1 s2 s3 : ATCSystem.t) :
  altitude_only now s1 s2 -> altitude_only now s2 s3 -> altitude_only now s1 s3.
Proof.
  intros (l1 & H1 & F1) (l2 & H2 & F2). exists (l1 ++ l2). split.
  - rewrite H2, H1, app_assoc. reflexivity.
  - apply Forall_app. split; assumption.
Qed.

(** A conflict of two aircraft of [l] that are vertically closer than
    their required separation. *)
Definition close_conflict (l : list Aircraft.t) (c : Conflict.t) : Prop :=
  exists (i j : nat) (a b : Aircraft.t),
    l !! i = Some a /\ l !! j = Some b
    /\ Conflict.aircraft1 c = Aircraft.callsign a
    /\ Conflict.aircraft2 c = Aircraft.callsign b
    /\ Rabs (Position.altitude (Aircraft.position a)
             - Position.altitude (Aircraft.position b))
       < SeparationRequirements.vertical_ft (pair_requirements a b).

Lemma detected_close (self : Airspace.t) (l : list Aircraft.t) (lookahead : R) :
  Forall (close_conflict l) (fst (Airspace.detect_conflicts self l lookahead)).
Proof.
  apply Forall_forall. intros c Hc.
  apply detect_conflicts_elem in Hc as (i & j & a & b & _ & Hi & Hj & Hpair).
  apply check_pair_iff in Hpair as (t & _ & _ & Hv & ->).
  exists i, j, a, b. repeat split; try assumption.
Qed.

Lemma resolve_close (l : list Aircraft.t) (c : Conflict.t) (now : R)
    (st st' : ATCSystem.state) :
  NoDup (Aircraft.callsign <$> l) -> Forall2 retargeted l (snd st) ->
  close_conflict l c ->
  ATCSystem._resolve_conflict c now st = Some st' ->
  altitude_only now (fst st) (fst st').
Proof.
  intros Hnd Hl (i & j & a & b & Hi & Hj & Hc1 & Hc2 & Hclose) Hres.
  destruct (Forall2_lookup_l _ _ _ _ _ Hl Hi) as (a' & Hi' & Ha).
  destruct (Forall2_lookup_l _ _ _ _ _ Hl Hj) as (b' & Hj' & Hb).
  destruct Ha as (Hcsa & Hpa & _). destruct Hb as (Hcsb & Hpb & _).
  assert (Hnd' : NoDup (Aircraft.callsign <$> snd st))
    by (rewrite (retargeted_callsigns _ _ Hl); exact Hnd).
  pose proof (find_aircraft_unique _ _ _ Hnd' Hi') as H1.
  pose proof (find_aircraft_unique _ _ _ Hnd' Hj') as H2.
  rewrite Hcsa, <- Hc1 in H1. rewrite Hcsb, <- Hc2 in H2.
  rewrite (resolve_found c now st _ _ H1 H2) in Hres.
  destruct (ATCSystem._recently_instructed _ _ _ _ _);
    [injection Hres as <-; apply altitude_only_refl |].
  assert (Hroom : Rgeb (down_shift (i, a') (j, b')) Aircraft.MIN_ALTITUDE = false ->
                  Rleb (up_shift (i, a') (j, b')) Aircraft.MAX_ALTITUDE = true).
  { apply altitude_shift_available.
    unfold required_vertical, pair_requirements, avg_altitude. cbn [snd].
    rewrite Hpa, Hpb. exact Hclose. }
  destruct (Rgeb _ _); [| rewrite (Hroom eq_refl) in Hres]; injection Hres as <-;
    unfold altitude_issued, logged; cbn [fst ATCSystem.instructions];
    eexists; (split; [reflexivity |]); repeat constructor.
Qed.

Lemma resolve_all_close (l : list Aircraft.t) (cs : list Conflict.t) (now : R)
    (st st' : ATCSystem.state) :
  NoDup (Aircraft.callsign <$> l) -> Forall2 retargeted l (snd st) ->
  Forall (close_conflict l) cs ->
  ATCSystem.resolve_all cs now st = Some st' ->
  altitude_only now (fst st) (fst st').
Proof.
  intros Hnd Hl Hcs. revert st Hl.
  induction Hcs as [| c cs Hc _ IH]; intros st Hl Hall.
  - injection Hall as <-. apply altitude_only_refl.
  - cbn [ATCSystem.resolve_all] in Hall.
    destruct (bool_decide _); [| apply IH; assumption].
    destruct (ATCSystem._resolve_conflict c now st) as [st1 |] eqn:Hres;
      [| discriminate].
    cbn in Hall.
    apply (altitude_only_trans now _ (fst st1)).
    + apply (resolve_close l c now st st1); assumption.
    + apply IH; [| exact Hall].
      destruct (resolve_effect c now st st1 Hres) as [Hf _].
      eapply Forall2_retargeted_trans; eassumption.
Qed.

(** X20.  With unique callsigns the controller resolves by altitude
    alone.  Every conflict [detect_conflicts] reports has its two
    aircraft vertically closer than the required separation, and such
    a pair always has room for the down-shift or for the up-shift; so
    every instruction one [update] appends is an ALTITUDE_CHANGE
    stamped with the current time, and the heading fallback is never
    taken. *)
Theorem X20_update_resolves_by_altitude
    (now : R) (s : ATCSystem.t) (l : list Aircraft.t)
    (Hunique : NoDup (Aircraft.callsign <$> l)) :
  exists (st' : ATCSystem.state) (added : list ATCInstruction.t),
    ATCSystem.update now (s, l) = Some st'
    /\ ATCSystem.instructions (fst st') = ATCSystem.instructions s ++ added
    /\ Forall (fun i => ATCInstruction.instruction_type i = ALTITUDE_CHANGE
                        /\ ATCInstruction.timestamp i = now) added.
Proof.
  destruct (update_total now (s, l)) as (st' & Hst').
  exists st'.
  pose proof Hst' as Hup. unfold ATCSystem.update in Hup.
  pose proof (detected_close (ATCSystem.airspace s) l 300.0) as Hclose.
  destruct (Airspace.detect_conflicts (ATCSystem.airspace s) l 300.0)
    as [cs airspace].
  cbn [fst] in Hclose.
  destruct (resolve_all_close l cs now
              (ATCSystem.mk airspace (ATCSystem.instructions s)
                 (ATCSystem.instruction_count s), l)
              st' Hunique (Forall2_retargeted_refl l) Hclose Hup)
    as (added & Hlog & Hall).
  exists added. split; [exact Hst' |]. split; [exact Hlog | exact Hall].
Qed.

Lemma X20_update_resolves_by_altitude_witness :
  exists (st' : ATCSystem.state) (added : list ATCInstruction.t),
    ATCSystem.update 340
      (ATCSystem.init Airspace.init, [cruise 340 UAL100; cruise 340 AAL200])
    = Some st'
    /\ ATCSystem.instructions (fst st')
       = ATCSystem.instructions (ATCSystem.init Airspace.init) ++ added
    /\ Forall (fun i => ATCInstruction.instruction_type i = ALTITUDE_CHANGE
                        /\ ATCInstruction.timestamp i = 340) added.
Proof.
  apply (X20_update_resolves_by_altitude 340 (ATCSystem.init Airspace.init)
           [cruise 340 UAL100; cruise 340 AAL200]).
  cbn [fmap list_fmap]. rewrite !cruise_callsign.
  apply NoDup_cons. split; [| apply NoDup_singleton].
  intros H. apply list_elem_of_singleton in H. discriminate.
Defined.

(** ** What the safety monitor records *)

(** A record of a pair that was inside both standard minima. *)
Definition below_minima (v : SeparationViolation.t) : Prop :=
  0 <= SeparationViolation.horizontal_separation v < 5
  /\ 0 <= SeparationViolation.vertical_separation v < 2000.

Lemma violating_below_minima (now : R) (p : Aircraft.t * Aircraft.t) :
  violating p -> below_minima (new_violation now p).
Proof.
  unfold violating. intros Hv.
  assert (Hnot : ~ (horizontal_of (fst p) (snd p)
                    >= SeparationRequirements.horizontal_nm
                         (pair_requirements (fst p) (snd p))
                    \/ vertical_of (fst p) (snd p)
                       >= SeparationRequirements.vertical_ft
                            (pair_requirements (fst p) (snd p)))).
  { intros H. apply is_separated_iff in H. congruence. }
  unfold pair_requirements in Hnot. rewrite standard_horizontal in Hnot.
  pose proof (standard_vertical_bounds (avg_altitude (fst p) (snd p))) as Hb.
  unfold below_minima, new_violation.
  cbn [SeparationViolation.horizontal_separation
       SeparationViolation.vertical_separation].
  assert (0 <= horizontal_of (fst p) (snd p)) by apply sqrt_pos.
  assert (0 <= vertical_of (fst p) (snd p)) by apply Rabs_pos.
  split; split; try assumption.
  - destruct (Rlt_dec (horizontal_of (fst p) (snd p)) 5); [assumption |].
    exfalso. apply Hnot. left. lra.
  - destruct (Rlt_dec (vertical_of (fst p) (snd p)) 2000); [assumption |].
    exfalso. apply Hnot. right. lra.
Qed.

Lemma violation_step_below (now : R) (self : SafetyEvaluator.t)
    (cur : gset (string * string)) (p : Aircraft.t * Aircraft.t) :
  Forall below_minima (SafetyEvaluator.violations self) ->
  Forall below_minima
    (SafetyEvaluator.violations
       (fst (SafetyEvaluator.violation_step now (self, cur) p))).
Proof.
  intros Hall.
  destruct (violation_step_cases now self cur p)
    as [[_ ->] | [(Hv & _ & ->) | (i & _ & _ & ->)]]; cbn [fst].
  - exact Hall.
  - cbn. apply Forall_app. split; [exact Hall |].
    constructor; [apply violating_below_minima, Hv | constructor].
  - cbn. apply Forall_alter; [exact Hall |]. intros v _ Hb. exact Hb.
Qed.

Lemma violation_fold_below (now : R) (pairs : list (Aircraft.t * Aircraft.t))
    (acc : SafetyEvaluator.t * gset (string * string)) :
  Forall below_minima (SafetyEvaluator.violations (fst acc)) ->
  Forall below_minima
    (SafetyEvaluator.violations
       (fst (foldl (SafetyEvaluator.violation_step now) acc pairs))).
Proof.
  revert acc. induction pairs as [| p pairs IH]; intros [self cur] Hall;
    [exact Hall |].
  cbn [foldl]. apply IH.
  destruct (SafetyEvaluator.violation_step now (self, cur) p) as [self' cur'] eqn:Hs.
  change self' with (fst (self', cur')). rewrite <- Hs.
  apply violation_step_below, Hall.
Qed.

(** The running minimum of [min_separation_achieved], started at [m]. *)
Definition min_from (m : efloat) (vs : list SeparationViolation.t) : efloat :=
  foldl
    (fun m v =>
       if r_ltb_ef (SeparationViolation.horizontal_separation v) m
       then Fin (SeparationViolation.horizontal_separation v) else m)
    m vs.

Lemma min_from_spec (vs : list SeparationViolation.t) (m : efloat) :
  match min_from m vs with
  | Inf => m = Inf /\ vs = []
  | Fin r =>
      (m = Fin r
       \/ exists v, v ∈ vs /\ SeparationViolation.horizontal_separation v = r)
      /\ (forall v, v ∈ vs -> r <= SeparationViolation.horizontal_separation v)
      /\ match m with Fin x => r <= x | Inf => True end
  end.
Proof.
  revert m. induction vs as [| v vs IH]; intros m.
  - cbn. destruct m as [x |]; [| tauto].
    split; [left; reflexivity |]. split; [| lra].
    intros v Hv. inversion Hv.
  - unfold min_from in *. cbn [foldl].
    set (h := SeparationViolation.horizontal_separation v).
    specialize (IH (if r_ltb_ef h m then Fin h else m)).
    destruct (foldl _ _ vs) as [r |].
    + destruct IH as (Hfrom & Hlow & Hm).
      assert (Hrh : r <= h /\ match m with Fin x => r <= x | Inf => True end).
      { destruct m as [x |]; cbn [r_ltb_ef] in Hm.
        - case_Rltb h x; lra.
        - split; [exact Hm | exact I]. }
      destruct Hrh as [Hrh Hrm].
      split; [| split; [| exact Hrm]].
      * destruct Hfrom as [Hfrom | (v' & Hv' & Hr)].
        -- destruct (r_ltb_ef h m).
           ++ right. exists v. split; [apply list_elem_of_here |].
              injection Hfrom as <-. reflexivity.
           ++ left. exact Hfrom.
        -- right. exists v'. split; [apply list_elem_of_further, Hv' | exact Hr].
      * intros v' Hv'. apply elem_of_cons in Hv' as [-> | Hv'];
          [exact Hrh | apply Hlow, Hv'].
    + destruct IH as [Hm _]. exfalso.
      destruct m as [x |]; cbn [r_ltb_ef] in Hm; [| discriminate Hm].
      destruct (Rltb h x) eqn:Hcmp; discriminate Hm.
Qed.

(** X21.  What the history holds.  Every record [update] adds is of a
    pair closer than 5 NM and closer than 2000 ft, so a history of
    such records stays one; and [min_separation_achieved] is infinite
    exactly on the empty history, and otherwise the least recorded
    horizontal separation, which is below 5 NM. *)
Theorem X21_history_is_below_minima
    (l : list Aircraft.t) (now : R) (atc : option ATCSystem.t)
    (self : SafetyEvaluator.t)
    (Hinv : Forall below_minima (SafetyEvaluator.violations self)) :
  let after := SafetyEvaluator.update l now atc self in
  Forall below_minima (SafetyEvaluator.violations after)
  /\ match SafetyEvaluator.min_separation_achieved after with
     | Inf => SafetyEvaluator.violations after = []
     | Fin r =>
         0 <= r < 5
         /\ (exists v, v ∈ SafetyEvaluator.violations after
                       /\ SeparationViolation.horizontal_separation v = r)
         /\ (forall v, v ∈ SafetyEvaluator.violations after ->
                       r <= SeparationViolation.horizontal_separation v)
     end.
Proof.
  intros after.
  assert (Hafter : Forall below_minima (SafetyEvaluator.violations after)).
  { subst after.
    destruct (update_fields l now atc self) as (self0 & Hv0 & _ & _ & -> & _).
    destruct (check_violations_history l now self0) as [-> _].
    apply violation_fold_below. cbn [fst]. rewrite Hv0. exact Hinv. }
  split; [exact Hafter |].
  pose proof (min_from_spec (SafetyEvaluator.violations after) Inf) as Hmin.
  change (min_from Inf (SafetyEvaluator.violations after))
    with (SafetyEvaluator.min_separation_achieved after) in Hmin.
  destruct (SafetyEvaluator.min_separation_achieved after) as [r |].
  - destruct Hmin as ([Hinf | (v & Hv & Hr)] & Hlow & _); [discriminate |].
    split; [| split; [exists v; split; assumption | exact Hlow]].
    rewrite Forall_forall in Hafter. destruct (Hafter v Hv) as [Hh _].
    rewrite <- Hr. exact Hh.
  - apply Hmin.
Qed.

Lemma X21_history_is_below_minima_witness :
  Forall below_minima (SafetyEvaluator.violations tick1).
Proof.
  apply (X21_history_is_below_minima [ac_A; ac_B 3] 0 None SafetyEvaluator.init).
  constructor.
Defined.

Lemma min_ratio_close (a b : Aircraft.t) :
  min_ratio a b < 1.5 <->
  horizontal_of a b
  < 1.5 * SeparationRequirements.horizontal_nm (pair_requirements a b)
  \/ 0 < vertical_of a b
         < 1.5 * SeparationRequirements.vertical_ft (pair_requirements a b).
Proof.
  unfold min_ratio, SafetyEvaluator.min_ratio_of, SafetyEvaluator.v_ratio_of,
    pair_requirements, Rgtb, py_min.
  rewrite standard_horizontal.
  set (h := horizontal_of a b). set (v := vertical_of a b).
  destruct (Rlt_dec (avg_altitude a b) 29000) as [Hlow | Hhigh].
  - rewrite standard_vertical_low by exact Hlow.
    case_Rltb 0 v; [case_Rltb (v / 1000) (h / 5) |]; split; intros H;
      try (destruct H as [H | H]); try lra; (left; lra) || (right; lra).
  - rewrite standard_vertical_high by lra.
    case_Rltb 0 v; [case_Rltb (v / 2000) (h / 5) |]; split; intros H;
      try (destruct H as [H | H]); try lra; (left; lra) || (right; lra).
Qed.

(** X22.  A near miss needs only one axis to be close.  A pair gets a
    near-miss record exactly when it is separated and either its
    horizontal distance is below 1.5 times the horizontal minimum or
    its vertical separation is positive and below 1.5 times the
    vertical minimum: two aircraft at different levels less than 1.5
    minima apart are a near miss however far apart they are
    horizontally, and two aircraft at the same level only when they
    are within 7.5 NM. *)
Theorem X22_near_miss_on_either_axis (now : R) (a b : Aircraft.t) :
  let req := pair_requirements a b in
  (is_Some (SafetyEvaluator.near_miss_of now (a, b)) <->
   Airspace.is_separated a b = true
   /\ (horizontal_of a b < 1.5 * SeparationRequirements.horizontal_nm req
       \/ 0 < vertical_of a b < 1.5 * SeparationRequirements.vertical_ft req))
  /\ (vertical_of a b = 0 ->
      (is_Some (SafetyEvaluator.near_miss_of now (a, b)) <->
       5 <= horizontal_of a b < 7.5)).
Proof.
  intros req.
  assert (Hiff : is_Some (SafetyEvaluator.near_miss_of now (a, b)) <->
                 Airspace.is_separated a b = true
                 /\ (horizontal_of a b
                     < 1.5 * SeparationRequirements.horizontal_nm req
                     \/ 0 < vertical_of a b
                            < 1.5 * SeparationRequirements.vertical_ft req)).
  { split.
    - intros [r Hr]. apply near_miss_of_iff in Hr as (Hsep & Hratio & _).
      split; [exact Hsep | apply min_ratio_close, Hratio].
    - intros (Hsep & Hclose). eexists. apply near_miss_of_iff.
      split; [exact Hsep |]. split; [apply min_ratio_close, Hclose | reflexivity]. }
  split; [exact Hiff |].
  intros Hlevel. rewrite Hiff, is_separated_iff. subst req.
  unfold pair_requirements. rewrite standard_horizontal, Hlevel.
  pose proof (standard_vertical_bounds (avg_altitude a b)) as Hb.
  split.
  - intros ([Hh | Hv] & [Hc | Hc]); lra.
  - intros Hh. split; left; lra.
Qed.

(** ** The safety rating *)

Lemma rating_unsafe_iff (metrics : SafetyMetrics.t) :
  SafetyEvaluator._calculate_safety_rating metrics = "UNSAFE" <->
  (0 < SafetyMetrics.violation_count metrics)%nat.
Proof.
  unfold SafetyEvaluator._calculate_safety_rating.
  destruct (0 <? SafetyMetrics.violation_count metrics)%nat eqn:Hc.
  - apply Nat.ltb_lt in Hc. tauto.
  - apply Nat.ltb_ge in Hc.
    split; [| lia].
    destruct (Rgtb _ 5.0); [discriminate |]. destruct (Rgtb _ 2.0); discriminate.
Qed.

Lemma update_history_grows (l : list Aircraft.t) (now : R)
    (atc : option ATCSystem.t) (self : SafetyEvaluator.t) :
  (length (SafetyEvaluator.violations self)
   <= length (SafetyEvaluator.violations (SafetyEvaluator.update l now atc self)))%nat.
Proof.
  destruct (update_fields l now atc self) as (self0 & Hv0 & _ & _ & -> & _).
  destruct (check_violations_history l now self0) as [-> _].
  unfold violation_loop. rewrite <- Hv0.
  set (before := SafetyEvaluator.violations self0).
  set (after := SafetyEvaluator.violations
                  (fst (foldl (SafetyEvaluator.violation_step now)
                          (self0, ∅) (all_pairs l)))).
  destruct (le_lt_dec (length before) (length after)) as [Hle | Hlt];
    [exact Hle | exfalso].
  assert (Hlast : is_Some (before !! (length before - 1)%nat))
    by (apply lookup_lt_is_Some; lia).
  destruct Hlast as [w Hw].
  destruct (violation_fold_history now (all_pairs l) (self0, ∅) _ w Hw)
    as (w' & Hw' & _).
  fold after in Hw'. apply lookup_lt_Some in Hw'. lia.
Qed.

(** X23.  UNSAFE is permanent.  The rating is UNSAFE exactly when the
    history of violations is not empty, whatever the near-miss rate;
    the history never gets shorter, so once the rating is UNSAFE it is
    UNSAFE after every later [update]. *)
Theorem X23_unsafe_is_permanent
    (l : list Aircraft.t) (now : R) (atc atc1 atc2 : option ATCSystem.t)
    (self : SafetyEvaluator.t)
    (Hunsafe : SafetyEvaluator._calculate_safety_rating
                 (SafetyEvaluator.calculate_metrics atc1 self) = "UNSAFE") :
  SafetyEvaluator.violations self <> []
  /\ SafetyEvaluator._calculate_safety_rating
       (SafetyEvaluator.calculate_metrics atc2
          (SafetyEvaluator.update l now atc self)) = "UNSAFE".
Proof.
  apply rating_unsafe_iff in Hunsafe.
  cbn [SafetyEvaluator.calculate_metrics SafetyMetrics.violation_count] in Hunsafe.
  split.
  - intros Hnil. rewrite Hnil in Hunsafe. simpl in Hunsafe. lia.
  - apply rating_unsafe_iff.
    cbn [SafetyEvaluator.calculate_metrics SafetyMetrics.violation_count].
    pose proof (update_history_grows l now atc self). lia.
Qed.

Lemma X23_unsafe_is_permanent_witness :
  SafetyEvaluator._calculate_safety_rating
    (SafetyEvaluator.calculate_metrics None tick2) = "UNSAFE".
Proof.
  apply (X23_unsafe_is_permanent [ac_A; ac_B 2] 1 None None None tick1).
  apply rating_unsafe_iff.
  cbn [SafetyEvaluator.calculate_metrics SafetyMetrics.violation_count].
  destruct tick1_state as [-> _]. simpl. lia.
Defined.

(** ** The simulator *)

Lemma update_retargets (now : R) (st : ATCSystem.state) :
  exists st' : ATCSystem.state,
    ATCSystem.update now st = Some st'
    /\ Forall2 retargeted (snd st) (snd st').
Proof.
  destruct (update_total now st) as (st' & Hst'). exists st'.
  split; [exact Hst' |].
  destruct st as [self l]. unfold ATCSystem.update, Airspace.detect_conflicts in Hst'.
  apply resolve_all_effect in Hst' as [Hf _]. exact Hf.
Qed.

Lemma retargeted_envelope (a a' : Aircraft.t) :
  retargeted a a' -> envelope_inv a -> envelope_inv a'.
Proof.
  intros (_ & Hp & Hv & Hfp & _ & _ & Ht) (Henv & Htargets & Hplan).
  unfold envelope_inv, in_envelope in *. rewrite Hp, Hv, Hfp. auto.
Qed.

Lemma retargeted_envelope_all (l l' : list Aircraft.t) :
  Forall2 retargeted l l' -> Forall envelope_inv l -> Forall envelope_inv l'.
Proof.
  induction 1 as [| a b l l' Hab _ IH]; intros Hall; [constructor |].
  inversion Hall as [| ? ? Ha Hl]; subst.
  constructor; [eapply retargeted_envelope; eassumption | apply IH, Hl].
Qed.

(** What one [step] does, component by component. *)
Lemma step_effect (self : Simulator.t) :
  exists (atc : ATCSystem.t) (l' : list Aircraft.t),
    ATCSystem.update (Simulator.current_time self)
      (Simulator.atc_system self,
       Aircraft.update (Simulator.time_step self) <$> Simulator.aircraft self)
    = Some (atc, l')
    /\ Forall2 retargeted
         (Aircraft.update (Simulator.time_step self) <$> Simulator.aircraft self) l'
    /\ Simulator.step self
       = Some (Simulator.mk atc
                 (SafetyEvaluator.update l' (Simulator.current_time self) (Some atc)
                    (Simulator.safety_evaluator self))
                 l'
                 (Simulator.current_time self + Simulator.time_step self)
                 (Simulator.update_frequency self) (Simulator.time_step self)).
Proof.
  destruct (update_retargets (Simulator.current_time self)
              (Simulator.atc_system self,
               Aircraft.update (Simulator.time_step self) <$> Simulator.aircraft self))
    as ([atc l'] & Hup & Hf).
  exists atc, l'. split; [exact Hup |]. split; [exact Hf |].
  unfold Simulator.step. rewrite Hup. reflexivity.
Qed.

Lemma steps_snoc (n : nat) (self : Simulator.t) :
  Simulator.steps (S n) self = self' ← Simulator.steps n self; Simulator.step self'.
Proof.
  revert self. induction n as [| n IH]; intros self.
  - cbn [Simulator.steps mbind option_bind].
    destruct (Simulator.step self); reflexivity.
  - change (Simulator.steps (S (S n)) self)
      with (s ← Simulator.step self; Simulator.steps (S n) s).
    destruct (Simulator.step self) as [s |] eqn:Hs.
    + cbn [mbind option_bind]. rewrite IH.
      cbn [Simulator.steps]. rewrite Hs. reflexivity.
    + cbn [Simulator.steps]. rewrite Hs. reflexivity.
Qed.

Lemma steps_effect (n : nat) (self : Simulator.t) :
  Forall envelope_inv (Simulator.aircraft self) ->
  exists self' : Simulator.t,
    Simulator.steps n self = Some self'
    /\ Forall envelope_inv (Simulator.aircraft self')
    /\ Aircraft.callsign <$> Simulator.aircraft self'
       = Aircraft.callsign <$> Simulator.aircraft self
    /\ Simulator.current_time self'
       = Simulator.current_time self + INR n * Simulator.time_step self
    /\ Simulator.time_step self' = Simulator.time_step self.
Proof.
  revert self. induction n as [| n IH]; intros self Hinv.
  - exists self. cbn [Simulator.steps INR]. repeat split; try assumption. lra.
  - destruct (step_effect self) as (atc & l' & _ & Hf & Hstep).
    cbn [Simulator.steps]. rewrite Hstep. cbn [mbind option_bind].
    match goal with
    | |- exists self', Simulator.steps n ?s1 = Some self' /\ _ =>
        destruct (IH s1) as (self' & Hrun & Hinv' & Hcs & Htime & Hdt)
    end.
    { cbn [Simulator.aircraft]. eapply retargeted_envelope_all; [exact Hf |].
      apply Forall_fmap. eapply Forall_impl; [exact Hinv |].
      intros a Ha. apply update_envelope, Ha. }
    exists self'. split; [exact Hrun |]. split; [exact Hinv' |].
    cbn [Simulator.aircraft Simulator.current_time Simulator.time_step] in Hcs, Htime, Hdt.
    split; [| split; [| exact Hdt]].
    + rewrite Hcs, (retargeted_callsigns _ _ Hf), <- list_fmap_compose.
      apply list_fmap_ext. intros i a _. apply update_callsign.
    + rewrite Htime, S_INR. ring.
Qed.

(** X24.  A whole run keeps every aircraft in the flight envelope.
    When every aircraft is inside the envelope, with its pending
    targets and the altitudes of its flight plan inside the limits,
    [run] returns (the time step not being zero), after
    int(duration / time_step) steps, with every aircraft inside the
    envelope, the same callsigns in the same order, and the clock
    advanced by that many time steps. *)
Theorem X24_run_keeps_every_aircraft_in_envelope
    (duration : R) (self : Simulator.t)
    (Hdt : Simulator.time_step self <> 0)
    (Hinv : Forall envelope_inv (Simulator.aircraft self)) :
  exists self' : Simulator.t,
    Simulator.run duration self = Some self'
    /\ Forall in_envelope (Simulator.aircraft self')
    /\ Aircraft.callsign <$> Simulator.aircraft self'
       = Aircraft.callsign <$> Simulator.aircraft self
    /\ Simulator.current_time self'
       = Simulator.current_time self
         + INR (Z.to_nat (py_int (duration / Simulator.time_step self)))
           * Simulator.time_step self.
Proof.
  unfold Simulator.run. destruct (Req_dec_T _ 0) as [Hz | _]; [contradiction |].
  destruct (steps_effect (Z.to_nat (py_int (duration / Simulator.time_step self)))
              self Hinv) as (self' & Hrun & Hinv' & Hcs & Htime & _).
  exists self'. split; [exact Hrun |]. split; [| split; assumption].
  eapply Forall_impl; [exact Hinv' |]. intros a Ha. apply Ha.
Qed.

(** [create_conflict_scenario] *)
Definition create_conflict_scenario (self : Simulator.t) : Simulator.t :=
  let ac1 := UAL100 in
  let ac2 := AAL200 in
  Simulator.add_aircraft ac2 (Simulator.add_aircraft ac1 self).

(** The simulator [Simulator()] builds, at 1 Hz. *)
Definition fresh_simulator : Simulator.t :=
  Simulator.mk (ATCSystem.init Airspace.init) SafetyEvaluator.init [] 0.0 1 (1.0 / 1).

Lemma init_fresh : Simulator.init None 1 = Some fresh_simulator.
Proof.
  unfold Simulator.init. destruct (Req_dec_T 1 0) as [H | _]; [lra | reflexivity].
Qed.

Lemma init_envelope (cs ty : string) (p : Position.t) (v : Velocity.t)
    (fp : list Waypoint.t) (st : AircraftStatus) :
  altitude_in_limits (Position.altitude p) ->
  speed_in_limits (Velocity.speed v) ->
  heading_in_range (Velocity.heading v) ->
  plan_in_limits fp ->
  envelope_inv (Aircraft.init cs p v fp ty st).
Proof.
  intros Halt Hspd Hhdg Hplan. split; [| split].
  - split; [exact Halt | split; [exact Hspd | exact Hhdg]].
  - split; [| split]; intros x Hx; discriminate Hx.
  - exact Hplan.
Qed.

Lemma scenario_envelope :
  Forall envelope_inv (Simulator.aircraft (create_conflict_scenario fresh_simulator)).
Proof.
  assert (Hlim : altitude_in_limits 35000)
    by (unfold altitude_in_limits, Aircraft.MIN_ALTITUDE, Aircraft.MAX_ALTITUDE; lra).
  assert (Hspd : speed_in_limits 450)
    by (unfold speed_in_limits, Aircraft.MIN_SPEED, Aircraft.MAX_SPEED; lra).
  assert (Hplan : forall wp0 : Waypoint.t,
            Waypoint.altitude wp0 = Some 35000 -> plan_in_limits [wp0]).
  { intros wp0 Hwp0 wp h Hin Hh. apply list_elem_of_singleton in Hin. subst wp.
    rewrite Hwp0 in Hh. injection Hh as <-. exact Hlim. }
  change (Simulator.aircraft (create_conflict_scenario fresh_simulator))
    with [UAL100; AAL200].
  apply Forall_cons. split; [| apply Forall_cons; split; [| constructor]].
  - apply init_envelope; [exact Hlim | exact Hspd | | apply Hplan; reflexivity].
    unfold heading_in_range. cbn [Velocity.heading]. lra.
  - apply init_envelope; [exact Hlim | exact Hspd | | apply Hplan; reflexivity].
    unfold heading_in_range. cbn [Velocity.heading]. lra.
Qed.

Lemma X24_run_keeps_every_aircraft_in_envelope_witness :
  exists self' : Simulator.t,
    Simulator.run 600 (create_conflict_scenario fresh_simulator) = Some self'
    /\ Forall in_envelope (Simulator.aircraft self')
    /\ Aircraft.callsign <$> Simulator.aircraft self' = ["UAL100"; "AAL200"].
Proof.
  destruct (X24_run_keeps_every_aircraft_in_envelope 600
              (create_conflict_scenario fresh_simulator))
    as (self' & Hrun & Henv & Hcs & _).
  - cbn [Simulator.time_step create_conflict_scenario Simulator.add_aircraft
         Simulator.with_aircraft fresh_simulator]. lra.
  - exact scenario_envelope.
  - exists self'. split; [exact Hrun |]. split; [exact Henv | exact Hcs].
Defined.

(** ** The duration the metrics report *)

Lemma violation_fold_times (now : R) (pairs : list (Aircraft.t * Aircraft.t))
    (acc : SafetyEvaluator.t * gset (string * string)) :
  SafetyEvaluator.simulation_start_time
    (fst (foldl (SafetyEvaluator.violation_step now) acc pairs))
  = SafetyEvaluator.simulation_start_time (fst acc)
  /\ SafetyEvaluator.simulation_end_time
       (fst (foldl (SafetyEvaluator.violation_step now) acc pairs))
     = SafetyEvaluator.simulation_end_time (fst acc).
Proof.
  revert acc. induction pairs as [| p pairs IH]; intros [self cur]; [split; reflexivity |].
  cbn [foldl]. destruct (IH (SafetyEvaluator.violation_step now (self, cur) p))
    as [-> ->].
  destruct (violation_step_cases now self cur p)
    as [[_ ->] | [(_ & _ & ->) | (i & _ & _ & ->)]]; split; reflexivity.
Qed.

(** The two clock fields after [update]: the end time is the current
    time; the start time is assigned as long as it still equals 0.0. *)
Lemma update_times (l : list Aircraft.t) (now : R) (atc : option ATCSystem.t)
    (self : SafetyEvaluator.t) :
  SafetyEvaluator.simulation_end_time (SafetyEvaluator.update l now atc self) = now
  /\ SafetyEvaluator.simulation_start_time (SafetyEvaluator.update l now atc self)
     = if Req_dec_T (SafetyEvaluator.simulation_start_time self) 0.0 then now
       else SafetyEvaluator.simulation_start_time self.
Proof.
  unfold SafetyEvaluator.update.
  match goal with
  | |- context [SafetyEvaluator._check_near_misses l now ?s1] =>
      set (checked := SafetyEvaluator._check_near_misses l now s1);
      assert (Htimes :
                SafetyEvaluator.simulation_end_time checked = now
                /\ SafetyEvaluator.simulation_start_time checked
                   = if Req_dec_T (SafetyEvaluator.simulation_start_time self) 0.0
                     then now else SafetyEvaluator.simulation_start_time self)
  end.
  { subst checked. unfold SafetyEvaluator._check_near_misses.
    rewrite near_miss_fold.
    cbn [SafetyEvaluator.with_near_misses SafetyEvaluator.simulation_end_time
         SafetyEvaluator.simulation_start_time].
    rewrite check_violations_unfold.
    cbn [SafetyEvaluator.with_active_violations SafetyEvaluator.simulation_end_time
         SafetyEvaluator.simulation_start_time].
    unfold violation_loop.
    match goal with
    | |- context [foldl (SafetyEvaluator.violation_step now) ?acc ?ps] =>
        destruct (violation_fold_times now ps acc) as [-> ->]
    end.
    split; reflexivity. }
  destruct atc; cbn [SafetyEvaluator.simulation_end_time
                     SafetyEvaluator.simulation_start_time]; exact Htimes.
Qed.

(** After [k + 1] steps of a simulator whose clock and recorded start
    time are both 0. *)
Lemma steps_times (k : nat) (self : Simulator.t) :
  Simulator.current_time self = 0 ->
  SafetyEvaluator.simulation_start_time (Simulator.safety_evaluator self) = 0 ->
  Simulator.time_step self <> 0 ->
  exists self' : Simulator.t,
    Simulator.steps (S k) self = Some self'
    /\ Simulator.current_time self' = INR (S k) * Simulator.time_step self
    /\ Simulator.time_step self' = Simulator.time_step self
    /\ SafetyEvaluator.simulation_end_time (Simulator.safety_evaluator self')
       = INR k * Simulator.time_step self
    /\ SafetyEvaluator.simulation_start_time (Simulator.safety_evaluator self')
       = match k with O => 0 | S _ => Simulator.time_step self end.
Proof.
  intros Hclock Hstart Hdt. induction k as [| k IH].
  - destruct (step_effect self) as (atc & l' & _ & _ & Hstep).
    cbn [Simulator.steps]. rewrite Hstep. cbn [mbind option_bind].
    eexists. split; [reflexivity |].
    cbn [Simulator.current_time Simulator.time_step Simulator.safety_evaluator].
    destruct (update_times l' (Simulator.current_time self) (Some atc)
                (Simulator.safety_evaluator self)) as [-> ->].
    rewrite Hclock, Hstart. cbn [INR].
    split; [lra |]. split; [reflexivity |]. split; [lra |].
    destruct (Req_dec_T 0 0.0); reflexivity.
  - destruct IH as (s & Hs & Hclock' & Hdt' & Hend & Hstart').
    rewrite steps_snoc, Hs. cbn [mbind option_bind].
    destruct (step_effect s) as (atc & l' & _ & _ & Hstep). rewrite Hstep.
    eexists. split; [reflexivity |].
    cbn [Simulator.current_time Simulator.time_step Simulator.safety_evaluator].
    destruct (update_times l' (Simulator.current_time s) (Some atc)
                (Simulator.safety_evaluator s)) as [-> ->].
    rewrite Hclock', Hdt', Hstart'.
    split; [rewrite (S_INR (S k)); ring |]. split; [reflexivity |].
    split; [reflexivity |].
    destruct k as [| k].
    + destruct (Req_dec_T 0 0.0) as [_ | Hne]; [cbn [INR]; lra | exfalso; lra].
    + destruct (Req_dec_T (Simulator.time_step self) 0.0) as [Hz | _];
        [exfalso; lra | reflexivity].
Qed.

(** X25.  The reported duration is two steps short.  [step] hands
    the evaluator the time before advancing it, and the evaluator
    takes a start time of 0.0 for one not yet set; so from a clock at
    0, the first step leaves the start unset and the second sets it to
    one time step.  After a run of n >= 2 steps the clock shows
    n * time_step and [get_metrics] reports a simulation duration of
    (n - 2) * time_step. *)
Theorem X25_reported_duration_is_two_steps_short
    (duration : R) (self : Simulator.t)
    (Hclock : Simulator.current_time self = 0)
    (Hstart : SafetyEvaluator.simulation_start_time (Simulator.safety_evaluator self)
              = 0)
    (Hdt : Simulator.time_step self <> 0)
    (Hn : (2 <= Z.to_nat (py_int (duration / Simulator.time_step self)))%nat) :
  let n := Z.to_nat (py_int (duration / Simulator.time_step self)) in
  exists self' : Simulator.t,
    Simulator.run duration self = Some self'
    /\ Simulator.current_time self' = INR n * Simulator.time_step self
    /\ SafetyMetrics.simulation_duration (Simulator.get_metrics self')
       = (INR n - 2) * Simulator.time_step self.
Proof.
  intros n. unfold Simulator.run.
  destruct (Req_dec_T _ 0) as [Hz | _]; [contradiction |].
  fold n. fold n in Hn. clearbody n.
  destruct n as [| [| k]]; [lia | lia |].
  destruct (steps_times (S k) self Hclock Hstart Hdt)
    as (self' & Hrun & Hnow & _ & Hend & Hbegin).
  exists self'. split; [exact Hrun |]. split; [exact Hnow |].
  unfold Simulator.get_metrics.
  cbn [SafetyEvaluator.calculate_metrics SafetyMetrics.simulation_duration].
  rewrite Hend, Hbegin, (S_INR (S k)). ring.
Qed.

Lemma X25_reported_duration_is_two_steps_short_witness :
  exists self' : Simulator.t,
    Simulator.run 300.0 (create_conflict_scenario fresh_simulator) = Some self'
    /\ SafetyMetrics.simulation_duration (Simulator.get_metrics self')
       = (INR 300 - 2) * (1.0 / 1).
Proof.
  assert (Hsteps : Z.to_nat
                     (py_int (300.0 / Simulator.time_step
                                        (create_conflict_scenario fresh_simulator)))
                   = 300%nat).
  { replace (300.0 / Simulator.time_step (create_conflict_scenario fresh_simulator))
      with 300.0
      by (cbn [Simulator.time_step create_conflict_scenario Simulator.add_aircraft
               Simulator.with_aircraft fresh_simulator]; lra).
    apply lookahead_300. }
  destruct (X25_reported_duration_is_two_steps_short 300.0
              (create_conflict_scenario fresh_simulator))
    as (self' & Hrun & _ & Hduration).
  - cbn [Simulator.current_time create_conflict_scenario Simulator.add_aircraft
         Simulator.with_aircraft fresh_simulator]. lra.
  - cbn [SafetyEvaluator.simulation_start_time Simulator.safety_evaluator
         create_conflict_scenario Simulator.add_aircraft Simulator.with_aircraft
         fresh_simulator SafetyEvaluator.init]. lra.
  - cbn [Simulator.time_step create_conflict_scenario Simulator.add_aircraft
         Simulator.with_aircraft fresh_simulator]. lra.
  - rewrite Hsteps. lia.
  - exists self'. split; [exact Hrun |].
    rewrite Hsteps in Hduration. exact Hduration.
Defined.

(** ** Adding, finding and removing aircraft *)

Lemma find_app_one {A : Type} (f : A -> bool) (l : list A) (x : A) :
  List.find f (l ++ [x])
  = match List.find f l with
    | Some y => Some y
    | None => if f x then Some x else None
    end.
Proof.
  induction l as [| y l IH]; [reflexivity |].
  cbn [app List.find]. destruct (f y); [reflexivity | exact IH].
Qed.

Lemma find_filter_other {A : Type} (f g : A -> bool) (l : list A) :
  (forall x, f x = true -> g x = true) ->
  List.find f (List.filter g l) = List.find f l.
Proof.
  intros Hfg. induction l as [| x l IH]; [reflexivity |].
  cbn [List.filter List.find]. destruct (f x) eqn:Hf.
  - rewrite (Hfg x Hf). cbn [List.find]. rewrite Hf. reflexivity.
  - destruct (g x); [cbn [List.find]; rewrite Hf |]; exact IH.
Qed.

Lemma find_filter_none {A : Type} (f : A -> bool) (l : list A) :
  List.find f (List.filter (fun x => negb (f x)) l) = None.
Proof.
  induction l as [| x l IH]; [reflexivity |].
  cbn [List.filter]. destruct (f x) eqn:Hf; cbn [negb]; [exact IH |].
  cbn [List.find]. rewrite Hf. exact IH.
Qed.

(** X26.  The aircraft list by callsign.  [remove_aircraft] removes
    every aircraft with the callsign and leaves the others findable;
    [add_aircraft] does not check for duplicates, and [get_aircraft]
    returns the earliest added aircraft with the callsign: a second
    aircraft added under a callsign already present cannot be found. *)
Theorem X26_aircraft_by_callsign
    (self : Simulator.t) (a : Aircraft.t) (cs other : string) :
  Simulator.get_aircraft cs (Simulator.remove_aircraft cs self) = None
  /\ (other <> cs ->
      Simulator.get_aircraft other (Simulator.remove_aircraft cs self)
      = Simulator.get_aircraft other self)
  /\ Simulator.get_aircraft (Aircraft.callsign a) (Simulator.add_aircraft a self)
     = Some (default a (Simulator.get_aircraft (Aircraft.callsign a) self))
  /\ (other <> Aircraft.callsign a ->
      Simulator.get_aircraft other (Simulator.add_aircraft a self)
      = Simulator.get_aircraft other self)
  /\ (forall found : Aircraft.t,
        Simulator.get_aircraft cs self = Some found ->
        Aircraft.callsign found = cs /\ found ∈ Simulator.aircraft self).
Proof.
  unfold Simulator.get_aircraft, Simulator.remove_aircraft, Simulator.add_aircraft,
    Simulator.with_aircraft.
  cbn [Simulator.aircraft].
  split; [apply find_filter_none |]. split; [| split; [| split]].
  - intros Hne. apply find_filter_other. intros x Hx.
    apply bool_decide_eq_true in Hx.
    rewrite bool_decide_eq_false_2 by congruence. reflexivity.
  - rewrite find_app_one. destruct (List.find _ _); [reflexivity |].
    rewrite bool_decide_eq_true_2 by reflexivity. reflexivity.
  - intros Hne. rewrite find_app_one. destruct (List.find _ _); [reflexivity |].
    rewrite bool_decide_eq_false_2 by congruence. reflexivity.
  - intros found Hfound. apply find_some in Hfound as [Hin Hcs].
    apply bool_decide_eq_true in Hcs. split; [exact Hcs |].
    apply list_elem_of_In, Hin.
Qed.

(** ** Recent instructions *)

(** X27.  [get_recent_instructions] measures the window back from the
    newest logged instruction, not from the current time.  On a log
    in issuing order and a window that is not negative, it returns a
    suffix of the log that contains the newest instruction, and every
    instruction left out is older than the window; on an empty log it
    returns nothing. *)
Theorem X27_recent_instructions_are_a_suffix
    (s : ATCSystem.t) (window : R) (newest : ATCInstruction.t)
    (Hchrono : chronological (ATCSystem.instructions s))
    (Hnewest : last (ATCSystem.instructions s) = Some newest)
    (Hwindow : 0 <= window) :
  exists k : nat,
    ATCSystem.get_recent_instructions s window = drop k (ATCSystem.instructions s)
    /\ (k < length (ATCSystem.instructions s))%nat
    /\ last (ATCSystem.get_recent_instructions s window) = Some newest
    /\ Forall (fun i => ATCInstruction.timestamp newest - ATCInstruction.timestamp i
                        > window)
         (take k (ATCSystem.instructions s)).
Proof.
  unfold ATCSystem.get_recent_instructions. rewrite Hnewest.
  set (log := ATCSystem.instructions s) in *.
  set (now := ATCInstruction.timestamp newest).
  assert (Hsame : List.filter
                    (fun inst => Rleb (now - ATCInstruction.timestamp inst) window) log
                  = List.filter
                      (fun inst => Rgeb (ATCInstruction.timestamp inst) (now - window))
                      log).
  { apply List.filter_ext. intros i. unfold Rgeb.
    case_Rleb (now - ATCInstruction.timestamp i) window;
      case_Rleb (now - window) (ATCInstruction.timestamp i); reflexivity || lra. }
  rewrite Hsame.
  destruct (clear_keeps_suffix (now - window) log Hchrono) as (k & Hk & Hold).
  assert (Hlt : (k < length log)%nat).
  { destruct (le_lt_dec (length log) k) as [Hge | Hlt]; [exfalso | exact Hlt].
    rewrite take_ge in Hold by exact Hge.
    apply last_Some in Hnewest as (front & Hlog).
    rewrite Hlog in Hold. apply Forall_app in Hold as [_ Hold].
    inversion Hold as [| x rest Hx _]; subst x rest.
    cbn beta in Hx. unfold now in Hx. lra. }
  exists k. rewrite Hk. split; [reflexivity |]. split; [exact Hlt |]. split.
  - apply last_Some in Hnewest as (front & Hlog).
    rewrite Hlog in Hlt |- *. rewrite length_app in Hlt. cbn [length] in Hlt.
    rewrite drop_app_le by lia. apply last_snoc.
  - eapply Forall_impl; [exact Hold |]. intros i Hi. cbn beta in Hi |- *.
    unfold now in Hi |- *. lra.
Qed.

Lemma X27_recent_instructions_are_a_suffix_witness :
  exists k : nat,
    ATCSystem.get_recent_instructions (fst cooling_state) 300
    = drop k (ATCSystem.instructions (fst cooling_state))
    /\ (k < length (ATCSystem.instructions (fst cooling_state)))%nat.
Proof.
  destruct (X27_recent_instructions_are_a_suffix (fst cooling_state) 300
              (heading_change UAL100 100 120 scenario_conflict))
    as (k & Hk & Hlt & _).
  - apply (log_upto_snoc 100 [] (heading_change UAL100 100 120 scenario_conflict)
             (log_upto_init 100 Airspace.init) eq_refl).
  - reflexivity.
  - lra.
  - exists k. split; [exact Hk | exact Hlt].
Defined.

(** ** Severity of a recorded violation *)

(** X28.  The severity of a violation depends on the horizontal
    separation alone.  The horizontal minimum is 5 NM at every
    altitude, so whatever the vertical separation and the altitudes of
    the pair, the record is "critical" below 2.5 NM, "major" from
    2.5 NM to below 3.75 NM and "minor" from 3.75 NM on. *)
Theorem X28_violation_severity_by_distance (h_sep v_sep : R) (ac1 ac2 : Aircraft.t) :
  SafetyEvaluator._classify_violation_severity h_sep v_sep ac1 ac2
  = if Rltb h_sep 2.5 then "critical"
    else if Rltb h_sep 3.75 then "major" else "minor".
Proof.
  unfold SafetyEvaluator._classify_violation_severity,
    SafetyEvaluator.CRITICAL_VIOLATION_THRESHOLD.
  rewrite standard_horizontal.
  case_Rltb (h_sep / 5) 0.5.
  - rewrite (proj2 (Rltb_true h_sep 2.5)) by lra. reflexivity.
  - rewrite (proj2 (Rltb_false h_sep 2.5)) by lra.
    case_Rltb (h_sep / 5) 0.75.
    + rewrite (proj2 (Rltb_true h_sep 3.75)) by lra. reflexivity.
    + rewrite (proj2 (Rltb_false h_sep 3.75)) by lra. reflexivity.
Qed.

(** ** Sector occupancy *)

Lemma in_sector (sector : Sector.t) (a : Aircraft.t) (l : list Aircraft.t) :
  a ∈ l -> Sector.contains sector (Aircraft.position a) = true ->
  a ∈ Airspace.get_aircraft_in_sector sector l.
Proof.
  intros Hin Hc. unfold Airspace.get_aircraft_in_sector.
  apply list_elem_of_In, filter_In. split; [apply list_elem_of_In, Hin | exact Hc].
Qed.

(** X29.  The default sectors overlap on their borders.  An aircraft
    on the middle meridian, inside the y range and between 1000 and
    45000 ft, is listed by [get_aircraft_in_sector] both for the
    western and for the eastern sector of its altitude band, although
    [get_sector] names one sector only. *)
Theorem X29_sectors_overlap_on_the_middle_meridian
    (x0 x1 y0 y1 : R) (a : Aircraft.t) (l : list Aircraft.t)
    (Hx : x0 <= x1)
    (Hmid : Position.x (Aircraft.position a) = (x0 + x1) / 2)
    (Hy : y0 <= Position.y (Aircraft.position a) <= y1)
    (Halt : 1000 <= Position.altitude (Aircraft.position a) <= 45000)
    (Hin : a ∈ l) :
  let sectors := Airspace.create_default_sectors [] (x0, x1) (y0, y1) in
  exists west east : Sector.t,
    west ∈ sectors /\ east ∈ sectors
    /\ Sector.name west <> Sector.name east
    /\ a ∈ Airspace.get_aircraft_in_sector west l
    /\ a ∈ Airspace.get_aircraft_in_sector east l.
Proof.
  intros sectors. subst sectors.
  unfold Airspace.create_default_sectors, Airspace.add_sector. cbn [app fst snd].
  destruct (Rle_dec 18000 (Position.altitude (Aircraft.position a))) as [Hhigh | Hlow].
  - exists (Sector.mk "HIGH_WEST" x0 ((x0 + x1) / 2) y0 y1 18000 45000 20),
           (Sector.mk "HIGH_EAST" ((x0 + x1) / 2) x1 y0 y1 18000 45000 20).
    split; [apply list_elem_of_here |].
    split; [apply list_elem_of_further, list_elem_of_here |].
    split; [cbn; discriminate |].
    split; apply in_sector; try exact Hin; unfold Sector.contains;
      cbn [Sector.x_min Sector.x_max Sector.y_min Sector.y_max Sector.altitude_min
           Sector.altitude_max]; rewrite Hmid; case_Rleb_goal; reflexivity.
  - exists (Sector.mk "LOW_WEST" x0 ((x0 + x1) / 2) y0 y1 1000 18000 20),
           (Sector.mk "LOW_EAST" ((x0 + x1) / 2) x1 y0 y1 1000 18000 20).
    split; [do 2 apply list_elem_of_further; apply list_elem_of_here |].
    split; [do 3 apply list_elem_of_further; apply list_elem_of_here |].
    split; [cbn; discriminate |].
    split; apply in_sector; try exact Hin; unfold Sector.contains;
      cbn [Sector.x_min Sector.x_max Sector.y_min Sector.y_max Sector.altitude_min
           Sector.altitude_max]; rewrite Hmid; case_Rleb_goal; reflexivity.
Qed.

Lemma X29_sectors_overlap_on_the_middle_meridian_witness :
  exists west east : Sector.t,
    Sector.name west <> Sector.name east
    /\ at_place "A" 100 10000 ∈ Airspace.get_aircraft_in_sector west [at_place "A" 100 10000]
    /\ at_place "A" 100 10000 ∈ Airspace.get_aircraft_in_sector east [at_place "A" 100 10000].
Proof.
  destruct (X29_sectors_overlap_on_the_middle_meridian 0 200 0 200
              (at_place "A" 100 10000) [at_place "A" 100 10000])
    as (west & east & _ & _ & Hname & Hw & He).
  - lra.
  - cbn. lra.
  - cbn. lra.
  - cbn. lra.
  - apply list_elem_of_here.
  - exists west, east. split; [exact Hname |]. split; [exact Hw | exact He].
Defined.

(** X30.  A full sector stays full when aircraft are added to the
    list, before or after the ones already there: [is_sector_full]
    compares the number of aircraft the sector contains with
    [max_aircraft], and that number only grows. *)
Theorem X30_full_sector_stays_full
    (sector : Sector.t) (l added : list Aircraft.t)
    (Hfull : Airspace.is_sector_full sector l = true) :
  Airspace.is_sector_full sector (l ++ added) = true
  /\ Airspace.is_sector_full sector (added ++ l) = true
  /\ (Sector.max_aircraft sector
      <= Z.of_nat (length (Airspace.get_aircraft_in_sector sector l)))%Z.
Proof.
  unfold Airspace.is_sector_full, Airspace.get_aircraft_in_sector in *.
  apply Z.leb_le in Hfull.
  rewrite !List.filter_app, !length_app.
  repeat split; try apply Z.leb_le; lia.
Qed.

Lemma X30_full_sector_stays_full_witness :
  Airspace.is_sector_full (Sector.mk "CLOSED" 0 1 0 1 0 1 0) ([] ++ [UAL100]) = true.
Proof.
  apply (X30_full_sector_stays_full (Sector.mk "CLOSED" 0 1 0 1 0 1 0) [] [UAL100]).
  reflexivity.
Defined.
